(** * Quant analytics dashboard: ingestion, resampling, pair analytics, alerts

    A shallow embedding of the Python sources
      - [services/data_ingestion.py] (identical to the class of the same
        name in [app.py]),
      - [services/analytics.py] and the [QuantitativeAnalytics] class of
        [app.py],
      - [services/alert_service.py],
    together with the properties their specification states about them.

    Python [float] is IEEE binary64 and is embedded as Rocq's primitive
    [float]; Python [int] is embedded as [Z] (or [nat] for lengths); [dict]
    results are records or association lists; exceptions are values of an
    error monad. *)

From Stdlib Require Import List ZArith Lia Bool String Ascii PrimFloat.
From Stdlib Require Import Permutation Sorted.
From Stdlib Require Uint63.
Import ListNotations.

Set Warnings "-inexact-float,-register-all,-notation-for-abbreviation".

Local Open Scope string_scope.
Local Open Scope list_scope.
Local Open Scope Z_scope.

(* ===================================================================== *)
(** ** Python: exceptions and the statements that raise them *)
(* ===================================================================== *)

Module Py.

(** An exception instance, identified by its class name. *)
Inductive exn : Type := Exn (cls : string).

Definition cls_of (e : exn) : string := let 'Exn c := e in c.

Definition KeyError : exn := Exn "KeyError".
Definition ValueError : exn := Exn "ValueError".
Definition TypeError : exn := Exn "TypeError".
Definition AttributeError : exn := Exn "AttributeError".

(** The outcome of evaluating an expression: a value or a raised
    exception. *)
Inductive result (A : Type) : Type :=
| Ok (a : A)
| Raise (e : exn).
Arguments Ok {A} a.
Arguments Raise {A} e.

Definition bind {A B} (r : result A) (k : A -> result B) : result B :=
  match r with
  | Ok a => k a
  | Raise e => Raise e
  end.

(** [try: body  except Exception as e: handler e]. *)
Definition try_except {A} (body : result A) (handler : exn -> A) : A :=
  match body with
  | Ok a => a
  | Raise e => handler e
  end.

Definition is_ok {A} (r : result A) : bool :=
  match r with Ok _ => true | Raise _ => false end.

(** The classes of the built-in exceptions that subscripting, attribute
    access, the conversions [float] and [int], the division [v / 1000]
    and [datetime.fromtimestamp] raise. *)
Definition builtin_class (e : exn) : Prop :=
  In (cls_of e)
     ["KeyError"; "TypeError"; "AttributeError"; "ValueError"; "OverflowError";
      "OSError"].

End Py.

Export Py.

Declare Scope py_scope.
Delimit Scope py_scope with py.
Notation "x <- c ;; k" := (Py.bind c (fun x => k))
  (at level 61, c at next level, right associativity) : py_scope.
Local Open Scope py_scope.

(* ===================================================================== *)
(** ** JSON values, as [json.loads] builds them *)
(* ===================================================================== *)

Module Json.

Inductive json : Type :=
| JNull
| JBool (b : bool)
| JInt (z : Z)
| JFloat (f : float)
| JString (s : string)
| JArray (l : list json)
| JObject (fields : list (string * json)).

Fixpoint assoc (k : string) (fields : list (string * json)) : option json :=
  match fields with
  | [] => None
  | (k', v) :: rest => if String.eqb k k' then Some v else assoc k rest
  end.

(** [data[k]]: subscripting a dict raises [KeyError] on a missing key;
    subscripting a list, number, boolean or [None] with a string raises
    [TypeError], and so does subscripting a string. *)
Definition getitem (data : json) (k : string) : result json :=
  match data with
  | JObject fields =>
      match assoc k fields with
      | Some v => Ok v
      | None => Raise KeyError
      end
  | _ => Raise TypeError
  end.

(** [data.get(k)]: [None] on a missing key; only a dict has [get]. *)
Definition get (data : json) (k : string) : result json :=
  match data with
  | JObject fields =>
      match assoc k fields with
      | Some v => Ok v
      | None => Ok JNull
      end
  | _ => Raise AttributeError
  end.

(** [v == 'trade'] for a JSON value [v]. *)
Definition eq_str (v : json) (s : string) : bool :=
  match v with
  | JString s' => String.eqb s' s
  | _ => false
  end.

End Json.

Export Json.

(* ===================================================================== *)
(** ** [BinanceDataIngestion]: tick normalisation, buffer, message handler *)
(* ===================================================================== *)

Module Ingestion.

Record tick : Type := mkTick {
  symbol : string;
  timestamp : string;
  price : float;
  size : float
}.

(** *** The buffer: [self.buffer.append(tick)], then [pop(0)] when the
    length exceeds the capacity (the literal 1000 in the source). *)

Definition pop0 {A} (l : list A) : list A := tl l.

Definition buffer_append {A} (C : nat) (buffer : list A) (t : A) : list A :=
  let buffer := buffer ++ [t] in
  if (C <? List.length buffer)%nat then pop0 buffer else buffer.

Definition BUFFER_CAPACITY : nat := 1000.

Definition append_all {A} (C : nat) (buffer : list A) (ts : list A) : list A :=
  fold_left (buffer_append C) ts buffer.

(** [get_recent_buffer(clear)]: the copy and the buffer left behind. *)
Definition get_recent_buffer {A} (buffer : list A) (clear : bool)
  : list A * list A :=
  (buffer, if clear then [] else buffer).

Section Handler.

(** Library conversions the handler relies on. *)

(** [s.lower()], the Unicode-aware lower-casing of [str]. *)
Variable str_lower : string -> string.
(** [float(s)] for a string: [None] stands for [ValueError]. *)
Variable float_of_string : string -> option float.
(** [float(n)] for an int: [None] stands for [OverflowError]. *)
Variable float_of_int : Z -> option float.
(** [datetime.fromtimestamp(v / 1000).isoformat()], which depends on
    the local time zone; the division raises [TypeError] or
    [OverflowError], the conversion [OverflowError], [OSError] or
    [ValueError]. *)
Variable isoformat_of_millis : json -> result string.
(** [json.loads]. *)
Variable json_loads : string -> result json.

(** The collaborators of the handler: the tick store and the
    subscribers act on an outside world [W]; each call returns the
    world it leaves and the exception it raised, if any. *)
Variable W : Type.
Variable save_tick : tick -> W -> W * option exn.
Variable callbacks : list (tick -> W -> W * option exn).

(** [float(v)]. *)
Definition py_float (v : json) : result float :=
  match v with
  | JString s =>
      match float_of_string s with
      | Some f => Ok f
      | None => Raise ValueError
      end
  | JInt z =>
      match float_of_int z with
      | Some f => Ok f
      | None => Raise (Exn "OverflowError")
      end
  | JFloat f => Ok f
  | JBool b => Ok (if b then 1%float else 0%float)
  | JNull | JArray _ | JObject _ => Raise TypeError
  end.

(** A trade event that lacks a required field or whose price or
    quantity is a string that [float] rejects. *)
Inductive malformed (fields : list (string * json)) : Prop :=
| missing_field (k : string) :
    In k ["s"; "E"; "p"; "q"] -> assoc k fields = None -> malformed fields
| non_numeric (k s : string) :
    In k ["p"; "q"] -> assoc k fields = Some (JString s) ->
    float_of_string s = None -> malformed fields.

(** [v.lower()]. *)
Definition py_lower (v : json) : result string :=
  match v with
  | JString s => Ok (str_lower s)
  | _ => Raise AttributeError
  end.

(** [normalize_tick]: the dict display evaluates its values in source
    order, so the first failing field decides the exception. *)
Definition normalize_tick (data : json) : result tick :=
  s <- getitem data "s" ;;
  sym <- py_lower s ;;
  E <- getitem data "E" ;;
  ts <- isoformat_of_millis E ;;
  p <- getitem data "p" ;;
  pr <- py_float p ;;
  q <- getitem data "q" ;;
  sz <- py_float q ;;
  Ok (mkTick sym ts pr sz).

Record state : Type := mkState {
  world : W;
  buffer : list tick;
  printed : list exn   (* "Error processing message: {e}" lines *)
}.

(** A statement run on the state: the state it leaves, and the
    exception that ended it early, if any. *)
Definition stmt : Type := state -> state * option exn.

(** [for callback in self.callbacks: callback(tick)]. *)
Fixpoint run_callbacks (cbs : list (tick -> W -> W * option exn))
         (t : tick) (st : state) : state * option exn :=
  match cbs with
  | [] => (st, None)
  | cb :: rest =>
      let (w', r) := cb t (world st) in
      let st' := mkState w' (buffer st) (printed st) in
      match r with
      | Some e => (st', Some e)
      | None => run_callbacks rest t st'
      end
  end.

(** The body of the [try] block of [on_message]. *)
Definition on_message_body (message : string) : stmt := fun st =>
  match json_loads message with
  | Raise e => (st, Some e)
  | Ok data =>
      match get data "e" with
      | Raise e => (st, Some e)
      | Ok ev =>
          if eq_str ev "trade" then
            match normalize_tick data with
            | Raise e => (st, Some e)
            | Ok t =>
                let (w', r) := save_tick t (world st) in
                let st1 := mkState w' (buffer st) (printed st) in
                match r with
                | Some e => (st1, Some e)
                | None =>
                    let st2 :=
                      mkState w' (buffer_append BUFFER_CAPACITY (buffer st) t)
                              (printed st) in
                    run_callbacks callbacks t st2
                end
            end
          else (st, None)
      end
  end.

(** [on_message]: the body under [except Exception as e: print(...)]. *)
Definition on_message (message : string) : stmt := fun st =>
  match on_message_body message st with
  | (st', None) => (st', None)
  | (st', Some e) =>
      (mkState (world st') (buffer st') (printed st' ++ [e]), None)
  end.

End Handler.

Arguments mkState {W} world buffer printed.
Arguments world {W} s.
Arguments buffer {W} s.
Arguments printed {W} s.
Arguments run_callbacks {W} cbs t st.
Arguments on_message_body str_lower float_of_string float_of_int
          isoformat_of_millis json_loads {W} save_tick callbacks message st.
Arguments on_message str_lower float_of_string float_of_int
          isoformat_of_millis json_loads {W} save_tick callbacks message st.

End Ingestion.

(* ===================================================================== *)
(** ** numpy reductions on float64 arrays *)
(* ===================================================================== *)

Module Np.

Local Open Scope float_scope.

(** [float(n)] for a length. *)
Definition of_nat (n : nat) : float :=
  PrimFloat.of_uint63 (Uint63.of_Z (Z.of_nat n)).

Definition isnan (x : float) : bool := PrimFloat.is_nan x.

(** *** [np.sum]: numpy's pairwise summation of a contiguous array *)

(** [r[j] += a[i + j]] for the eight running sums and one block. *)
Definition add8 (r block : list float) : list float :=
  map (fun p => fst p + snd p) (combine r block).

(** The loop [for (i = 8; i < n - (n % 8); i += 8)] over [k] full
    blocks: the running sums and the elements left after them. *)
Fixpoint add_blocks (k : nat) (r a : list float) : list float * list float :=
  match k with
  | O => (r, a)
  | S k' => add_blocks k' (add8 r (firstn 8 a)) (skipn 8 a)
  end.

(** [((r0 + r1) + (r2 + r3)) + ((r4 + r5) + (r6 + r7))]. *)
Definition tree8 (r : list float) : float :=
  match r with
  | [r0; r1; r2; r3; r4; r5; r6; r7] =>
      ((r0 + r1) + (r2 + r3)) + ((r4 + r5) + (r6 + r7))
  | _ => nan
  end.

(** The branch for 8 to 128 elements: eight running sums over the full
    blocks of 8, added as a tree, then the elements that remain. *)
Definition sum_unrolled (a : list float) : float :=
  let (r, rest) :=
    add_blocks (List.length a / 8 - 1) (firstn 8 a) (skipn 8 a) in
  fold_left PrimFloat.add rest (tree8 r).

(** [pairwise_sum(a, n)]: fewer than 8 elements are added from left to
    right starting at -0; more than 128 are split at [n2 = n / 2]
    rounded down to a multiple of 8 and the sums of the two parts are
    added. Both parts are shorter than the array, so a [fuel] of its
    length is never used up. *)
Fixpoint pairwise_sum (fuel : nat) (a : list float) : float :=
  let n := List.length a in
  if (n <? 8)%nat then fold_left PrimFloat.add a neg_zero
  else if (n <=? 128)%nat then sum_unrolled a
  else
    match fuel with
    | O => sum_unrolled a
    | S fuel' =>
        let n2 := (n / 2 - (n / 2) mod 8)%nat in
        pairwise_sum fuel' (firstn n2 a) + pairwise_sum fuel' (skipn n2 a)
    end.

(** [np.sum]: the reduction starts from the identity -0 and adds the
    pairwise sum of the array; the sum of an empty array is 0. *)
Definition sum (a : list float) : float :=
  match a with
  | [] => 0
  | _ => neg_zero + pairwise_sum (List.length a) a
  end.

(** [np.mean]: the sum divided by the count. *)
Definition mean (a : list float) : float := sum a / of_nat (List.length a).

(** [np.std] (ddof = 0): the root of the mean squared deviation. *)
Definition std (a : list float) : float :=
  let m := mean a in
  PrimFloat.sqrt (sum (map (fun x => (x - m) * (x - m)) a) / of_nat (List.length a)).

(** [a[-1]] on a non-empty array; NaN stands in on the empty one, where
    the callers never subscript. *)
Definition last (a : list float) : float := List.last a nan.

(** [a[-w:]] for [w >= 1]: the trailing [w] elements (all of them when
    [w] exceeds the length). *)
Definition tail_slice (w : nat) (a : list float) : list float :=
  skipn (List.length a - w) a.

(** Element-wise product [a * b] of arrays of the same length. *)
Definition mul (a b : list float) : list float :=
  map (fun p => fst p * snd p) (combine a b).

Definition any_nan (a : list float) : bool := existsb isnan a.

End Np.

(* ===================================================================== *)
(** ** pandas frames: resampling into time buckets, merge, dropna *)
(* ===================================================================== *)

Module Frame.

(** A row of [SELECT timestamp, price, size FROM ticks]. *)
Record tick_row : Type := mkRow {
  row_timestamp : string;
  row_price : float;
  row_size : float
}.

(** A frame with a timestamp column (epoch milliseconds of a naive
    datetime) and named float64 columns; every row carries one value
    per column. [pd.DataFrame()] is the frame without columns or
    rows. *)
Record frame : Type := mkFrame {
  columns : list string;
  rows : list (Z * list float)
}.

Definition empty_frame : frame := mkFrame [] [].

(** [df.empty] and [len(df)]. *)
Definition is_empty (f : frame) : bool :=
  match rows f with [] => true | _ => false end.

Definition len (f : frame) : nat := List.length (rows f).

Fixpoint index_of (c : string) (cols : list string) : option nat :=
  match cols with
  | [] => None
  | c' :: rest =>
      if String.eqb c c' then Some O
      else option_map S (index_of c rest)
  end.

(** [c in df.columns]. *)
Definition has_column (c : string) (f : frame) : bool :=
  match index_of c (columns f) with Some _ => true | None => false end.

(** [df[c].values], when the column exists. *)
Definition col (c : string) (f : frame) : option (list float) :=
  match index_of c (columns f) with
  | Some i => Some (map (fun r => nth i (snd r) nan) (rows f))
  | None => None
  end.

(** [df.dropna()]: rows holding a NaN are removed. *)
Definition dropna (f : frame) : frame :=
  mkFrame (columns f)
          (filter (fun r => negb (Np.any_nan (snd r))) (rows f)).

(** [df[name] = values] for values on the same index: a new last
    column. *)
Definition add_column (name : string) (vals : list float) (f : frame) : frame :=
  mkFrame (columns f ++ [name])
          (map (fun p => (fst (fst p), snd (fst p) ++ [snd p]))
               (combine (rows f) vals)).

(** [pd.merge(l, r, on='timestamp', suffixes=(sl, sr))]: an inner join
    in the order of the left keys; a column name present on both sides
    receives the side's suffix. *)
Definition suffixed (suffix : string) (other : list string) (c : string) : string :=
  if existsb (String.eqb c) other then String.append c suffix else c.

Definition merge (l r : frame) (sl sr : string) : frame :=
  mkFrame
    (map (suffixed sl (columns r)) (columns l)
     ++ map (suffixed sr (columns l)) (columns r))
    (flat_map
       (fun lr =>
          map (fun rr => (fst lr, snd lr ++ snd rr))
              (filter (fun rr => fst rr =? fst lr) (rows r)))
       (rows l)).

(** *** Time buckets *)

Definition DAY_MS : Z := 86400000.

(** Stable sort by timestamp. *)
Fixpoint insert_by_time {A} (x : Z * A) (l : list (Z * A)) : list (Z * A) :=
  match l with
  | [] => [x]
  | y :: ys => if fst y <? fst x then y :: insert_by_time x ys else x :: y :: ys
  end.

Definition sort_by_time {A} (l : list (Z * A)) : list (Z * A) :=
  fold_right insert_by_time [] l.

(** The start of the bucket of width [w] that holds [t]; bins are
    anchored at midnight of the day of the earliest timestamp
    (pandas' [origin='start_day']). *)
Definition bucket_start (w origin t : Z) : Z :=
  origin + ((t - origin) / w) * w.

Definition start_day (sorted : list Z) : Z :=
  match sorted with
  | [] => 0
  | t0 :: _ => (t0 / DAY_MS) * DAY_MS
  end.

(** The non-empty buckets in ascending order, each with its (price,
    size) pairs in time order. The bins pandas creates between them
    hold no tick; their NaN prices make [dropna] remove them. *)
Definition groups (w : Z) (ticks : list (Z * (float * float)))
  : list (Z * list (float * float)) :=
  let sorted := sort_by_time ticks in
  let origin := start_day (map fst sorted) in
  let keyed := map (fun r => (bucket_start w origin (fst r), snd r)) sorted in
  let keys := nodup Z.eq_dec (map fst keyed) in
  map (fun k => (k, map snd (filter (fun r => fst r =? k) keyed))) keys.

(** *** Per-bucket aggregations; NaN values are skipped, and a bucket
    without any value aggregates to NaN (to 0 for [sum]). *)

Definition valid (vs : list float) : list float :=
  filter (fun v => negb (Np.isnan v)) vs.

Definition fmax (a b : float) : float := if PrimFloat.ltb a b then b else a.
Definition fmin (a b : float) : float := if PrimFloat.ltb b a then b else a.

Definition agg_first (vs : list float) : float := hd nan (valid vs).
Definition agg_last (vs : list float) : float := List.last (valid vs) nan.

Definition agg_max (vs : list float) : float :=
  match valid vs with
  | [] => nan
  | v :: rest => fold_left fmax rest v
  end.

Definition agg_min (vs : list float) : float :=
  match valid vs with
  | [] => nan
  | v :: rest => fold_left fmin rest v
  end.

Definition agg_sum (vs : list float) : float :=
  fold_left PrimFloat.add (valid vs) 0%float.

(** [.ohlc()]: one pass over the bucket that keeps (open, high, low,
    close). *)
Definition ohlc_step (acc : float * float * float * float) (v : float)
  : float * float * float * float :=
  let '(o, h, l, _) := acc in (o, fmax h v, fmin l v, v).

Definition agg_ohlc (vs : list float) : float * float * float * float :=
  match valid vs with
  | [] => (nan, nan, nan, nan)
  | v :: rest => fold_left ohlc_step rest (v, v, v, v)
  end.

Definition ohlc_values (q : float * float * float * float) : list float :=
  let '(o, h, l, c) := q in [o; h; l; c].

(** *** The bars of the buckets *)

Notation bucket := (Z * list (float * float))%type.

Definition prices (b : bucket) : list float := map fst (snd b).
Definition sizes (b : bucket) : list float := map snd (snd b).

(** The bar of a bucket: first, max, min and last price and the summed
    size. *)
Definition bar (b : bucket) : Z * list float :=
  (fst b, [agg_first (prices b); agg_max (prices b); agg_min (prices b);
           agg_last (prices b); agg_sum (sizes b)]).

(** The bar of a bucket that carries the last price and the summed size
    only. *)
Definition close_bar (b : bucket) : Z * list float :=
  (fst b, [agg_last (prices b); agg_sum (sizes b)]).

(** The buckets whose bar survives [dropna]. *)
Definition keep (b : bucket) : bool :=
  negb (Np.isnan (agg_last (prices b)) || Np.isnan (agg_sum (sizes b))).

(** The row that the store holds for a normalised tick. *)
Definition row_of_tick (t : Ingestion.tick) : tick_row :=
  mkRow (Ingestion.timestamp t) (Ingestion.price t) (Ingestion.size t).

(** [df.empty] for the rows a query returned. *)
Definition is_nil {A} (l : list A) : bool :=
  match l with [] => true | _ => false end.

(** [df['timestamp'] = pd.to_datetime(df['timestamp'])]: the library
    converts the column as a whole (it settles on one format for all
    entries) and raises when it rejects the column; the instants it
    returns, one per entry, replace the strings. *)
Definition parse_rows (to_datetime : list string -> option (list Z))
           (df : list tick_row) : result (list (Z * (float * float))) :=
  match to_datetime (map row_timestamp df) with
  | None => Raise ValueError
  | Some instants =>
      Ok (combine instants (map (fun r => (row_price r, row_size r)) df))
  end.

End Frame.

(* ===================================================================== *)
(** ** [QuantitativeAnalytics] of [app.py] *)
(* ===================================================================== *)

Module App.

Import Frame.
Local Open Scope float_scope.

(** The result dict of [pairwise_regression]; only the regression
    branch stores the key ['intercept']. *)
Record regression : Type := mkRegression {
  hedge_ratio : float;
  intercept : option float;
  r_squared : float;
  spread_mean : float;
  spread_std : float;
  current_spread : float
}.

(** The result dict of [calculate_spread_zscore]. *)
Record zscore : Type := mkZscore {
  current_zscore : float;
  mean : float;
  std : float
}.

(** The result dict of [rolling_correlation]. *)
Record correlation : Type := mkCorrelation {
  current_correlation : float;
  mean_correlation : float
}.

(** The two literal fallback dicts of [pairwise_regression]. *)
Definition low_confidence : regression :=
  mkRegression 1.2 None 0.75 0 1 0.5.

Definition degenerate : regression :=
  mkRegression 1.0 None 0.5 0 1 0.

(** [n * sum_x2 - sum_x * sum_x], as [regress] computes it. *)
Definition denominator (X : list float) : float :=
  Np.of_nat (List.length X) * Np.sum (Np.mul X X) - Np.sum X * Np.sum X.

(** The closed-form regression on the joined close prices (the code
    from [if len(X) < 2] on). *)
Definition regress (X y : list float) : regression :=
  if (List.length X <? 2)%nat then low_confidence
  else
    let n := Np.of_nat (List.length X) in
    let sum_x := Np.sum X in
    let sum_y := Np.sum y in
    let sum_xy := Np.sum (Np.mul X y) in
    let sum_x2 := Np.sum (Np.mul X X) in
    let denominator := n * sum_x2 - sum_x * sum_x in
    if denominator =? 0 then degenerate
    else
      let slope := (n * sum_xy - sum_x * sum_y) / denominator in
      let icpt := (sum_y - slope * sum_x) / n in
      let y_pred := map (fun x => slope * x + icpt) X in
      let ss_res :=
        Np.sum (map (fun p => (fst p - snd p) * (fst p - snd p))
                    (combine y y_pred)) in
      let y_mean := Np.mean y in
      let ss_tot := Np.sum (map (fun v => (v - y_mean) * (v - y_mean)) y) in
      let r2 := if negb (ss_tot =? 0) then 1 - ss_res / ss_tot else 0 in
      let spread := map (fun p => snd p - slope * fst p) (combine X y) in
      let nonempty := (0 <? List.length spread)%nat in
      mkRegression slope (Some icpt) r2
                   (if nonempty then Np.mean spread else 0)
                   (if nonempty then Np.std spread else 1)
                   (if nonempty then Np.last spread else 0).

(** The two aggregation routes of [resample_ticks] over the buckets. *)
Definition volume_column (g : list (Z * list (float * float))) : list float :=
  map (fun b => agg_sum (map snd (snd b))) g.

Definition route_small (g : list (Z * list (float * float))) : frame :=
  add_column "volume" (volume_column g)
    (mkFrame ["close"]
             (map (fun b => (fst b, [agg_last (map fst (snd b))])) g)).

Definition route_general (g : list (Z * list (float * float))) : frame :=
  add_column "volume" (volume_column g)
    (mkFrame ["open"; "high"; "low"; "close"]
             (map (fun b => (fst b, ohlc_values (agg_ohlc (map fst (snd b))))) g)).

Section Analytics.

(** [pd.to_datetime] on the column of stored timestamps: the instants
    in epoch milliseconds, [None] when it raises. *)
Variable to_datetime : list string -> option (list Z).
(** The bucket width in milliseconds of a fixed-width pandas frequency
    string such as ['1min'] or ['5s']; [None] when pandas rejects the
    string. Calendar frequencies (weeks, months), whose bins pandas
    labels differently, are not embedded. *)
Variable to_offset : string -> option Z.
(** [self.db.get_recent_ticks(symbol, limit)]. *)
Variable get_recent_ticks : string -> Z -> result (list tick_row).
(** The state of the [random] module and [random.uniform(a, b)]. *)
Variable rng : Type.
Variable uniform : float -> float -> rng -> float * rng.

Definition resample_body (df : list tick_row) (interval : string)
  : result frame :=
  ticks <- parse_rows to_datetime df ;;
  w <- match to_offset interval with
       | Some w => Ok w
       | None => Raise ValueError
       end ;;
  let g := groups w ticks in
  let resampled :=
    if (List.length df <? 10)%nat then route_small g else route_general g in
  Ok (dropna resampled).

Definition resample_ticks (df : list tick_row) (interval : string) : frame :=
  if (List.length df <? 5)%nat then empty_frame
  else try_except (resample_body df interval) (fun _ => empty_frame).

(** The "demo data" dict: three draws, in the order of the dict
    display. *)
Definition demo (g : rng) : regression * rng :=
  let (a, g1) := uniform (-0.1) 0.1 g in
  let (b, g2) := uniform (-0.1) 0.1 g1 in
  let (c, g3) := uniform (-10) 10 g2 in
  (mkRegression (1.2 + a) None (0.75 + b) 0 5 c, g3).

Definition pairwise_regression_body
           (symbol1 symbol2 timeframe : string) (g : rng)
  : result (regression * rng) :=
  df1 <- get_recent_ticks symbol1 200 ;;
  df2 <- get_recent_ticks symbol2 200 ;;
  if ((List.length df1 <? 5) || (List.length df2 <? 5))%nat then Ok (demo g)
  else
    let df1_resampled := resample_ticks df1 timeframe in
    let df2_resampled := resample_ticks df2 timeframe in
    if is_empty df1_resampled || is_empty df2_resampled
    then Ok (low_confidence, g)
    else
      let merged := merge df1_resampled df2_resampled "_1" "_2" in
      if (len merged <? 3)%nat then Ok (low_confidence, g)
      else
        let price_col1 :=
          if has_column "close_1" merged then "close_1" else "price_1" in
        let price_col2 :=
          if has_column "close_2" merged then "close_2" else "price_2" in
        match col price_col1 merged, col price_col2 merged with
        | Some X, Some y => Ok (regress X y, g)
        | _, _ => Ok (low_confidence, g)
        end.

Definition pairwise_regression
           (symbol1 symbol2 timeframe : string) (g : rng)
  : regression * rng :=
  try_except (pairwise_regression_body symbol1 symbol2 timeframe g)
             (fun _ => (low_confidence, g)).

(** [calculate_spread_zscore]; no statement of its [try] block raises
    on a list of floats and an int window. *)
Definition calculate_spread_zscore
           (spread_series : list float) (window : Z) (g : rng)
  : zscore * rng :=
  let n := List.length spread_series in
  if (n <? 5)%nat then
    let (z, g') := uniform (-1) 1 g in (mkZscore z 0 1, g')
  else
    let window := if (Z.of_nat n <? window)%Z then Z.of_nat n else window in
    if (window <? 2)%Z then
      (mkZscore 0
                (if (0 <? n)%nat then Np.mean spread_series else 0)
                (if (0 <? n)%nat then Np.std spread_series else 1), g)
    else
      let recent_spread := Np.tail_slice (Z.to_nat window) spread_series in
      let m := Np.mean recent_spread in
      let s := Np.std recent_spread in
      let z := if s =? 0 then 0 else (Np.last spread_series - m) / s in
      (mkZscore z m s, g).

Definition rolling_correlation
           (symbol1 symbol2 : string) (window : Z) (timeframe : string)
           (g : rng) : correlation * rng :=
  let (d, g') := uniform (-0.2) 0.2 g in
  (mkCorrelation (0.7 + d) 0.7, g').

End Analytics.

End App.

(* ===================================================================== *)
(** ** [QuantitativeAnalytics] of [services/analytics.py] *)
(* ===================================================================== *)

Module Services.

Import Frame.
Local Open Scope float_scope.

Record regression : Type := mkRegression {
  hedge_ratio : float;
  intercept : float;
  r_squared : float;
  p_value : float;
  spread_mean : float;
  spread_std : float;
  current_spread : float
}.

Record zscore : Type := mkZscore {
  current_zscore : float;
  zscore_series : list float;
  mean : float;
  std : float
}.

Record adf : Type := mkAdf {
  test_statistic : float;
  adf_p_value : float;
  critical_values : list (string * float);
  is_stationary : bool
}.

Record correlation : Type := mkCorrelation {
  current_correlation : float;
  correlation_series : list float;
  mean_correlation : float
}.

Definition neutral_zscore : zscore := mkZscore 0 [] 0 0.

Definition neutral_adf : adf :=
  mkAdf 0 1.0 [("1%", 0); ("5%", 0); ("10%", 0)] false.

Definition neutral_correlation : correlation := mkCorrelation 0 [] 0.

(** *** The two aggregation routes of [resample_ticks] *)

(** [df['price'].resample(rule).agg({'open': 'first', 'high': 'max',
    'low': 'min', 'close': 'last'})], read as the dict names it: one
    column per key. *)
Definition agg_frame (g : list (Z * list (float * float))) : frame :=
  mkFrame ["open"; "high"; "low"; "close"]
          (map (fun b =>
                  let ps := map fst (snd b) in
                  (fst b, [agg_first ps; agg_max ps; agg_min ps; agg_last ps]))
               g).

(** [df['size'].resample(rule).sum()]; as a frame its column keeps the
    name of the series, ['size']. *)
Definition volume_series (g : list (Z * list (float * float))) : list (Z * float) :=
  map (fun b => (fst b, agg_sum (map snd (snd b)))) g.

Definition volume_frame (g : list (Z * list (float * float))) : frame :=
  mkFrame ["size"] (map (fun r => (fst r, [snd r])) (volume_series g)).

(** Route for fewer than 10 ticks. The positional column that the final
    [reset_index()] adds here is an integer column and is left out. *)
Definition route_small (g : list (Z * list (float * float))) : frame :=
  merge (agg_frame g) (volume_frame g) "_x" "_y".

Definition route_general (g : list (Z * list (float * float))) : frame :=
  add_column "volume" (map snd (volume_series g))
    (mkFrame ["open"; "high"; "low"; "close"]
             (map (fun b => (fst b, ohlc_values (agg_ohlc (map fst (snd b))))) g)).

(** *** String helpers for the interval *)

Fixpoint last_char (s : string) : option ascii :=
  match s with
  | EmptyString => None
  | String c EmptyString => Some c
  | String _ r => last_char r
  end.

Definition endswith (s : string) (c : ascii) : bool :=
  match last_char s with
  | Some c' => Ascii.eqb c' c
  | None => false
  end.

(** [s[:-1]]. *)
Fixpoint init (s : string) : string :=
  match s with
  | EmptyString => EmptyString
  | String c EmptyString => EmptyString
  | String c r => String c (init r)
  end.

(** [float(x) if not pd.isna(x) else 0]. *)
Definition nan_to_zero (x : float) : float := if Np.isnan x then 0 else x.

(** [s.iloc[-1]]. *)
Definition iloc_last (a : list float) : result float :=
  match a with
  | [] => Raise (Exn "IndexError")
  | _ => Ok (Np.last a)
  end.

(** A numpy array of one or two dimensions. *)
Inductive ndarray : Type :=
| Arr1 (a : list float)
| Arr2 (ncols : nat) (rows : list (list float)).

(** [X[:, j]]. *)
Definition column (j : nat) (X : ndarray) : result (list float) :=
  match X with
  | Arr1 _ => Raise (Exn "IndexError")
  | Arr2 ncols rows =>
      if (j <? ncols)%nat then Ok (map (fun r => nth j r nan) rows)
      else Raise (Exn "IndexError")
  end.

Definition ndarray_any_nan (X : ndarray) : bool :=
  match X with
  | Arr1 a => Np.any_nan a
  | Arr2 _ rows => existsb Np.any_nan rows
  end.

(** [params[i]]. *)
Definition param (i : nat) (params : list float) : result float :=
  match nth_error params i with
  | Some p => Ok p
  | None => Raise (Exn "IndexError")
  end.

(** A fitted statsmodels OLS model: the attributes the code reads. *)
Record ols_results : Type := mkOls {
  params : list float;
  rsquared : float;
  f_pvalue : option float    (* [None]: no such attribute *)
}.

Section Analytics.

(** [pd.to_datetime] on the column of stored timestamps. *)
Variable to_datetime : list string -> option (list Z).
(** [int(s)]: [None] stands for [ValueError]. *)
Variable py_int : string -> option Z.
Variable get_recent_ticks : string -> Z -> result (list tick_row).
(** [sm.add_constant], [sm.OLS(y, X).fit()] and [adfuller]. *)
Variable add_constant : list float -> ndarray.
Variable OLS_fit : list float -> ndarray -> result ols_results.
Variable adfuller : list float -> result (float * float * list (string * float)).
(** [a.rolling(window=w).corr(b)]. *)
Variable rolling_corr : nat -> list float -> list float -> result (list float).
(** [s.mean()] of a pandas Series, which skips NaN. *)
Variable series_mean : list float -> float.
(** [s.rolling(window=w).mean()] and [s.rolling(window=w).std()] of a
    pandas Series: one value per entry of [s], NaN where the window is
    incomplete; pandas computes them incrementally from window to
    window, and [std] is the sample standard deviation (its default
    [ddof=1]). *)
Variable rolling_mean : nat -> list float -> result (list float).
Variable rolling_std : nat -> list float -> result (list float).

(** The resampling rule as a bucket width in milliseconds; a rule that
    is not a positive multiple of its unit makes [resample] fail. *)
Definition rule_of (interval : string) : result Z :=
  if endswith interval "s" then
    match py_int (init interval) with
    | Some seconds =>
        if (0 <? seconds)%Z then Ok (seconds * 1000)%Z else Raise ValueError
    | None => Raise ValueError
    end
  else if endswith interval "m" then
    match py_int (init interval) with
    | Some minutes =>
        if (0 <? minutes)%Z then Ok (minutes * 60000)%Z else Raise ValueError
    | None => Raise ValueError
    end
  else Ok 60000%Z.

Definition resample_body (df : list tick_row) (interval : string)
  : result frame :=
  ticks <- parse_rows to_datetime df ;;
  w <- rule_of interval ;;
  let g := groups w ticks in
  let result :=
    if (List.length df <? 10)%nat then route_small g else route_general g in
  Ok (dropna result).

Definition resample_ticks (df : list tick_row) (interval : string) : frame :=
  if (List.length df <? 5)%nat then empty_frame
  else try_except (resample_body df interval) (fun _ => empty_frame).

(** [pairwise_regression]: [None] is Python's [None]. *)
Definition pairwise_regression_body (symbol1 symbol2 timeframe : string)
  : result (option regression) :=
  df1 <- get_recent_ticks symbol1 500 ;;
  df2 <- get_recent_ticks symbol2 500 ;;
  if ((List.length df1 <? 10) || (List.length df2 <? 10))%nat then Ok None
  else
    let df1_resampled := resample_ticks df1 timeframe in
    let df2_resampled := resample_ticks df2 timeframe in
    if is_empty df1_resampled || is_empty df2_resampled then Ok None
    else
      let merged := merge df1_resampled df2_resampled "_1" "_2" in
      if (len merged <? 5)%nat then Ok None
      else
        match col "close_1" merged, col "close_2" merged with
        | Some X0, Some y =>
            let X := add_constant X0 in
            if ndarray_any_nan X || Np.any_nan y then Ok None
            else
              model <- OLS_fit y X ;;
              hedge <- (if (1 <? List.length (params model))%nat
                        then param 1 (params model) else Ok 0) ;;
              x1 <- column 1 X ;;
              let spread := map (fun p => fst p - hedge * snd p) (combine y x1) in
              p0 <- param 0 (params model) ;;
              let nonempty := (0 <? List.length spread)%nat in
              Ok (Some (mkRegression
                          hedge p0 (rsquared model)
                          (match f_pvalue model with Some p => p | None => 0.0 end)
                          (if nonempty then Np.mean spread else 0)
                          (if nonempty then Np.std spread else 0)
                          (if nonempty then Np.last spread else 0)))
        | _, _ => Ok None
        end.

Definition pairwise_regression (symbol1 symbol2 timeframe : string)
  : option regression :=
  try_except (pairwise_regression_body symbol1 symbol2 timeframe)
             (fun _ => None).

(** [(spread_series - rolling_mean) / rolling_std], element by
    element. *)
Definition zscores (s rm rs : list float) : list float :=
  map (fun p => (fst (fst p) - snd (fst p)) / snd p)
      (combine (combine s rm) rs).

(** The body of the [try] block; a negative window makes [rolling]
    raise. *)
Definition zscore_body (spread_series : list float) (window : Z)
  : result zscore :=
  let n := List.length spread_series in
  let w := Z.min window (Z.of_nat n) in
  if (w <? 0)%Z then Raise ValueError
  else
    rm <- rolling_mean (Z.to_nat w) spread_series ;;
    rs <- rolling_std (Z.to_nat w) spread_series ;;
    let z := zscores spread_series rm rs in
    zl <- iloc_last z ;;
    ml <- iloc_last rm ;;
    sl <- iloc_last rs ;;
    Ok (mkZscore (nan_to_zero zl)
                 (filter (fun v => negb (Np.isnan v)) z)
                 (nan_to_zero ml) (nan_to_zero sl)).

Definition calculate_spread_zscore (spread_series : list float) (window : Z)
  : zscore :=
  let n := List.length spread_series in
  if ((Z.of_nat n <? window)%Z || (n <? 5)%nat) then neutral_zscore
  else try_except (zscore_body spread_series window) (fun _ => neutral_zscore).

Definition adf_body (series : list float) : result adf :=
  let series_clean := filter (fun v => negb (Np.isnan v)) series in
  if (List.length series_clean <? 10)%nat then Ok neutral_adf
  else
    r <- adfuller series_clean ;;
    let '(stat, pvalue, crit) := r in
    Ok (mkAdf stat pvalue crit (pvalue <=? 0.05)).

Definition adf_test (series : list float) : adf :=
  if (List.length series <? 10)%nat then neutral_adf
  else try_except (adf_body series) (fun _ => neutral_adf).

Definition rolling_correlation_body
           (symbol1 symbol2 : string) (window : Z) (timeframe : string)
  : result (option correlation) :=
  df1 <- get_recent_ticks symbol1 500 ;;
  df2 <- get_recent_ticks symbol2 500 ;;
  if is_nil df1 || is_nil df2 then Ok None
  else
    let df1_resampled := resample_ticks df1 timeframe in
    let df2_resampled := resample_ticks df2 timeframe in
    if is_empty df1_resampled || is_empty df2_resampled then Ok None
    else
      let merged := merge df1_resampled df2_resampled "_1" "_2" in
      match col "close_1" merged, col "close_2" merged with
      | Some c1, Some c2 =>
          if (Z.of_nat (len merged) <? window)%Z then Ok (Some neutral_correlation)
          else
            let w := Z.min window (Z.of_nat (len merged)) in
            if (w <? 0)%Z then Raise ValueError
            else
              corr <- rolling_corr (Z.to_nat w) c1 c2 ;;
              cl <- iloc_last corr ;;
              Ok (Some (mkCorrelation
                          (nan_to_zero cl)
                          (filter (fun v => negb (Np.isnan v)) corr)
                          (nan_to_zero (series_mean corr))))
      | _, _ => Ok (Some neutral_correlation)
      end.

Definition rolling_correlation
           (symbol1 symbol2 : string) (window : Z) (timeframe : string)
  : option correlation :=
  try_except (rolling_correlation_body symbol1 symbol2 window timeframe)
             (fun _ => Some neutral_correlation).

End Analytics.

End Services.

(* ===================================================================== *)
(** ** [AlertService] of [services/alert_service.py] *)
(* ===================================================================== *)

Module Alerts.

Local Open Scope nat_scope.

(** An alert dict; the two keys that [check_price_alert] adds on firing
    are absent ([None]) before. *)
Record alert : Type := mkAlert {
  id : nat;
  name : string;
  condition : string;
  symbol : string;
  threshold : float;
  is_active : bool;
  triggered : bool;
  created_at : string;
  triggered_at : option string;
  triggered_price : option float
}.

(** The part of a tick that [check_price_alert] reads. *)
Record tick_data : Type := mkTickData {
  tick_symbol : string;
  tick_price : float
}.

(** [remove_alert]: the list comprehension keeps the alerts of another
    id. *)
Definition remove_alert (alert_id : nat) (alerts : list alert) : list alert :=
  filter (fun a => negb (id a =? alert_id)) alerts.

(** The test that guards the two firing branches of the loop body. *)
Definition fires (t : tick_data) (a : alert) : bool :=
  if negb (is_active a) || triggered a then false
  else if String.eqb (symbol a) (tick_symbol t) then
    if String.eqb (condition a) "above" && PrimFloat.ltb (threshold a) (tick_price t)
    then true
    else String.eqb (condition a) "below" && PrimFloat.ltb (tick_price t) (threshold a)
  else false.

(** The three assignments of a firing branch. *)
Definition fire (a : alert) (at_time : string) (price : float) : alert :=
  mkAlert (id a) (name a) (condition a) (symbol a) (threshold a)
          (is_active a) true (created_at a) (Some at_time) (Some price).

Section Service.

(** [datetime.now().isoformat()] reads a clock. *)
Variable clock : Type.
Variable now : clock -> string * clock.

(** [create_alert]: the new alert and the list it is appended to. *)
Definition create_alert (nm cond sym : string) (thr : float)
           (alerts : list alert) (c : clock) : alert * list alert * clock :=
  let (ts, c') := now c in
  let a := mkAlert (List.length alerts + 1) nm cond sym thr true false ts None None in
  (a, alerts ++ [a], c').

(** The loop of [check_price_alert] over [self.alerts]: the alerts as
    the loop leaves them (they are mutated in place) and the copies
    appended to [triggered]. *)
Fixpoint check_loop (t : tick_data) (alerts : list alert) (c : clock)
  : list alert * list alert * clock :=
  match alerts with
  | [] => ([], [], c)
  | a :: rest =>
      if fires t a then
        let (ts, c1) := now c in
        let a' := fire a ts (tick_price t) in
        let '(rest', trig, c2) := check_loop t rest c1 in
        (a' :: rest', a' :: trig, c2)
      else
        let '(rest', trig, c2) := check_loop t rest c in
        (a :: rest', trig, c2)
  end.

(** The service: its alerts, the registered callbacks (by position)
    and the calls [callback(alert)] made so far. *)
Record service : Type := mkService {
  alerts : list alert;
  alert_callbacks : nat;
  notified : list (nat * alert)
}.

(** [for alert in triggered: for callback in callbacks:
    callback(alert)], for callbacks that return normally. *)
Definition notify (ncb : nat) (trig : list alert) : list (nat * alert) :=
  flat_map (fun a => map (fun k => (k, a)) (seq 0 ncb)) trig.

Definition check_price_alert (t : tick_data) (s : service) (c : clock)
  : list alert * service * clock :=
  let '(alerts', trig, c') := check_loop t (alerts s) c in
  (trig,
   mkService alerts' (alert_callbacks s)
             (notified s ++ notify (alert_callbacks s) trig),
   c').

(** Feeding a sequence of ticks: the lists [check_price_alert]
    returned, in order, and the final service. *)
Fixpoint check_all (ts : list tick_data) (s : service) (c : clock)
  : list (list alert) * service * clock :=
  match ts with
  | [] => ([], s, c)
  | t :: rest =>
      let '(trig, s1, c1) := check_price_alert t s c in
      let '(trigs, s2, c2) := check_all rest s1 c1 in
      (trig :: trigs, s2, c2)
  end.

(** How often the alert stored at position [i] took a firing branch
    while [ts] was fed. *)
Fixpoint firings_at (i : nat) (ts : list tick_data) (al : list alert) (c : clock)
  : nat :=
  match ts with
  | [] => 0
  | t :: rest =>
      let '(al', _, c') := check_loop t al c in
      (match nth_error al i with
       | Some a => if fires t a then 1 else 0
       | None => 0
       end) + firings_at i rest al' c'
  end.

(** How often the [triggered] flag at position [i] went from [False]
    to [True] while [ts] was fed. *)
Fixpoint flips_at (i : nat) (ts : list tick_data) (al : list alert) (c : clock)
  : nat :=
  match ts with
  | [] => 0
  | t :: rest =>
      let '(al', _, c') := check_loop t al c in
      (match nth_error al i, nth_error al' i with
       | Some a, Some a' => if negb (triggered a) && triggered a' then 1 else 0
       | _, _ => 0
       end) + flips_at i rest al' c'
  end.

(** The alerts that have not fired yet. *)
Definition pending (al : list alert) : nat :=
  List.length (filter (fun a => negb (triggered a)) al).

(** A user action on the alert list. *)
Inductive op : Type :=
| Create (nm cond sym : string) (thr : float)
| Remove (alert_id : nat).

Definition run_op (o : op) (al : list alert) (c : clock) : list alert * clock :=
  match o with
  | Create nm cond sym thr =>
      let '(_, al', c') := create_alert nm cond sym thr al c in (al', c')
  | Remove alert_id => (remove_alert alert_id al, c)
  end.

Fixpoint run_ops (ops : list op) (al : list alert) (c : clock)
  : list alert * clock :=
  match ops with
  | [] => (al, c)
  | o :: rest => let (al', c') := run_op o al c in run_ops rest al' c'
  end.

End Service.

End Alerts.

(* ===================================================================== *)
(** ** Runs of the ingestion buffer and of the message handler *)
(* ===================================================================== *)

Module Feed.

Import Ingestion.

(** What happens to the buffer: [on_message] appends a tick, the emitter
    thread calls [get_recent_buffer(clear)]. *)
Inductive buffer_op (A : Type) : Type :=
| Append (t : A)
| Drain (clear : bool).
Arguments Append {A} t.
Arguments Drain {A} clear.

(** The copies that the drains return, in order, and the buffer left. *)
Fixpoint run_buffer_ops {A} (C : nat) (ops : list (buffer_op A)) (buffer : list A)
  : list (list A) * list A :=
  match ops with
  | [] => ([], buffer)
  | Append t :: rest => run_buffer_ops C rest (buffer_append C buffer t)
  | Drain clear :: rest =>
      let (buffer_copy, buffer') := get_recent_buffer buffer clear in
      let (copies, final) := run_buffer_ops C rest buffer' in
      (buffer_copy :: copies, final)
  end.

Fixpoint appended {A} (ops : list (buffer_op A)) : list A :=
  match ops with
  | [] => []
  | Append t :: rest => t :: appended rest
  | Drain _ :: rest => appended rest
  end.

Definition clearing {A} (o : buffer_op A) : Prop :=
  match o with
  | Append _ => True
  | Drain clear => clear = true
  end.

Section Run.

Variable str_lower : string -> string.
Variable float_of_string : string -> option float.
Variable float_of_int : Z -> option float.
Variable isoformat_of_millis : json -> result string.
Variable json_loads : string -> result json.
Variable W : Type.
Variable save_tick : tick -> W -> W * option exn.
Variable callbacks : list (tick -> W -> W * option exn).

(** The handler run on the messages of a feed, one after the other. *)
Fixpoint on_messages (messages : list string) (st : state W) : state W :=
  match messages with
  | [] => st
  | m :: rest =>
      on_messages rest
        (fst (on_message str_lower float_of_string float_of_int isoformat_of_millis
                         json_loads save_tick callbacks m st))
  end.

End Run.

End Feed.


(* ===================================================================== *)
(** ** Feed connections: [start_symbol], [start], [stop], and the routes
    of [app.py] that drive them *)
(* ===================================================================== *)

Module Lifecycle.

(** The part of a [BinanceDataIngestion] object that the connection
    methods touch. A [WebSocketApp] object is identified by its creation
    number; [opened] lists the objects created (whose thread was
    started) with their URL, [closed] the objects on which [close()] was
    called. The dict [ws_connections] keeps insertion order. *)
Record ingestion : Type := mkIngestion {
  symbols : list string;
  ws_connections : list (string * nat);
  is_running : bool;
  opened : list (nat * string);
  closed : list nat
}.

(** [__init__] without symbols. *)
Definition init : ingestion := mkIngestion [] [] false [] [].

(** [symbol in self.ws_connections]. *)
Definition tracked (symbol : string) (st : ingestion) : bool :=
  existsb (String.eqb symbol) (map fst (ws_connections st)).

Definition ws_url (symbol : string) : string :=
  String.append "wss://fstream.binance.com/ws/" (String.append symbol "@trade").

Definition start_symbol (symbol : string) (st : ingestion) : ingestion :=
  if tracked symbol st then st
  else
    let ws := List.length (opened st) in
    mkIngestion (symbols st)
                (ws_connections st ++ [(symbol, ws)])
                (is_running st)
                (opened st ++ [(ws, ws_url symbol)])
                (closed st).

(** [start]: the pause between two symbols has no effect on the
    state. *)
Definition start (syms : list string) (st : ingestion) : ingestion :=
  fold_left (fun s symbol => start_symbol symbol s) syms
            (mkIngestion syms (ws_connections st) true (opened st) (closed st)).

Definition stop (st : ingestion) : ingestion :=
  mkIngestion (symbols st) [] false (opened st)
              (closed st ++ map snd (ws_connections st)).

Inductive call : Type :=
| StartSymbol (symbol : string)
| Start (syms : list string)
| Stop.

Definition run_call (c : call) (st : ingestion) : ingestion :=
  match c with
  | StartSymbol symbol => start_symbol symbol st
  | Start syms => start syms st
  | Stop => stop st
  end.

Definition run_calls (cs : list call) (st : ingestion) : ingestion :=
  fold_left (fun s c => run_call c s) cs st.

(** *** The global state of [app.py] and its three routes *)

(** [active_symbols] is a set; its elements are kept here in one
    iteration order, which is the order [list(active_symbols)] yields. *)
Record app : Type := mkApp {
  active_symbols : list string;
  is_collecting : bool;
  data_ingestion : ingestion;
  emitted : list string    (* symbols broadcast as ['symbol_added'] *)
}.

Definition DEFAULT_SYMBOLS : list string :=
  ["btcusdt"; "ethusdt"; "adausdt"; "solusdt"].

Definition app_init : app := mkApp DEFAULT_SYMBOLS false init [].

Definition handle_add_symbol (symbol : string) (a : app) : app :=
  if existsb (String.eqb symbol) (active_symbols a) then a
  else
    mkApp (active_symbols a ++ [symbol])
          (is_collecting a)
          (if is_collecting a then start_symbol symbol (data_ingestion a)
           else data_ingestion a)
          (emitted a ++ [symbol]).

Definition start_collection (a : app) : app :=
  if negb (is_collecting a) then
    mkApp (active_symbols a) true
          (start (active_symbols a) (data_ingestion a)) (emitted a)
  else a.

Definition stop_collection (a : app) : app :=
  if is_collecting a then
    mkApp (active_symbols a) false (stop (data_ingestion a)) (emitted a)
  else a.

Inductive request : Type :=
| AddSymbol (symbol : string)
| StartCollection
| StopCollection.

Definition serve (r : request) (a : app) : app :=
  match r with
  | AddSymbol symbol => handle_add_symbol symbol a
  | StartCollection => start_collection a
  | StopCollection => stop_collection a
  end.

Definition serve_all (rs : list request) (a : app) : app :=
  fold_left (fun s r => serve r s) rs a.

(** Every symbol has at most one tracked connection, and the objects
    created are, in creation order, the closed ones followed by the
    tracked ones. *)
Definition well_tracked (st : ingestion) : Prop :=
  NoDup (map fst (ws_connections st))
  /\ map fst (opened st) = closed st ++ map snd (ws_connections st).

(** The creation numbers count up from 0. *)
Definition numbered (st : ingestion) : Prop :=
  map fst (opened st) = seq 0 (List.length (opened st)).

(** What the three routes keep true of the global state. *)
Definition collecting_invariant (a : app) : Prop :=
  NoDup (active_symbols a)
  /\ well_tracked (data_ingestion a)
  /\ if is_collecting a
     then forall s, In s (active_symbols a)
                    <-> In s (map fst (ws_connections (data_ingestion a)))
     else ws_connections (data_ingestion a) = [].

End Lifecycle.


(* ===================================================================== *)
(** ** What a check leaves of an alert, and runs of user actions *)
(* ===================================================================== *)

Module AlertRuns.

Import Alerts.

(** The fields that [check_price_alert] never assigns. *)
Definition same_identity (a a' : alert) : Prop :=
  id a' = id a /\ name a' = name a /\ condition a' = condition a
  /\ symbol a' = symbol a /\ threshold a' = threshold a
  /\ is_active a' = is_active a /\ created_at a' = created_at a.

(** An alert that no tick [t] can fire: inactive, already triggered, for
    another symbol, or with a condition that is neither ['above'] nor
    ['below']. *)
Definition dormant (t : tick_data) (a : alert) : Prop :=
  is_active a = false \/ triggered a = true \/ symbol a <> tick_symbol t
  \/ (condition a <> "above" /\ condition a <> "below").

Definition is_create (o : op) : Prop :=
  match o with Create _ _ _ _ => True | Remove _ => False end.

End AlertRuns.


(* ===================================================================== *)
(** ** [ingestor.py]: the combined-stream handler and the batch writer *)
(* ===================================================================== *)

Module Ingestor.

(** Modelled from the spec: the ORM class [Tick] of [app.models], which
    is not among the sources; its constructor stores the four keyword
    arguments. The symbol is stored as received. *)
Record Tick : Type := mkTick {
  timestamp : string;
  symbol : json;
  price : float;
  size : float
}.

(** [data.get(k, default)]. *)
Definition get_default (data : json) (k : string) (default : json) : result json :=
  match data with
  | JObject fields =>
      match assoc k fields with
      | Some v => Ok v
      | None => Ok default
      end
  | _ => Raise AttributeError
  end.

Section Worker.

Variable float_of_string : string -> option float.
Variable float_of_int : Z -> option float.
(** [datetime.utcfromtimestamp(v / 1000.0)]. *)
Variable utc_of_millis : json -> result string.
Variable json_loads : string -> result json.

(** The database session of [app.database], which is not among the
    sources: its calls act on an outside world [W] and may raise. *)
Variable W : Type.
Variable add_all : list Tick -> W -> W * option exn.
Variable commit : W -> W * option exn.
Variable rollback : W -> W * option exn.

(** The [or] of the two tests, the second evaluated only when the first
    fails. *)
Definition is_trade (data : json) : result bool :=
  e <- get data "e" ;;
  if eq_str e "trade" then Ok true
  else
    inner <- get_default data "data" (JObject []) ;;
    e' <- get inner "e" ;;
    Ok (eq_str e' "trade").

(** The tick that a message yields: [None] when it is not a trade. *)
Definition tick_of (message : string) : result (option Tick) :=
  data <- json_loads message ;;
  trade <- is_trade data ;;
  if trade then
    trade_data <- get_default data "data" data ;;
    T <- getitem trade_data "T" ;;
    ts <- utc_of_millis T ;;
    s <- getitem trade_data "s" ;;
    p <- getitem trade_data "p" ;;
    pr <- Ingestion.py_float float_of_string float_of_int p ;;
    q <- getitem trade_data "q" ;;
    sz <- Ingestion.py_float float_of_string float_of_int q ;;
    Ok (Some (mkTick ts s pr sz))
  else Ok None.

(** The module state: [TICK_BUFFER], the session, what was printed, the
    batches handed to [session.add_all], and whether the writer thread is
    still running. *)
Record state : Type := mkState {
  TICK_BUFFER : list Tick;
  session : W;
  printed : list exn;
  submitted : list (list Tick);
  writer_alive : bool
}.

Definition on_message (message : string) (st : state) : state :=
  match tick_of message with
  | Ok (Some tick) =>
      mkState (TICK_BUFFER st ++ [tick]) (session st) (printed st)
              (submitted st) (writer_alive st)
  | Ok None => st
  | Raise e =>
      mkState (TICK_BUFFER st) (session st) (printed st ++ [e])
              (submitted st) (writer_alive st)
  end.

(** One round of the loop of [batch_insert_ticks] after its sleep. An
    exception of [add_all] or [commit] is printed and followed by
    [rollback]; an exception of [rollback] itself leaves the loop. *)
Definition batch_round (st : state) : state :=
  if negb (writer_alive st) then st
  else
    match TICK_BUFFER st with
    | [] => st
    | _ :: _ =>
        let ticks_to_insert := TICK_BUFFER st in
        let submitted' := submitted st ++ [ticks_to_insert] in
        let failed (w : W) (e : exn) :=
          let (w', r) := rollback w in
          mkState [] w' (printed st ++ [e]) submitted'
                  (match r with Some _ => false | None => true end) in
        let (w1, r1) := add_all ticks_to_insert (session st) in
        match r1 with
        | Some e => failed w1 e
        | None =>
            let (w2, r2) := commit w1 in
            match r2 with
            | Some e => failed w2 e
            | None => mkState [] w2 (printed st) submitted' true
            end
        end
    end.

Inductive event : Type :=
| Message (message : string)
| Round.

Definition step (ev : event) (st : state) : state :=
  match ev with
  | Message m => on_message m st
  | Round => batch_round st
  end.

Definition run (evs : list event) (st : state) : state :=
  fold_left (fun s ev => step ev s) evs st.

(** The ticks that a sequence of events puts into the buffer. *)
Fixpoint received (evs : list event) : list Tick :=
  match evs with
  | [] => []
  | Message m :: rest =>
      match tick_of m with
      | Ok (Some tick) => tick :: received rest
      | _ => received rest
      end
  | Round :: rest => received rest
  end.

End Worker.

Arguments mkState {W} TICK_BUFFER session printed submitted writer_alive.
Arguments TICK_BUFFER {W} s.
Arguments session {W} s.
Arguments printed {W} s.
Arguments submitted {W} s.
Arguments writer_alive {W} s.

End Ingestor.


(* ===================================================================== *)
(** ** Sample inputs for concrete runs *)
(* ===================================================================== *)

(** Sample collaborators for concrete runs of the handler. *)
Module HandlerSamples.

Import Ingestion.

(** [str.lower] on strings of ASCII characters: the letters A to Z move
    to a to z. *)
Definition lower_ascii (c : ascii) : ascii :=
  let n := nat_of_ascii c in
  if ((65 <=? n) && (n <=? 90))%nat then ascii_of_nat (n + 32) else c.

Fixpoint str_lower (s : string) : string :=
  match s with
  | EmptyString => EmptyString
  | String c r => String (lower_ascii c) (str_lower r)
  end.

Definition float_of_string (s : string) : option float :=
  if String.eqb s "101.5" then Some 101.5%float
  else if String.eqb s "0.25" then Some 0.25%float
  else None.

Definition float_of_int (z : Z) : option float :=
  Some (PrimFloat.of_uint63 (Uint63.of_Z z)).

Definition isoformat_of_millis (v : json) : result string :=
  match v with
  | JInt _ => Ok "2023-11-14T22:13:20"
  | _ => Raise TypeError
  end.

(** A trade event without the price field ['p']. *)
Definition no_price : list (string * json) :=
  [("e", JString "trade"); ("E", JInt 1700000000000);
   ("s", JString "BTCUSDT"); ("q", JString "0.25")].

(** A well-formed trade event and the tick it normalises to. *)
Definition good_trade : list (string * json) :=
  [("e", JString "trade"); ("E", JInt 1700000000000);
   ("s", JString "BTCUSDT"); ("p", JString "101.5"); ("q", JString "0.25")].

Definition good_tick : tick :=
  mkTick "btcusdt" "2023-11-14T22:13:20" 101.5%float 0.25%float.

Definition json_loads (message : string) : result json :=
  if String.eqb message "no-price" then Ok (JObject no_price)
  else if String.eqb message "good" then Ok (JObject good_trade)
  else Raise (Exn "JSONDecodeError").

Definition save_tick (t : tick) (w : list tick) : list tick * option exn :=
  (w ++ [t], None).

Definition start : state (list tick) := mkState [] [] [].

End HandlerSamples.

(** A clock that counts its readings, an alert "above 100" on one symbol
    and two ticks of that symbol. *)
Module AlertSamples.

Import Alerts.

Definition now (c : nat) : string * nat := ("2024-01-01T10:00:00", S c).

Definition above_100 : alert :=
  mkAlert 1 "breakout" "above" "btcusdt" 100%float true false
          "2024-01-01T09:00:00" None None.

Definition fired_at_101 : alert :=
  fire above_100 "2024-01-01T10:00:00" 101%float.

Definition tick_101 : tick_data := mkTickData "btcusdt" 101%float.
Definition tick_102 : tick_data := mkTickData "btcusdt" 102%float.

Definition service0 : service := mkService [above_100] 1 [].
Definition service1 : service := mkService [fired_at_101] 1 [(0%nat, fired_at_101)].

End AlertSamples.

(** Three ticks at 10:00:01, 10:00:30 and 10:01:10 of one day
    (milliseconds since midnight) and their one-minute buckets. *)
Module ResampleSamples.

Definition three_ticks : list (Z * (float * float)) :=
  [(36001000, (100, 0.5)%float); (36030000, (102, 0.25)%float);
   (36070000, (101, 2)%float)].

Definition buckets : list (Z * list (float * float)) :=
  Frame.groups 60000 three_ticks.

End ResampleSamples.

(** Sample library behaviour for the analytics: timestamps of the form
    used above parse to a fixed instant, and two frequency strings are
    known. *)
Module AnalyticsSamples.

(** A column converts when each of its entries does. *)
Fixpoint each (instant : string -> option Z) (column : list string)
  : option (list Z) :=
  match column with
  | [] => Some []
  | s :: rest =>
      match instant s, each instant rest with
      | Some t, Some ts => Some (t :: ts)
      | _, _ => None
      end
  end.

Definition to_datetime : list string -> option (list Z) :=
  each (fun s =>
          if String.eqb s "2023-11-14T22:13:20" then Some 1700000000000
          else None).

Definition to_offset (s : string) : option Z :=
  if String.eqb s "1min" then Some 60000
  else if String.eqb s "5s" then Some 5000
  else None.

Definition py_int (s : string) : option Z :=
  if String.eqb s "1" then Some 1
  else if String.eqb s "5" then Some 5
  else None.

(** A store with six ticks per symbol, two in each of three consecutive
    minutes; every close of the first symbol is 100. A third symbol has
    five ticks in one minute, a fourth none. *)
Definition minute_0 : string := "2023-11-14T22:13:20".
Definition minute_1 : string := "2023-11-14T22:14:20".
Definition minute_2 : string := "2023-11-14T22:15:20".

Definition parse_minute : list string -> option (list Z) :=
  each (fun s =>
          if String.eqb s minute_0 then Some 1700000000000
          else if String.eqb s minute_1 then Some 1700000060000
          else if String.eqb s minute_2 then Some 1700000120000
          else None).

Definition get_recent_ticks (symbol : string) (limit : Z)
  : result (list Frame.tick_row) :=
  if String.eqb symbol "btcusdt" then
    Ok [Frame.mkRow minute_0 99 1; Frame.mkRow minute_0 100 1;
        Frame.mkRow minute_1 101 1; Frame.mkRow minute_1 100 1;
        Frame.mkRow minute_2 98 1; Frame.mkRow minute_2 100 1]%float
  else if String.eqb symbol "ethusdt" then
    Ok [Frame.mkRow minute_0 9 1; Frame.mkRow minute_0 10 1;
        Frame.mkRow minute_1 12 1; Frame.mkRow minute_1 11 1;
        Frame.mkRow minute_2 12 1; Frame.mkRow minute_2 13 1]%float
  else if String.eqb symbol "solusdt" then
    Ok [Frame.mkRow minute_0 150 1; Frame.mkRow minute_0 151 1;
        Frame.mkRow minute_0 152 1; Frame.mkRow minute_0 151 1;
        Frame.mkRow minute_0 150 1]%float
  else if String.eqb symbol "adausdt" then Ok []
  else Raise (Exn "OperationalError").

(** Stand-ins for statsmodels and for pandas' rolling correlation. *)
Definition add_constant (X : list float) : Services.ndarray :=
  Services.Arr2 2 (map (fun x => [1%float; x]) X).

Definition OLS_fit (y : list float) (X : Services.ndarray)
  : result Services.ols_results :=
  Raise (Exn "LinAlgError").

Definition adfuller (series : list float)
  : result (float * float * list (string * float)) :=
  Raise (Exn "LinAlgError").

Definition rolling_corr (w : nat) (a b : list float) : result (list float) :=
  Ok (map (fun _ => 1%float) a).

Definition series_mean (a : list float) : float := 1%float.

(** Stand-ins for pandas' rolling mean and standard deviation: the
    same value at every position. *)
Definition rolling_mean (w : nat) (a : list float) : result (list float) :=
  Ok (map (fun _ => 3%float) a).

Definition rolling_std (w : nat) (a : list float) : result (list float) :=
  Ok (map (fun _ => 2%float) a).

(** A state of the [random] module given by the values that
    [random.random()] is going to return; [random.uniform(a, b)] is
    [a + (b - a) * random.random()]. *)
Definition uniform (a b : float) (g : list float) : float * list float :=
  match g with
  | u :: rest => ((a + (b - a) * u)%float, rest)
  | [] => (a, [])
  end.

Definition spread_3 : list float := [1; 2; 3]%float.
Definition spread_6 : list float := [1; 1; 1; 1; 1; 10]%float.

End AnalyticsSamples.

(** Collaborators for runs of the message handler: a store that fails,
    a subscriber that records the tick and one that raises; a message
    that is not a trade. *)
Module FeedSamples.

Import Ingestion.

Definition json_loads (message : string) : result json :=
  if String.eqb message "ping" then Ok (JObject [("e", JString "aggTrade")])
  else HandlerSamples.json_loads message.

Definition failing_store (t : tick) (w : list tick) : list tick * option exn :=
  (w, Some (Exn "OperationalError")).

Definition recording (t : tick) (w : list tick) : list tick * option exn :=
  (w ++ [t], None).

Definition raising (t : tick) (w : list tick) : list tick * option exn :=
  (w, Some (Exn "RuntimeError")).

End FeedSamples.


(** A tick of a symbol without alerts, and two user actions. *)
Module AlertRunSamples.

Import Alerts.

Definition other_symbol_tick : tick_data := mkTickData "ethusdt" 101%float.

Definition two_creates : list op :=
  [Create "first" "above" "btcusdt" 100%float;
   Create "second" "below" "ethusdt" 10%float].

End AlertRunSamples.


(** An [adfuller] that reports a fixed result, a series with two NaN
    entries, and messages for [ingestor.py]. *)
Module ExtraSamples.

Definition adfuller_ok (series : list float)
  : result (float * float * list (string * float)) :=
  Ok ((-3.5)%float, 0.01%float,
      [("1%", (-3.43)%float); ("5%", (-2.86)%float); ("10%", (-2.57)%float)]).

Definition series_12 : list float :=
  [1; 2; nan; 3; 4; 5; 6; nan; 7; 8; 9; 10]%float.

Definition trade_fields : list (string * json) :=
  [("e", JString "trade"); ("T", JInt 1700000000000);
   ("s", JString "BTCUSDT"); ("p", JString "101.5"); ("q", JString "0.25")].

Definition envelope : list (string * json) :=
  [("stream", JString "btcusdt@trade"); ("data", JObject trade_fields)].

Definition json_loads (message : string) : result json :=
  if String.eqb message "bare" then Ok (JObject trade_fields)
  else if String.eqb message "wrapped" then Ok (JObject envelope)
  else Raise (Exn "JSONDecodeError").

End ExtraSamples.


(* ===================================================================== *)
(** * Properties *)
(* ===================================================================== *)

(** ** The ingestion buffer *)

Section BufferFacts.

Import Ingestion.
Local Open Scope nat_scope.

Context {A : Type}.
Variable C : nat.

Lemma buffer_append_skipn (b : list A) (t : A) :
  List.length b <= C ->
  buffer_append C b t = skipn (List.length (b ++ [t]) - C) (b ++ [t]).
Proof.
  intros Hb. unfold buffer_append, pop0.
  rewrite length_app. simpl List.length.
  destruct (Nat.ltb_spec C (List.length b + 1)) as [Hlt | Hge].
  - replace (List.length b + 1 - C) with 1 by lia.
    destruct (b ++ [t]); reflexivity.
  - replace (List.length b + 1 - C) with 0 by lia. reflexivity.
Qed.

Lemma buffer_append_length (b : list A) (t : A) :
  List.length b <= C -> List.length (buffer_append C b t) <= C.
Proof.
  intros Hb. rewrite buffer_append_skipn by assumption.
  rewrite length_skipn, length_app. simpl. lia.
Qed.

Lemma append_all_skipn (ts b : list A) :
  List.length b <= C ->
  append_all C b ts = skipn (List.length (b ++ ts) - C) (b ++ ts).
Proof.
  unfold append_all. revert b.
  induction ts as [| t ts IH]; intros b Hb.
  - simpl. rewrite app_nil_r.
    replace (List.length b - C) with 0 by lia. reflexivity.
  - simpl fold_left.
    rewrite IH by (apply buffer_append_length; assumption).
    rewrite buffer_append_skipn by assumption.
    set (k := List.length (b ++ [t]) - C).
    assert (Hk : k <= List.length (b ++ [t])) by (unfold k; lia).
    assert (Happ : skipn k (b ++ [t]) ++ ts = skipn k ((b ++ [t]) ++ ts)).
    { rewrite (skipn_app k (b ++ [t]) ts).
      replace (k - List.length (b ++ [t])) with 0 by lia. reflexivity. }
    rewrite Happ, skipn_skipn, length_skipn.
    rewrite <- app_assoc. simpl.
    f_equal. unfold k. rewrite !length_app. simpl. lia.
Qed.

End BufferFacts.

(** C1. After any sequence of [N] ticks has been appended to the (initially
    empty) buffer of capacity [C], the buffer holds [min N C] ticks, and
    they are the last [min N C] ticks of the sequence in append order; this
    holds in particular for the capacity 1000 of the source. *)
Theorem buffer_holds_most_recent :
  forall (A : Type) (C : nat) (ts : list A),
    List.length (Ingestion.append_all C [] ts) = Nat.min (List.length ts) C
    /\ Ingestion.append_all C [] ts = skipn (List.length ts - C) ts
    /\ Ingestion.append_all Ingestion.BUFFER_CAPACITY [] ts
       = skipn (List.length ts - 1000) ts.
Proof.
  intros A C ts.
  assert (H : forall C', Ingestion.append_all C' [] ts
                         = skipn (List.length ts - C') ts).
  { intros C'. rewrite append_all_skipn by (simpl; lia). reflexivity. }
  split; [| split].
  - rewrite H, length_skipn. lia.
  - apply H.
  - apply H.
Qed.

(** ** Tick normalisation and the message handler *)

Section HandlerFacts.

Import Ingestion.

Variable str_lower : string -> string.
Variable float_of_string : string -> option float.
Variable float_of_int : Z -> option float.
Variable isoformat_of_millis : json -> result string.
Variable json_loads : string -> result json.
Variable W : Type.
Variable save_tick : tick -> W -> W * option exn.
Variable callbacks : list (tick -> W -> W * option exn).

Notation normalize :=
  (normalize_tick str_lower float_of_string float_of_int isoformat_of_millis).
Notation malformed := (Ingestion.malformed float_of_string).
Notation handle :=
  (on_message str_lower float_of_string float_of_int isoformat_of_millis
              json_loads save_tick callbacks).

Lemma getitem_ok (fields : list (string * json)) (k : string) (v : json) :
  getitem (JObject fields) k = Ok v -> assoc k fields = Some v.
Proof.
  unfold getitem. destruct (assoc k fields); intros H; congruence.
Qed.

Lemma py_float_string_ok (s : string) (f : float) :
  py_float float_of_string float_of_int (JString s) = Ok f ->
  float_of_string s = Some f.
Proof.
  unfold py_float. destruct (float_of_string s); intros H; congruence.
Qed.

(** A tick is produced only from an event whose four fields are present
    and whose price and quantity convert. *)
Lemma normalize_ok_inv (fields : list (string * json)) (t : tick) :
  normalize (JObject fields) = Ok t ->
  exists s E p q,
    assoc "s" fields = Some s /\ assoc "E" fields = Some E
    /\ assoc "p" fields = Some p /\ assoc "q" fields = Some q
    /\ py_float float_of_string float_of_int p = Ok (price t)
    /\ py_float float_of_string float_of_int q = Ok (size t).
Proof.
  unfold normalize_tick. intros H.
  destruct (getitem (JObject fields) "s") as [s|] eqn:Hs; [| discriminate].
  cbn [Py.bind] in H.
  destruct (py_lower str_lower s) as [sym|]; [| discriminate].
  cbn [Py.bind] in H.
  destruct (getitem (JObject fields) "E") as [E|] eqn:HE; [| discriminate].
  cbn [Py.bind] in H. destruct (isoformat_of_millis E) as [ts|]; [| discriminate].
  cbn [Py.bind] in H.
  destruct (getitem (JObject fields) "p") as [p|] eqn:Hp; [| discriminate].
  cbn [Py.bind] in H.
  destruct (py_float float_of_string float_of_int p) as [pr|] eqn:Hpr;
    [| discriminate].
  cbn [Py.bind] in H.
  destruct (getitem (JObject fields) "q") as [q|] eqn:Hq; [| discriminate].
  cbn [Py.bind] in H.
  destruct (py_float float_of_string float_of_int q) as [sz|] eqn:Hsz;
    [| discriminate].
  cbn [Py.bind] in H. injection H as <-. simpl.
  exists s, E, p, q.
  repeat split; auto using getitem_ok.
Qed.

Lemma malformed_raises (fields : list (string * json)) :
  malformed fields -> exists e, normalize (JObject fields) = Raise e.
Proof.
  intros Hm.
  destruct (normalize (JObject fields)) as [t | e] eqn:Hn; [| eauto].
  exfalso. apply normalize_ok_inv in Hn.
  destruct Hn as (s & E & p & q & Hs & HE & Hp & Hq & Hpr & Hsz).
  destruct Hm as [k Hk Hnone | k str Hk Hsome Hbad].
  - cbn [Py.bind] in Hk.
    destruct Hk as [<- | [<- | [<- | [<- | []]]]]; congruence.
  - cbn [Py.bind] in Hk. destruct Hk as [<- | [<- | []]].
    + rewrite Hsome in Hp. injection Hp as <-.
      apply py_float_string_ok in Hpr. congruence.
    + rewrite Hsome in Hq. injection Hq as <-.
      apply py_float_string_ok in Hsz. congruence.
Qed.

Lemma getitem_raise (d : json) (k : string) (e : exn) :
  getitem d k = Raise e -> builtin_class e.
Proof.
  unfold getitem, builtin_class.
  destruct d; try (intros H; injection H as <-; simpl; tauto).
  destruct (assoc k fields); intros H; [discriminate |].
  injection H as <-. simpl. tauto.
Qed.

Lemma py_float_raise (v : json) (e : exn) :
  py_float float_of_string float_of_int v = Raise e -> builtin_class e.
Proof.
  unfold py_float, builtin_class.
  destruct v; try (intros H; injection H as <-; simpl; tauto);
    try discriminate.
  - destruct (float_of_int z); intros H; [discriminate |].
    injection H as <-. simpl. tauto.
  - destruct (float_of_string s); intros H; [discriminate |].
    injection H as <-. simpl. tauto.
Qed.

Lemma py_lower_raise (v : json) (e : exn) :
  py_lower str_lower v = Raise e -> builtin_class e.
Proof.
  unfold py_lower, builtin_class.
  destruct v; try (intros H; injection H as <-; simpl; tauto); discriminate.
Qed.

Lemma normalize_raise_class (d : json) (e : exn) :
  (forall v e', isoformat_of_millis v = Raise e' -> builtin_class e') ->
  normalize d = Raise e -> builtin_class e.
Proof.
  intros Hiso. unfold normalize_tick. intros H.
  destruct (getitem d "s") as [s|e0] eqn:Hs; cbn [Py.bind] in H;
    [| injection H as <-; eauto using getitem_raise].
  destruct (py_lower str_lower s) as [sym|e0] eqn:Hl; cbn [Py.bind] in H;
    [| injection H as <-; eauto using py_lower_raise].
  destruct (getitem d "E") as [E|e0] eqn:HE; cbn [Py.bind] in H;
    [| injection H as <-; eauto using getitem_raise].
  destruct (isoformat_of_millis E) as [ts|e0] eqn:Hts; cbn [Py.bind] in H;
    [| injection H as <-; eauto].
  destruct (getitem d "p") as [p|e0] eqn:Hp; cbn [Py.bind] in H;
    [| injection H as <-; eauto using getitem_raise].
  destruct (py_float float_of_string float_of_int p) as [pr|e0] eqn:Hpr;
    cbn [Py.bind] in H; [| injection H as <-; eauto using py_float_raise].
  destruct (getitem d "q") as [q|e0] eqn:Hq; cbn [Py.bind] in H;
    [| injection H as <-; eauto using getitem_raise].
  destruct (py_float float_of_string float_of_int q) as [sz|e0] eqn:Hsz;
    cbn [Py.bind] in H; [| injection H as <-; eauto using py_float_raise].
  discriminate.
Qed.

(** Whatever the message, [on_message] returns normally. *)
Lemma on_message_returns (message : string) (st : state W) :
  snd (handle message st) = None.
Proof.
  unfold on_message.
  destruct (on_message_body _ _ _ _ _ _ _ message st) as [st' [e|]];
    reflexivity.
Qed.

(** A trade message whose normalisation raises is dropped: nothing is
    stored, buffered or handed to a subscriber; the exception is
    printed. *)
Lemma on_message_drops (message : string) (fields : list (string * json))
      (e : exn) (st : state W) :
  json_loads message = Ok (JObject fields) ->
  assoc "e" fields = Some (JString "trade") ->
  normalize (JObject fields) = Raise e ->
  handle message st = (mkState (world st) (buffer st) (printed st ++ [e]), None).
Proof.
  intros Hload Hev Hn. unfold on_message, on_message_body.
  rewrite Hload. simpl get. rewrite Hev. simpl eq_str.
  rewrite Hn. reflexivity.
Qed.


End HandlerFacts.



(** ** The alert service *)

Section AlertFacts.

Import Alerts.
Local Open Scope nat_scope.

Variable clock : Type.
Variable now : clock -> string * clock.

Notation check_loop := (Alerts.check_loop clock now).
Notation firings_at := (Alerts.firings_at clock now).
Notation flips_at := (Alerts.flips_at clock now).
Notation check_price_alert := (Alerts.check_price_alert clock now).
Notation check_all := (Alerts.check_all clock now).
Notation create_alert := (Alerts.create_alert clock now).
Notation run_ops := (Alerts.run_ops clock now).

Lemma fires_untriggered (t : tick_data) (a : alert) :
  fires t a = true -> triggered a = false /\ is_active a = true.
Proof.
  unfold fires. destruct (is_active a), (triggered a); simpl;
    intros H; try discriminate; auto.
Qed.

Lemma triggered_never_fires (t : tick_data) (a : alert) :
  triggered a = true -> fires t a = false.
Proof.
  intros H. unfold fires. rewrite H, orb_true_r. reflexivity.
Qed.

(** The loop keeps the positions of the alerts; it rewrites exactly the
    alerts that fire, and each of those once. *)
Lemma check_loop_nth (t : tick_data) (al : list alert) (c : clock) (i : nat) :
  let '(al', _, _) := check_loop t al c in
  match nth_error al i with
  | Some a =>
      exists a', nth_error al' i = Some a'
                 /\ (fires t a = false -> a' = a)
                 /\ (fires t a = true -> triggered a' = true)
  | None => nth_error al' i = None
  end.
Proof.
  revert c i. induction al as [| a al IH]; intros c i.
  - simpl. destruct i; reflexivity.
  - simpl. destruct (fires t a) eqn:Hf.
    + destruct (now c) as [ts c1].
      specialize (IH c1).
      destruct (check_loop t al c1) as [[rest' trig] c2].
      destruct i as [| i]; simpl.
      * eexists. split; [reflexivity |]. split; [congruence | reflexivity].
      * apply (IH i).
    + specialize (IH c).
      destruct (check_loop t al c) as [[rest' trig] c2].
      destruct i as [| i]; simpl.
      * exists a. split; [reflexivity |]. split; [reflexivity | congruence].
      * apply (IH i).
Qed.

(** Each firing uses up one pending alert. *)
Lemma check_loop_pending (t : tick_data) (al : list alert) (c : clock) :
  let '(al', trig, _) := check_loop t al c in
  List.length trig + pending al' = pending al
  /\ Forall (fun a => triggered a = true) trig.
Proof.
  revert c. induction al as [| a al IH]; intros c.
  - simpl. split; [reflexivity | constructor].
  - simpl. destruct (fires t a) eqn:Hf.
    + destruct (now c) as [ts c1]. specialize (IH c1).
      destruct (check_loop t al c1) as [[rest' trig] c2].
      destruct IH as [IH1 IH2].
      apply fires_untriggered in Hf. destruct Hf as [Hf _].
      unfold pending in *. simpl. rewrite Hf. simpl. split; [lia |].
      constructor; [reflexivity | assumption].
    + specialize (IH c).
      destruct (check_loop t al c) as [[rest' trig] c2].
      destruct IH as [IH1 IH2].
      unfold pending in *. simpl.
      destruct (triggered a); simpl; split; auto; lia.
Qed.

Lemma firings_at_triggered (ts : list tick_data) :
  forall (al : list alert) (c : clock) (i : nat) (a : alert),
    nth_error al i = Some a -> triggered a = true ->
    firings_at i ts al c = 0 /\ flips_at i ts al c = 0.
Proof.
  induction ts as [| t ts IH]; intros al c i a Hi Ht; [split; reflexivity |].
  simpl. pose proof (check_loop_nth t al c i) as Hn.
  destruct (check_loop t al c) as [[al' trig] c'].
  rewrite Hi in *. destruct Hn as (a' & Hi' & Hsame & _).
  rewrite (triggered_never_fires t a Ht) in *.
  rewrite Hi'. rewrite (Hsame eq_refl) in *. rewrite Ht. simpl.
  apply (IH al' c' i a Hi' Ht).
Qed.

Lemma firings_at_none (ts : list tick_data) :
  forall (al : list alert) (c : clock) (i : nat),
    nth_error al i = None ->
    firings_at i ts al c = 0 /\ flips_at i ts al c = 0.
Proof.
  induction ts as [| t ts IH]; intros al c i Hi; [split; reflexivity |].
  simpl. pose proof (check_loop_nth t al c i) as Hn.
  destruct (check_loop t al c) as [[al' trig] c'].
  rewrite Hi in *. simpl. apply (IH al' c' i Hn).
Qed.

Lemma firings_at_most_once (ts : list tick_data) :
  forall (al : list alert) (c : clock) (i : nat),
    firings_at i ts al c <= 1 /\ flips_at i ts al c = firings_at i ts al c.
Proof.
  induction ts as [| t ts IH]; intros al c i; [simpl; split; lia |].
  simpl. pose proof (check_loop_nth t al c i) as Hn.
  destruct (check_loop t al c) as [[al' trig] c'] eqn:Hc.
  destruct (nth_error al i) as [a |] eqn:Hi.
  - destruct Hn as (a' & Hi' & Hsame & Hfired). rewrite Hi'.
    destruct (fires t a) eqn:Hf.
    + destruct (fires_untriggered t a Hf) as [Hu _].
      rewrite Hu, (Hfired eq_refl). simpl.
      destruct (firings_at_triggered ts al' c' i a' Hi' (Hfired eq_refl))
        as [-> ->].
      split; lia.
    + rewrite (Hsame eq_refl).
      replace (negb (triggered a) && triggered a) with false
        by (destruct (triggered a); reflexivity).
      simpl. apply IH.
  - destruct (firings_at_none ts al' c' i Hn) as [-> ->].
    simpl. split; lia.
Qed.

Lemma check_loop_length (t : tick_data) (al : list alert) :
  forall c, List.length (fst (fst (check_loop t al c))) = List.length al.
Proof.
  induction al as [| a al IHl]; intros c; [reflexivity |].
  simpl. destruct (fires t a).
  - destruct (now c) as [x c1]. specialize (IHl c1).
    destruct (check_loop t al c1) as [[r tr] c2]. simpl in *. lia.
  - specialize (IHl c).
    destruct (check_loop t al c) as [[r tr] c2]. simpl in *. lia.
Qed.

Lemma notify_length (n : nat) (trig : list alert) :
  List.length (notify n trig) = n * List.length trig.
Proof.
  unfold notify. induction trig as [| x trig IHt]; simpl; [lia |].
  rewrite length_app, length_map, length_seq, IHt. lia.
Qed.

Lemma check_all_total (ts : list tick_data) :
  forall (s : service) (c : clock),
    let '(trigs, s', _) := check_all ts s c in
    List.length (List.concat trigs) + pending (alerts s') = pending (alerts s)
    /\ List.length (alerts s') = List.length (alerts s)
    /\ alert_callbacks s' = alert_callbacks s
    /\ List.length (notified s')
       = List.length (notified s) + alert_callbacks s * List.length (List.concat trigs).
Proof.
  induction ts as [| t ts IH]; intros s c.
  - simpl. repeat split; lia.
  - simpl. unfold Alerts.check_price_alert.
    pose proof (check_loop_pending t (alerts s) c) as Hp.
    pose proof (check_loop_length t (alerts s) c) as Hlen.
    destruct (check_loop t (alerts s) c) as [[al' trig] c1].
    destruct Hp as [Hp _]. simpl in Hlen.
    specialize (IH (mkService al' (alert_callbacks s)
                              (notified s ++ notify (alert_callbacks s) trig)) c1).
    destruct (check_all ts _ c1) as [[trigs s2] c2].
    simpl in IH. destruct IH as (IH1 & IH2 & IH3 & IH4).
    simpl. rewrite length_app. repeat split; try lia.
    rewrite IH4, length_app.
    rewrite notify_length. lia.
Qed.

(** The returned list holds the new state of exactly the alerts that took
    a firing branch, in the order of the alert list. *)
Lemma check_loop_returned (t : tick_data) (al : list alert) :
  forall c,
    snd (fst (check_loop t al c))
    = map snd (filter (fun p => fires t (fst p))
                      (combine al (fst (fst (check_loop t al c))))).
Proof.
  induction al as [| a al IHl]; intros c; [reflexivity |].
  simpl. destruct (fires t a) eqn:Hf.
  - destruct (now c) as [x c1]. specialize (IHl c1).
    destruct (check_loop t al c1) as [[r tr] c2]. simpl in *.
    rewrite Hf. simpl. rewrite <- IHl. reflexivity.
  - specialize (IHl c).
    destruct (check_loop t al c) as [[r tr] c2]. simpl in *.
    rewrite Hf. exact IHl.
Qed.

Lemma check_loop_fired (t : tick_data) (al : list alert) :
  forall c, List.length (snd (fst (check_loop t al c)))
            = List.length (filter (fires t) al).
Proof.
  induction al as [| a al IHl]; intros c; [reflexivity |].
  simpl. destruct (fires t a).
  - destruct (now c) as [x c1]. specialize (IHl c1).
    destruct (check_loop t al c1) as [[r tr] c2]. simpl in *. lia.
  - specialize (IHl c).
    destruct (check_loop t al c) as [[r tr] c2]. simpl in *. lia.
Qed.

(** A triggered alert is not touched by any later check. *)
Lemma check_all_keeps_triggered (ts : list tick_data) :
  forall (s : service) (c : clock) (i : nat) (a : alert),
    nth_error (alerts s) i = Some a -> triggered a = true ->
    nth_error (alerts (snd (fst (check_all ts s c)))) i = Some a.
Proof.
  induction ts as [| t ts IH]; intros s c i a Hi Ht; [exact Hi |].
  simpl. unfold Alerts.check_price_alert.
  pose proof (check_loop_nth t (alerts s) c i) as Hn.
  destruct (check_loop t (alerts s) c) as [[al' trig] c1].
  rewrite Hi in Hn. destruct Hn as (a' & Hi' & Hsame & _).
  rewrite (Hsame (triggered_never_fires t a Ht)) in Hi'.
  specialize (IH (mkService al' (alert_callbacks s)
                            (notified s ++ notify (alert_callbacks s) trig))
                 c1 i a Hi' Ht).
  destruct (check_all ts _ c1) as [[trigs s2] c2]. exact IH.
Qed.

(** C6. While any sequence of ticks is checked, the alert stored at any
    position takes a firing branch at most once and its [triggered] flag
    goes from false to true at most once; an alert that is already
    triggered never fires and is left as it is by every later check; each
    call returns exactly the new states of the alerts that fired in it, one
    copy each; the copies returned over the whole sequence use up that many
    untriggered alerts, and every callback is called once per returned
    copy. *)
Theorem alert_fires_at_most_once :
  forall (ts : list tick_data) (s : service) (c : clock) (i : nat),
    firings_at i ts (alerts s) c <= 1
    /\ flips_at i ts (alerts s) c <= 1
    /\ (forall a, nth_error (alerts s) i = Some a -> triggered a = true ->
          firings_at i ts (alerts s) c = 0
          /\ nth_error (alerts (snd (fst (check_all ts s c)))) i = Some a)
    /\ (forall t,
          fst (fst (check_price_alert t s c))
          = map snd (filter (fun p => fires t (fst p))
                            (combine (alerts s)
                                     (alerts (snd (fst (check_price_alert t s c))))))
          /\ List.length (fst (fst (check_price_alert t s c)))
             = List.length (filter (fires t) (alerts s)))
    /\ List.length (List.concat (fst (fst (check_all ts s c))))
       + pending (alerts (snd (fst (check_all ts s c))))
       = pending (alerts s)
    /\ List.length (notified (snd (fst (check_all ts s c))))
       = List.length (notified s)
         + alert_callbacks s
           * List.length (List.concat (fst (fst (check_all ts s c)))).
Proof.
  intros ts s c i.
  destruct (firings_at_most_once ts (alerts s) c i) as [Hf Hflip].
  pose proof (check_all_total ts s c) as Htot.
  split; [exact Hf |]. split; [rewrite Hflip; exact Hf |]. split.
  - intros a Hi Ht. split.
    + apply (firings_at_triggered ts (alerts s) c i a Hi Ht).
    + apply check_all_keeps_triggered; assumption.
  - split.
    + intros t. unfold Alerts.check_price_alert.
      pose proof (check_loop_fired t (alerts s) c) as Hl.
      pose proof (check_loop_returned t (alerts s) c) as Hr.
      destruct (check_loop t (alerts s) c) as [[al' trig] c1].
      split; [exact Hr | exact Hl].
    + destruct (check_all ts s c) as [[trigs s'] c'].
      destruct Htot as (H1 & _ & _ & H4). simpl. split; assumption.
Qed.

(** C10. [create_alert] gives the new alert the id [len(alerts) + 1];
    [remove_alert] removes exactly the stored alerts of the given id;
    hence creating two alerts, removing the first and creating a third
    leaves two distinct alerts with the same id 2, and one [remove_alert]
    then deletes both. *)
Theorem alert_ids_collide :
  forall (c : clock),
    (forall nm cond sym thr al,
        let '(a, al', _) := create_alert nm cond sym thr al c in
        id a = List.length al + 1 /\ al' = al ++ [a])
    /\ (forall alert_id al a,
           In a (remove_alert alert_id al) <-> In a al /\ id a <> alert_id)
    /\ (let ops := [Create "first" "above" "btcusdt" 100%float;
                    Create "second" "above" "btcusdt" 100%float;
                    Remove 1;
                    Create "third" "below" "btcusdt" 100%float] in
        let al := fst (run_ops ops [] c) in
        exists a b,
          al = [a; b] /\ a <> b /\ id a = 2 /\ id b = 2
          /\ remove_alert 2 al = []).
Proof.
  intros c. split; [| split].
  - intros nm cond sym thr al. unfold Alerts.create_alert.
    destruct (now c) as [ts c']. simpl. split; reflexivity.
  - intros alert_id al a. unfold remove_alert. rewrite filter_In.
    rewrite negb_true_iff, Nat.eqb_neq. reflexivity.
  - simpl. unfold Alerts.create_alert. simpl.
    destruct (now c) as [t1 c1]. simpl.
    destruct (now c1) as [t2 c2]. simpl.
    destruct (now c2) as [t3 c3]. simpl.
    eexists. eexists. split; [reflexivity |].
    repeat split; try reflexivity.
    intros Heq. discriminate Heq.
Qed.

End AlertFacts.

(** The scenario of the specification: the alert fires on the tick at 101,
    its one subscriber is called once, and the tick at 102 fires nothing. *)
Example alert_scenario :
  Alerts.check_all nat AlertSamples.now
                   [AlertSamples.tick_101; AlertSamples.tick_102]
                   AlertSamples.service0 0%nat
  = ([[AlertSamples.fired_at_101]; []], AlertSamples.service1, 1%nat).
Proof. reflexivity. Qed.

Lemma alert_fires_at_most_once_witness :
  Alerts.firings_at nat AlertSamples.now 0 [AlertSamples.tick_102]
                    (Alerts.alerts AlertSamples.service1) 1%nat = 0%nat
  /\ nth_error
       (Alerts.alerts
          (snd (fst (Alerts.check_all nat AlertSamples.now
                                      [AlertSamples.tick_102]
                                      AlertSamples.service1 1%nat))))
       0 = Some AlertSamples.fired_at_101.
Proof.
  apply (proj1 (proj2 (proj2
           (alert_fires_at_most_once nat AlertSamples.now
              [AlertSamples.tick_102] AlertSamples.service1 1%nat 0%nat)))
           AlertSamples.fired_at_101).
  - reflexivity.
  - reflexivity.
Defined.

(** ** Bucket aggregation and the two resampling routes *)

Section FrameFacts.

Import Frame.

Lemma last_cons_default (rest : list float) :
  forall v d, List.last (v :: rest) d = List.last rest v.
Proof.
  induction rest as [| w rest IH]; intros v d; [reflexivity |].
  change (List.last (v :: w :: rest) d) with (List.last (w :: rest) d).
  rewrite (IH w d), (IH w v). reflexivity.
Qed.

Lemma ohlc_fold (rest : list float) :
  forall o h l c,
    fold_left ohlc_step rest (o, h, l, c)
    = (o, fold_left fmax rest h, fold_left fmin rest l, List.last rest c).
Proof.
  induction rest as [| v rest IH]; intros o h l c; [reflexivity |].
  simpl fold_left. rewrite IH. f_equal.
  symmetry. apply last_cons_default.
Qed.

(** The single pass of [ohlc] computes first, max, min and last. *)
Lemma agg_ohlc_components (vs : list float) :
  agg_ohlc vs = (agg_first vs, agg_max vs, agg_min vs, agg_last vs).
Proof.
  unfold agg_ohlc, agg_first, agg_max, agg_min, agg_last.
  destruct (valid vs) as [| v rest]; [reflexivity |].
  rewrite ohlc_fold, last_cons_default. reflexivity.
Qed.

Lemma fold_fmax_in (rest : list float) :
  forall v, In (fold_left fmax rest v) (v :: rest).
Proof.
  induction rest as [| w rest IH]; intros v; [left; reflexivity |].
  simpl fold_left. unfold fmax at 2.
  destruct (PrimFloat.ltb v w).
  - right. apply IH.
  - destruct (IH v) as [H | H]; [left; exact H | right; right; exact H].
Qed.

Lemma fold_fmin_in (rest : list float) :
  forall v, In (fold_left fmin rest v) (v :: rest).
Proof.
  induction rest as [| w rest IH]; intros v; [left; reflexivity |].
  simpl fold_left. unfold fmin at 2.
  destruct (PrimFloat.ltb w v).
  - right. apply IH.
  - destruct (IH v) as [H | H]; [left; exact H | right; right; exact H].
Qed.

Lemma last_in (rest : list float) :
  forall v, In (List.last rest v) (v :: rest).
Proof.
  induction rest as [| w rest IH]; intros v; [left; reflexivity |].
  right. rewrite last_cons_default. apply (IH w).
Qed.

Lemma valid_not_nan (vs : list float) (v : float) :
  In v (valid vs) -> Np.isnan v = false.
Proof.
  unfold valid. rewrite filter_In. intros [_ H].
  apply negb_true_iff in H. exact H.
Qed.

(** The four aggregates of a bucket are NaN together: exactly when the
    bucket holds no valid value. *)
Lemma agg_nan_together (vs : list float) :
  Np.isnan (agg_first vs) = Np.isnan (agg_last vs)
  /\ Np.isnan (agg_max vs) = Np.isnan (agg_last vs)
  /\ Np.isnan (agg_min vs) = Np.isnan (agg_last vs).
Proof.
  unfold agg_first, agg_max, agg_min, agg_last.
  destruct (valid vs) as [| v rest] eqn:Hv; [repeat split; reflexivity |].
  assert (Hin : forall x, In x (v :: rest) -> Np.isnan x = false).
  { intros x Hx. apply (valid_not_nan vs). rewrite Hv. exact Hx. }
  rewrite last_cons_default. cbn [hd].
  rewrite (Hin (List.last rest v) (last_in rest v)).
  rewrite (Hin (fold_left fmax rest v) (fold_fmax_in rest v)).
  rewrite (Hin (fold_left fmin rest v) (fold_fmin_in rest v)).
  rewrite (Hin v (or_introl eq_refl)).
  repeat split; reflexivity.
Qed.

Lemma combine_map_same {A B C} (f : A -> B) (h : A -> C) (l : list A) :
  combine (map f l) (map h l) = map (fun x => (f x, h x)) l.
Proof.
  induction l as [| x l IH]; [reflexivity |]. simpl. rewrite IH. reflexivity.
Qed.

(** Joining two frames built over the same duplicate-free index pairs
    each row with its own counterpart. *)
Lemma filter_unique_key {A} (G : Z * A -> list float) (rs : list (Z * A)) (b : Z * A) :
  NoDup (map fst rs) -> In b rs ->
  filter (fun rr : Z * list float => (fst rr =? fst b)%Z)
         (map (fun b' => (fst b', G b')) rs)
  = [(fst b, G b)].
Proof.
  induction rs as [| r rs IH]; intros Hnd Hin; [destruct Hin |].
  simpl in Hnd. inversion Hnd as [| x l Hnotin Hnd']; subst.
  simpl. destruct Hin as [-> | Hin].
  - rewrite Z.eqb_refl. f_equal.
    clear IH Hnd Hnd'. induction rs as [| r rs IH]; [reflexivity |].
    simpl. destruct (Z.eqb_spec (fst r) (fst b)) as [He | Hne].
    + exfalso. apply Hnotin. simpl. left. exact He.
    + apply IH. intros Hc. apply Hnotin. simpl. right. exact Hc.
  - destruct (Z.eqb_spec (fst r) (fst b)) as [He | Hne].
    + exfalso. apply Hnotin. rewrite He. apply in_map. exact Hin.
    + apply IH; assumption.
Qed.

Lemma merge_rows_same_index {A} (F G : Z * A -> list float) (rs : list (Z * A)) :
  NoDup (map fst rs) ->
  flat_map
    (fun lr : Z * list float =>
       map (fun rr : Z * list float => (fst lr, snd lr ++ snd rr))
           (filter (fun rr : Z * list float => (fst rr =? fst lr)%Z)
                   (map (fun b => (fst b, G b)) rs)))
    (map (fun b => (fst b, F b)) rs)
  = map (fun b => (fst b, F b ++ G b)) rs.
Proof.
  intros Hnd.
  assert (H : forall sub, incl sub rs ->
            flat_map
              (fun lr : Z * list float =>
                 map (fun rr : Z * list float => (fst lr, snd lr ++ snd rr))
                     (filter (fun rr : Z * list float => (fst rr =? fst lr)%Z)
                             (map (fun b => (fst b, G b)) rs)))
              (map (fun b => (fst b, F b)) sub)
            = map (fun b => (fst b, F b ++ G b)) sub).
  { induction sub as [| b sub IH]; intros Hincl; [reflexivity |].
    simpl. rewrite IH by (intros x Hx; apply Hincl; right; exact Hx).
    rewrite (filter_unique_key G rs b Hnd) by (apply Hincl; left; reflexivity).
    reflexivity. }
  apply H. apply incl_refl.
Qed.

Lemma groups_keys_nodup (w : Z) (ticks : list (Z * (float * float))) :
  NoDup (map fst (groups w ticks)).
Proof.
  unfold groups. rewrite map_map. simpl. rewrite map_id. apply NoDup_nodup.
Qed.

End FrameFacts.

Section RouteFacts.

Import Frame.

Notation bucket := (Z * list (float * float))%type.

Lemma services_general_rows (g : list bucket) :
  rows (Services.route_general g) = map bar g.
Proof.
  unfold Services.route_general, Services.volume_series, add_column.
  cbn [rows]. rewrite map_map, combine_map_same, map_map.
  apply map_ext. intros b. cbn [fst snd].
  rewrite agg_ohlc_components. reflexivity.
Qed.

Lemma services_small_rows (g : list bucket) :
  NoDup (map fst g) -> rows (Services.route_small g) = map bar g.
Proof.
  intros Hnd.
  unfold Services.route_small, Services.volume_frame, Services.volume_series,
    Services.agg_frame, merge.
  cbn [rows]. rewrite map_map. cbn [fst snd].
  exact (merge_rows_same_index
           (fun b : bucket => [agg_first (prices b); agg_max (prices b);
                               agg_min (prices b); agg_last (prices b)])
           (fun b : bucket => [agg_sum (sizes b)]) g Hnd).
Qed.

Lemma app_general_rows (g : list bucket) :
  rows (App.route_general g) = map bar g.
Proof.
  unfold App.route_general, App.volume_column, add_column.
  cbn [rows]. rewrite combine_map_same, map_map.
  apply map_ext. intros b. cbn [fst snd].
  rewrite agg_ohlc_components. reflexivity.
Qed.

Lemma app_small_rows (g : list bucket) :
  rows (App.route_small g) = map close_bar g.
Proof.
  unfold App.route_small, App.volume_column, add_column.
  cbn [rows]. rewrite combine_map_same, map_map. reflexivity.
Qed.

Lemma bar_nan (b : bucket) :
  negb (Np.any_nan (snd (bar b))) = keep b.
Proof.
  unfold bar, keep, Np.any_nan. cbn [snd existsb].
  destruct (agg_nan_together (prices b)) as (-> & -> & ->).
  destruct (Np.isnan (agg_last (prices b))), (Np.isnan (agg_sum (sizes b)));
    reflexivity.
Qed.

Lemma close_bar_nan (b : bucket) :
  negb (Np.any_nan (snd (close_bar b))) = keep b.
Proof.
  unfold close_bar, keep, Np.any_nan. cbn [snd existsb].
  rewrite orb_false_r. reflexivity.
Qed.

Lemma dropna_rows_map (f : bucket -> Z * list float) (g : list bucket) :
  (forall b, negb (Np.any_nan (snd (f b))) = keep b) ->
  filter (fun r => negb (Np.any_nan (snd r))) (map f g) = map f (filter keep g).
Proof.
  intros Hf. induction g as [| b g IH]; [reflexivity |].
  simpl. rewrite Hf. destruct (keep b); simpl; rewrite IH; reflexivity.
Qed.

End RouteFacts.


(** The resampler example of the specification, on the general route. *)
Example general_route_bars :
  App.route_general ResampleSamples.buckets
  = Frame.mkFrame ["open"; "high"; "low"; "close"; "volume"]
                  [(36000000, [100; 102; 100; 102; 0.75]%float);
                   (36060000, [101; 101; 101; 101; 2]%float)].
Proof. vm_compute. reflexivity. Qed.


(** ** Resampling a single normalised tick *)

(** C8, as stated, fails: the one tick of a well-formed message resamples
    to the empty frame, not to a one-bar series. *)
Lemma single_tick_counterexample :
  Ingestion.normalize_tick HandlerSamples.str_lower
      HandlerSamples.float_of_string
      HandlerSamples.float_of_int HandlerSamples.isoformat_of_millis
      (JObject HandlerSamples.good_trade) = Ok HandlerSamples.good_tick
  /\ App.resample_ticks AnalyticsSamples.to_datetime AnalyticsSamples.to_offset
       [Frame.row_of_tick HandlerSamples.good_tick] "1min" = Frame.empty_frame
  /\ ~ (exists bar,
          Frame.rows
            (App.resample_ticks AnalyticsSamples.to_datetime
               AnalyticsSamples.to_offset
               [Frame.row_of_tick HandlerSamples.good_tick] "1min") = [bar]).
Proof.
  split; [vm_compute; reflexivity |]. split; [reflexivity |].
  intros [bar H]. discriminate H.
Qed.

(** C8, as the code has it. The tick of a well-formed message, resampled
    on its own with any interval, yields the empty frame in both copies of
    [resample_ticks] (fewer than 5 ticks); the aggregation itself maps a
    bucket that holds the single price [p] (not NaN) to
    open = high = low = close = [p]. *)
Theorem single_tick_resample :
  forall (str_lower : string -> string)
         (float_of_string : string -> option float)
         (float_of_int : Z -> option float)
         (isoformat_of_millis : json -> result string)
         (to_datetime : list string -> option (list Z))
         (to_offset py_int : string -> option Z)
         (data : json) (t : Ingestion.tick) (interval : string),
    Ingestion.normalize_tick str_lower float_of_string float_of_int
                             isoformat_of_millis data
    = Ok t ->
    App.resample_ticks to_datetime to_offset [Frame.row_of_tick t] interval
    = Frame.empty_frame
    /\ Services.resample_ticks to_datetime py_int [Frame.row_of_tick t] interval
       = Frame.empty_frame
    /\ (Np.isnan (Ingestion.price t) = false ->
        Frame.agg_ohlc [Ingestion.price t]
        = (Ingestion.price t, Ingestion.price t,
           Ingestion.price t, Ingestion.price t)).
Proof.
  intros lower fos foi iso to_dt to_off py_int data t interval _.
  split; [reflexivity |]. split; [reflexivity |].
  intros Hp. unfold Frame.agg_ohlc, Frame.valid. simpl filter.
  rewrite Hp. reflexivity.
Qed.

Lemma single_tick_resample_witness :
  App.resample_ticks AnalyticsSamples.to_datetime AnalyticsSamples.to_offset
    [Frame.row_of_tick HandlerSamples.good_tick] "5s" = Frame.empty_frame
  /\ Services.resample_ticks AnalyticsSamples.to_datetime AnalyticsSamples.py_int
       [Frame.row_of_tick HandlerSamples.good_tick] "5s" = Frame.empty_frame
  /\ (Np.isnan (Ingestion.price HandlerSamples.good_tick) = false ->
      Frame.agg_ohlc [Ingestion.price HandlerSamples.good_tick]
      = (Ingestion.price HandlerSamples.good_tick,
         Ingestion.price HandlerSamples.good_tick,
         Ingestion.price HandlerSamples.good_tick,
         Ingestion.price HandlerSamples.good_tick)).
Proof.
  apply (single_tick_resample
           HandlerSamples.str_lower HandlerSamples.float_of_string
           HandlerSamples.float_of_int HandlerSamples.isoformat_of_millis
           AnalyticsSamples.to_datetime AnalyticsSamples.to_offset
           AnalyticsSamples.py_int
           (JObject HandlerSamples.good_trade) HandlerSamples.good_tick "5s").
  vm_compute. reflexivity.
Defined.

(** ** numpy's summation *)

(** The split point of an array of more than 128 elements lies strictly
    inside it. *)
Lemma split_point (n : nat) :
  (128 < n)%nat ->
  let n2 := (n / 2 - (n / 2) mod 8)%nat in
  (0 < n2 < n)%nat.
Proof.
  intros Hn n2. unfold n2.
  pose proof (Nat.div_mod_eq n 2) as Hd.
  pose proof (Nat.mod_upper_bound n 2 ltac:(lia)) as Hm.
  pose proof (Nat.mod_upper_bound (n / 2) 8 ltac:(lia)) as Hm8.
  lia.
Qed.

(** The recursion of [pairwise_sum] ends before a fuel of the length of
    the array is used up: any two such fuels give the same sum. *)
Lemma pairwise_sum_fuel (fuel fuel' : nat) (a : list float) :
  (List.length a <= fuel)%nat -> (List.length a <= fuel')%nat ->
  Np.pairwise_sum fuel a = Np.pairwise_sum fuel' a.
Proof.
  revert fuel' a. induction fuel as [| fuel IH]; intros fuel' a Hf Hf'.
  - destruct a; [| simpl in Hf; lia]. destruct fuel'; reflexivity.
  - destruct fuel' as [| fuel'].
    + destruct a; [| simpl in Hf'; lia]. reflexivity.
    + cbn [Np.pairwise_sum].
      destruct (List.length a <? 8)%nat; [reflexivity |].
      destruct (Nat.leb_spec (List.length a) 128) as [| Hbig]; [reflexivity |].
      pose proof (split_point (List.length a) Hbig) as Hsp. cbv zeta in Hsp.
      rewrite (IH fuel' (firstn _ a)), (IH fuel' (skipn _ a));
        rewrite ?length_firstn, ?length_skipn; try lia.
      reflexivity.
Qed.

(** The order of the additions shows in the last bits: ten values 0.1
    sum to 1 where additions from left to right give 0.99999999999999989,
    and the regression denominator of nine closes 0.3 is 8.9e-16 where
    that of eight closes 0.1 is 0. *)
Example pairwise_order :
  Np.sum (repeat 0.1%float 10) = 1%float
  /\ fold_left PrimFloat.add (repeat 0.1%float 10) 0%float
     = 0.99999999999999989%float
  /\ App.denominator (repeat 0.3%float 9) = 8.8817841970012523e-16%float
  /\ App.denominator (repeat 0.1%float 8) = 0%float.
Proof. repeat split; vm_compute; reflexivity. Qed.

(** ** The spread z-score *)

(** C4, as stated, fails: on a series of 3 points
    [services/analytics.py] reports [std = 0], not 1, and [app.py] draws
    [current_zscore] at random, so that two calls on the same input
    differ. *)
Lemma zscore_short_series_counterexample :
  Services.calculate_spread_zscore
    AnalyticsSamples.rolling_mean AnalyticsSamples.rolling_std
    AnalyticsSamples.spread_3 20
  = Services.mkZscore 0 [] 0 0
  /\ Services.std (Services.calculate_spread_zscore
                     AnalyticsSamples.rolling_mean AnalyticsSamples.rolling_std
                     AnalyticsSamples.spread_3 20)
     <> 1%float
  /\ fst (App.calculate_spread_zscore (list float) AnalyticsSamples.uniform
            AnalyticsSamples.spread_3 20 [0.75%float])
     = App.mkZscore 0.5 0 1
  /\ fst (App.calculate_spread_zscore (list float) AnalyticsSamples.uniform
            AnalyticsSamples.spread_3 20 [0.25%float])
     = App.mkZscore (-0.5) 0 1
  /\ fst (App.calculate_spread_zscore (list float) AnalyticsSamples.uniform
            AnalyticsSamples.spread_3 20 [0.75%float])
     <> fst (App.calculate_spread_zscore (list float) AnalyticsSamples.uniform
               AnalyticsSamples.spread_3 20 [0.25%float]).
Proof.
  split; [reflexivity |].
  split.
  { intros H. apply (f_equal (fun x => PrimFloat.eqb x 1)) in H.
    vm_compute in H. discriminate H. }
  split; [vm_compute; reflexivity |].
  split; [vm_compute; reflexivity |].
  intros H.
  apply (f_equal (fun r => PrimFloat.eqb (App.current_zscore r) 0.5)) in H.
  vm_compute in H. discriminate H.
Qed.

(** C4, as the code has it. On a series of fewer than 5 points and for
    every window, [app.py] returns mean 0, std 1 and a [current_zscore]
    drawn by [random.uniform(-1, 1)], while [services/analytics.py]
    returns the fixed dict with [current_zscore = 0], an empty
    [zscore_series], [mean = 0] and [std = 0]. *)
Theorem zscore_short_series :
  forall (rng : Type) (uniform : float -> float -> rng -> float * rng)
         (rolling_mean rolling_std : nat -> list float -> result (list float))
         (spread_series : list float) (window : Z) (g : rng),
    (List.length spread_series < 5)%nat ->
    App.calculate_spread_zscore rng uniform spread_series window g
    = (App.mkZscore (fst (uniform (-1)%float 1%float g)) 0 1,
       snd (uniform (-1)%float 1%float g))
    /\ Services.calculate_spread_zscore rolling_mean rolling_std
         spread_series window
       = Services.mkZscore 0 [] 0 0.
Proof.
  intros rng uniform rolling_mean rolling_std spread_series window g Hlen.
  apply Nat.ltb_lt in Hlen. split.
  - unfold App.calculate_spread_zscore. rewrite Hlen.
    destruct (uniform (-1)%float 1%float g) as [z g']. reflexivity.
  - unfold Services.calculate_spread_zscore. rewrite Hlen, orb_true_r.
    reflexivity.
Qed.

Lemma zscore_short_series_witness :
  App.calculate_spread_zscore (list float) AnalyticsSamples.uniform
    AnalyticsSamples.spread_3 20 [0.75%float]
  = (App.mkZscore
       (fst (AnalyticsSamples.uniform (-1)%float 1%float [0.75%float])) 0 1,
     snd (AnalyticsSamples.uniform (-1)%float 1%float [0.75%float]))
  /\ Services.calculate_spread_zscore
       AnalyticsSamples.rolling_mean AnalyticsSamples.rolling_std
       AnalyticsSamples.spread_3 20
     = Services.mkZscore 0 [] 0 0.
Proof.
  apply (zscore_short_series (list float) AnalyticsSamples.uniform
           AnalyticsSamples.rolling_mean AnalyticsSamples.rolling_std
           AnalyticsSamples.spread_3 20 [0.75%float]).
  simpl. lia.
Defined.

Section RollingFacts.

Import Services.

Lemma iloc_last_ok (a : list float) :
  (0 < List.length a)%nat -> iloc_last a = Ok (Np.last a).
Proof.
  destruct a; simpl; intros H; [lia | reflexivity].
Qed.

Lemma zscores_length (s rm rs : list float) :
  List.length rm = List.length s -> List.length rs = List.length s ->
  List.length (zscores s rm rs) = List.length s.
Proof.
  intros Hrm Hrs. unfold zscores. rewrite length_map, !length_combine. lia.
Qed.

(** The last z-score is computed from the last entries of the three
    series. *)
Lemma zscores_last (s rm rs : list float) :
  List.length rm = List.length s -> List.length rs = List.length s ->
  (0 < List.length s)%nat ->
  Np.last (zscores s rm rs)
  = ((Np.last s - Np.last rm) / Np.last rs)%float.
Proof.
  revert rm rs. induction s as [| x s IH]; intros rm rs Hrm Hrs Hpos;
    [simpl in Hpos; lia |].
  destruct rm as [| m rm]; [discriminate |].
  destruct rs as [| d rs]; [discriminate |].
  destruct s as [| x' s'].
  - destruct rm; [| discriminate]. destruct rs; [| discriminate]. reflexivity.
  - destruct rm as [| m' rm']; [discriminate |].
    destruct rs as [| d' rs']; [discriminate |].
    specialize (IH (m' :: rm') (d' :: rs')).
    simpl in Hrm, Hrs.
    assert (H1 : List.length (m' :: rm') = List.length (x' :: s'))
      by (simpl; lia).
    assert (H2 : List.length (d' :: rs') = List.length (x' :: s'))
      by (simpl; lia).
    specialize (IH H1 H2 ltac:(simpl; lia)).
    exact IH.
Qed.

(** [services/analytics.py] on a series that is not shorter than the
    window: the dict is read off the last entries of pandas' rolling
    mean and rolling standard deviation. *)
Lemma services_zscore_window
      (rolling_mean rolling_std : nat -> list float -> result (list float))
      (s rm rs : list float) (window : Z) :
  (5 <= List.length s)%nat ->
  (0 <= window <= Z.of_nat (List.length s))%Z ->
  rolling_mean (Z.to_nat window) s = Ok rm ->
  rolling_std (Z.to_nat window) s = Ok rs ->
  List.length rm = List.length s ->
  List.length rs = List.length s ->
  calculate_spread_zscore rolling_mean rolling_std s window
  = mkZscore
      (nan_to_zero ((Np.last s - Np.last rm) / Np.last rs)%float)
      (filter (fun v => negb (Np.isnan v)) (zscores s rm rs))
      (nan_to_zero (Np.last rm)) (nan_to_zero (Np.last rs)).
Proof.
  intros Hlen Hw Hm Hs Hrm Hrs. unfold calculate_spread_zscore.
  destruct (Z.ltb_spec (Z.of_nat (List.length s)) window) as [Hlt | _]; [lia |].
  destruct (Nat.ltb_spec (List.length s) 5) as [Hlt | _]; [lia |].
  cbn [orb]. unfold zscore_body.
  rewrite Z.min_l by lia.
  destruct (Z.ltb_spec window 0) as [Hneg | _]; [lia |].
  rewrite Hm, Hs. cbn [Py.bind].
  pose proof (zscores_length s rm rs Hrm Hrs) as Hz.
  rewrite !iloc_last_ok by lia. cbn [Py.bind try_except].
  rewrite zscores_last by lia. reflexivity.
Qed.

End RollingFacts.

(** C5, as stated, fails on [services/analytics.py]: for
    [1, 1, 1, 1, 1, 10] and window 20 the effective window is 6 and the
    mean of the six values is 2.5, but the series is shorter than the
    window and the neutral dict with mean 0 comes back. *)
Lemma zscore_window_counterexample :
  Services.calculate_spread_zscore
    AnalyticsSamples.rolling_mean AnalyticsSamples.rolling_std
    AnalyticsSamples.spread_6 20
  = Services.mkZscore 0 [] 0 0
  /\ Z.min 20 (Z.of_nat (List.length AnalyticsSamples.spread_6)) = 6
  /\ Np.mean (Np.tail_slice 6 AnalyticsSamples.spread_6) = 2.5%float
  /\ Services.mean (Services.calculate_spread_zscore
                      AnalyticsSamples.rolling_mean AnalyticsSamples.rolling_std
                      AnalyticsSamples.spread_6 20)
     <> Np.mean (Np.tail_slice 6 AnalyticsSamples.spread_6).
Proof.
  split; [reflexivity |]. split; [reflexivity |].
  split; [vm_compute; reflexivity |].
  intros H. apply (f_equal (fun x => PrimFloat.eqb x 2.5)) in H.
  vm_compute in H. discriminate H.
Qed.

(** C5, as the code has it. On a series of at least 5 points with an
    effective window [min(window, len)] of at least 2, [app.py] returns
    the mean and the population standard deviation of the trailing
    [min(window, len)] values, as [np.mean] and [np.std] compute them,
    and the z-score [(last - mean) / std], or 0 when [std = 0]: for
    [1, 1, 1, 1, 1, 10] and window 5 the mean is 2.8, the std 3.6 and
    the z-score 2. [services/analytics.py] returns its neutral dict when
    the series is shorter than the window; otherwise, when pandas
    returns the rolling mean and the rolling standard deviation of the
    series (one value per point), it reports their last values and the
    last value of (series - rolling mean) / rolling std, NaN replaced
    by 0, and the z-scores that are not NaN. *)
Theorem zscore_window :
  forall (rng : Type) (uniform : float -> float -> rng -> float * rng)
         (rolling_mean rolling_std : nat -> list float -> result (list float))
         (spread_series : list float) (window : Z) (g : rng),
    (5 <= List.length spread_series)%nat ->
    2 <= Z.min window (Z.of_nat (List.length spread_series)) ->
    let w := Z.to_nat (Z.min window (Z.of_nat (List.length spread_series))) in
    let recent := Np.tail_slice w spread_series in
    App.calculate_spread_zscore rng uniform spread_series window g
    = (App.mkZscore
         (if PrimFloat.eqb (Np.std recent) 0 then 0%float
          else ((Np.last spread_series - Np.mean recent) / Np.std recent)%float)
         (Np.mean recent) (Np.std recent), g)
    /\ App.calculate_spread_zscore rng uniform AnalyticsSamples.spread_6 5 g
       = (App.mkZscore 2 2.8 3.6, g)
    /\ (Z.of_nat (List.length spread_series) < window ->
        Services.calculate_spread_zscore rolling_mean rolling_std
          spread_series window
        = Services.mkZscore 0 [] 0 0)
    /\ (window <= Z.of_nat (List.length spread_series) ->
        forall rm rs : list float,
          rolling_mean (Z.to_nat window) spread_series = Ok rm ->
          rolling_std (Z.to_nat window) spread_series = Ok rs ->
          List.length rm = List.length spread_series ->
          List.length rs = List.length spread_series ->
          Services.calculate_spread_zscore rolling_mean rolling_std
            spread_series window
          = Services.mkZscore
              (Services.nan_to_zero
                 ((Np.last spread_series - Np.last rm) / Np.last rs)%float)
              (filter (fun v => negb (Np.isnan v))
                      (Services.zscores spread_series rm rs))
              (Services.nan_to_zero (Np.last rm))
              (Services.nan_to_zero (Np.last rs))).
Proof.
  intros rng uniform rolling_mean rolling_std s window g Hlen Hw w recent.
  split; [| split; [| split]].
  - unfold App.calculate_spread_zscore.
    destruct (Nat.ltb_spec (List.length s) 5) as [Hlt | _]; [lia |].
    fold (Z.min window (Z.of_nat (List.length s))).
    assert (Hmin : (if Z.of_nat (List.length s) <? window
                    then Z.of_nat (List.length s) else window)
                   = Z.min window (Z.of_nat (List.length s))).
    { destruct (Z.ltb_spec (Z.of_nat (List.length s)) window); lia. }
    rewrite Hmin.
    destruct (Z.ltb_spec (Z.min window (Z.of_nat (List.length s))) 2)
      as [Hlt | _]; [lia |].
    reflexivity.
  - vm_compute. reflexivity.
  - intros Hshort. unfold Services.calculate_spread_zscore.
    destruct (Z.ltb_spec (Z.of_nat (List.length s)) window) as [_ | Hge];
      [reflexivity | lia].
  - intros Hfit rm rs Hm Hs Hrm Hrs.
    apply services_zscore_window; try assumption; lia.
Qed.

(** The sample series with window 5 in both copies (the rolling
    statistics being the stand-ins 3 and 2), and ten values 0.1 with
    window 10 in [app.py]: mean 0.1, std 0 and z-score 0. *)
Lemma zscore_window_witness :
  App.calculate_spread_zscore (list float) AnalyticsSamples.uniform
    AnalyticsSamples.spread_6 5 []
  = (App.mkZscore 2 2.8 3.6, [])
  /\ App.calculate_spread_zscore (list float) AnalyticsSamples.uniform
       (repeat 0.1%float 10) 10 []
     = (App.mkZscore 0 0.1 0, [])
  /\ Services.calculate_spread_zscore
       AnalyticsSamples.rolling_mean AnalyticsSamples.rolling_std
       AnalyticsSamples.spread_6 5
     = Services.mkZscore 3.5 [-1; -1; -1; -1; -1; 3.5]%float 3 2.
Proof.
  pose proof (zscore_window (list float) AnalyticsSamples.uniform
                AnalyticsSamples.rolling_mean AnalyticsSamples.rolling_std
                AnalyticsSamples.spread_6 5 []
                ltac:(simpl; lia) ltac:(simpl; lia)) as H.
  split; [exact (proj1 (proj2 H)) |]. split.
  - exact (proj1 (zscore_window (list float) AnalyticsSamples.uniform
                    AnalyticsSamples.rolling_mean AnalyticsSamples.rolling_std
                    (repeat 0.1%float 10) 10 []
                    ltac:(simpl; lia) ltac:(simpl; lia))).
  - exact (proj2 (proj2 (proj2 H)) ltac:(simpl; lia)
             [3; 3; 3; 3; 3; 3]%float [2; 2; 2; 2; 2; 2]%float
             eq_refl eq_refl eq_refl eq_refl).
Defined.

(** ** Pairwise regression *)

Section RegressionFacts.

Import Frame.

Lemma regress_short (X y : list float) :
  (List.length X < 2)%nat -> App.regress X y = App.low_confidence.
Proof.
  intros H. unfold App.regress. apply Nat.ltb_lt in H. rewrite H. reflexivity.
Qed.

Lemma regress_degenerate (X y : list float) :
  (2 <= List.length X)%nat ->
  PrimFloat.eqb (App.denominator X) 0 = true ->
  App.regress X y = App.degenerate.
Proof.
  intros Hlen Hden. unfold App.regress.
  destruct (Nat.ltb_spec (List.length X) 2) as [Hlt | _]; [lia |].
  cbv zeta. fold (App.denominator X). rewrite Hden. reflexivity.
Qed.

Lemma merge_empty_left (l r : frame) (sl sr : string) :
  is_empty l = true -> len (merge l r sl sr) = 0%nat.
Proof.
  unfold is_empty, len, merge. destruct (rows l); [reflexivity | discriminate].
Qed.

Lemma merge_empty_right (l r : frame) (sl sr : string) :
  is_empty r = true -> len (merge l r sl sr) = 0%nat.
Proof.
  unfold is_empty, len, merge. destruct (rows r); [| discriminate].
  intros _. cbn [rows filter map]. induction (rows l); [reflexivity |].
  simpl. assumption.
Qed.

Lemma col_length (c : string) (f : frame) (v : list float) :
  col c f = Some v -> List.length v = len f /\ has_column c f = true.
Proof.
  unfold col, has_column, len. destruct (index_of c (columns f)); [| discriminate].
  intros H. injection H as <-. rewrite length_map. split; reflexivity.
Qed.

Variable to_datetime : list string -> option (list Z).
Variable to_offset : string -> option Z.
Variable get_recent_ticks : string -> Z -> result (list tick_row).
Variable rng : Type.
Variable uniform : float -> float -> rng -> float * rng.

Notation resample := (App.resample_ticks to_datetime to_offset).
Notation pairwise_regression :=
  (App.pairwise_regression to_datetime to_offset get_recent_ticks rng uniform).

(** C3, as the code has it ([app.py]). With at least 5 ticks per symbol:
    fewer than 3 joined points give the low-confidence dict
    (1.2, 0.75, 0.5, 0, 1); at least 3 joined points whose denominator
    [n * sum_x2 - sum_x * sum_x] is exactly 0 in float64 give the
    degenerate dict (1.0, 0.5, 0, 0, 1), as the constant series
    [100, 100, 100] does against any price2. The regression code itself
    returns the low-confidence dict for fewer than 2 points. *)
Theorem regression_fallbacks :
  forall (symbol1 symbol2 timeframe : string) (g : rng)
         (df1 df2 : list tick_row),
    get_recent_ticks symbol1 200 = Ok df1 ->
    get_recent_ticks symbol2 200 = Ok df2 ->
    (5 <= List.length df1)%nat -> (5 <= List.length df2)%nat ->
    let merged := merge (resample df1 timeframe) (resample df2 timeframe)
                        "_1" "_2" in
    ((len merged < 3)%nat ->
     pairwise_regression symbol1 symbol2 timeframe g = (App.low_confidence, g))
    /\ (forall X y,
           (3 <= len merged)%nat ->
           col "close_1" merged = Some X -> col "close_2" merged = Some y ->
           PrimFloat.eqb (App.denominator X) 0 = true ->
           pairwise_regression symbol1 symbol2 timeframe g = (App.degenerate, g))
    /\ (forall y, App.regress [100; 100; 100]%float y = App.degenerate)
    /\ (forall X y, (List.length X < 2)%nat ->
                    App.regress X y = App.low_confidence).
Proof.
  intros symbol1 symbol2 timeframe g df1 df2 H1 H2 Hl1 Hl2 merged.
  assert (Hbody : App.pairwise_regression_body to_datetime to_offset
                    get_recent_ticks rng uniform symbol1 symbol2 timeframe g
                  = if is_empty (resample df1 timeframe)
                       || is_empty (resample df2 timeframe)
                    then Ok (App.low_confidence, g)
                    else if (len merged <? 3)%nat then Ok (App.low_confidence, g)
                    else match col (if has_column "close_1" merged
                                    then "close_1" else "price_1") merged,
                               col (if has_column "close_2" merged
                                    then "close_2" else "price_2") merged with
                         | Some X, Some y => Ok (App.regress X y, g)
                         | _, _ => Ok (App.low_confidence, g)
                         end).
  { unfold App.pairwise_regression_body. rewrite H1, H2. cbn [Py.bind].
    destruct (Nat.ltb_spec (List.length df1) 5) as [Hlt | _]; [lia |].
    destruct (Nat.ltb_spec (List.length df2) 5) as [Hlt | _]; [lia |].
    reflexivity. }
  unfold App.pairwise_regression. rewrite Hbody. clear Hbody.
  split; [| split; [| split]].
  - intros Hlt. apply Nat.ltb_lt in Hlt. rewrite Hlt.
    destruct (is_empty _ || is_empty _); reflexivity.
  - intros X y Hge HX Hy Hden.
    destruct (is_empty (resample df1 timeframe)) eqn:He1.
    { pose proof (merge_empty_left _ (resample df2 timeframe) "_1" "_2" He1).
      fold merged in H. lia. }
    destruct (is_empty (resample df2 timeframe)) eqn:He2.
    { pose proof (merge_empty_right (resample df1 timeframe) _ "_1" "_2" He2).
      fold merged in H. lia. }
    cbn [orb].
    destruct (Nat.ltb_spec (len merged) 3) as [Hlt | _]; [lia |].
    destruct (col_length _ _ _ HX) as [HlenX ->].
    destruct (col_length _ _ _ Hy) as [_ ->].
    rewrite HX, Hy. cbn [try_except].
    rewrite regress_degenerate; [reflexivity | lia | exact Hden].
  - intros y. apply regress_degenerate; [simpl; lia | vm_compute; reflexivity].
  - intros X y. apply regress_short.
Qed.

End RegressionFacts.

(** C3, as stated, fails: two symbols whose ticks join on a single
    bucket (fewer than 2 joined points) get the dict
    (1.2, 0.75, 0.5, 0, 1) from [app.py], and [None] from
    [services/analytics.py], not the dict (1.0, 0.5, 0, 0, 1). *)
Lemma regression_fallback_counterexample :
  Frame.len
    (Frame.merge
       (App.resample_ticks AnalyticsSamples.parse_minute AnalyticsSamples.to_offset
          [Frame.mkRow AnalyticsSamples.minute_0 150 1;
           Frame.mkRow AnalyticsSamples.minute_0 151 1;
           Frame.mkRow AnalyticsSamples.minute_0 152 1;
           Frame.mkRow AnalyticsSamples.minute_0 151 1;
           Frame.mkRow AnalyticsSamples.minute_0 150 1]%float "1min")
       (App.resample_ticks AnalyticsSamples.parse_minute AnalyticsSamples.to_offset
          [Frame.mkRow AnalyticsSamples.minute_0 9 1;
           Frame.mkRow AnalyticsSamples.minute_0 10 1;
           Frame.mkRow AnalyticsSamples.minute_1 12 1;
           Frame.mkRow AnalyticsSamples.minute_1 11 1;
           Frame.mkRow AnalyticsSamples.minute_2 12 1;
           Frame.mkRow AnalyticsSamples.minute_2 13 1]%float "1min")
       "_1" "_2") = 1%nat
  /\ App.pairwise_regression AnalyticsSamples.parse_minute
       AnalyticsSamples.to_offset AnalyticsSamples.get_recent_ticks
       (list float) AnalyticsSamples.uniform "solusdt" "ethusdt" "1min" []
     = (App.mkRegression 1.2 None 0.75 0 1 0.5, [])
  /\ App.hedge_ratio
       (fst (App.pairwise_regression AnalyticsSamples.parse_minute
               AnalyticsSamples.to_offset AnalyticsSamples.get_recent_ticks
               (list float) AnalyticsSamples.uniform
               "solusdt" "ethusdt" "1min" []))
     <> 1.0%float.
Proof.
  split; [vm_compute; reflexivity |]. split; [vm_compute; reflexivity |].
  intros H. apply (f_equal (fun x => PrimFloat.eqb x 1.0)) in H.
  vm_compute in H. discriminate H.
Qed.

Lemma regression_fallbacks_witness :
  App.pairwise_regression AnalyticsSamples.parse_minute
    AnalyticsSamples.to_offset AnalyticsSamples.get_recent_ticks
    (list float) AnalyticsSamples.uniform "btcusdt" "ethusdt" "1min" []
  = (App.degenerate, []).
Proof.
  refine (proj1 (proj2
            (regression_fallbacks AnalyticsSamples.parse_minute
               AnalyticsSamples.to_offset AnalyticsSamples.get_recent_ticks
               (list float) AnalyticsSamples.uniform
               "btcusdt" "ethusdt" "1min" [] _ _
               eq_refl eq_refl ltac:(simpl; lia) ltac:(simpl; lia)))
            [100; 100; 100]%float [10; 11; 13]%float _ _ _ _).
  - vm_compute. lia.
  - vm_compute. reflexivity.
  - vm_compute. reflexivity.
  - vm_compute. reflexivity.
Defined.

(** Rounding can hide a constant series from the test [denominator == 0]:
    for the three constant closes 0.3 the float64 denominator is not 0
    and the regression branch runs. *)
Example constant_series_rounding :
  PrimFloat.eqb (App.denominator [0.3; 0.3; 0.3]%float) 0 = false
  /\ App.regress [0.3; 0.3; 0.3]%float [1; 2; 4]%float
     = App.mkRegression 0 (Some 2.3333333333333335%float) 0
                        2.3333333333333335 1.247219128924647 4.
Proof. split; vm_compute; reflexivity. Qed.

(** ** Results of the analytics operations *)

Section ResultFacts.

Import Frame.

Variable to_datetime : list string -> option (list Z).
Variable to_offset : string -> option Z.
Variable py_int : string -> option Z.
Variable get_recent_ticks : string -> Z -> result (list tick_row).
Variable rng : Type.
Variable uniform : float -> float -> rng -> float * rng.
Variable add_constant : list float -> Services.ndarray.
Variable OLS_fit : list float -> Services.ndarray -> result Services.ols_results.
Variable adfuller : list float -> result (float * float * list (string * float)).
Variable rolling_corr : nat -> list float -> list float -> result (list float).
Variable series_mean : list float -> float.
Variable rolling_mean : nat -> list float -> result (list float).
Variable rolling_std : nat -> list float -> result (list float).

Notation app_regression :=
  (App.pairwise_regression to_datetime to_offset get_recent_ticks rng uniform).
Notation services_regression :=
  (Services.pairwise_regression to_datetime py_int get_recent_ticks
                                add_constant OLS_fit).
Notation services_correlation :=
  (Services.rolling_correlation to_datetime py_int get_recent_ticks
                                rolling_corr series_mean).
Notation services_zscore :=
  (Services.calculate_spread_zscore rolling_mean rolling_std).
Notation adf_test := (Services.adf_test adfuller).

(** A query that raised. *)
Notation raised r := (is_ok r = false).

Lemma demo_no_intercept (g : rng) :
  App.intercept (fst (App.demo rng uniform g)) = None.
Proof.
  unfold App.demo.
  destruct (uniform (-0.1)%float 0.1%float g) as [a g1].
  destruct (uniform (-0.1)%float 0.1%float g1) as [b g2].
  destruct (uniform (-10)%float 10%float g2) as [c g3]. reflexivity.
Qed.

(** [app.py]: a raising query of either symbol gives the low-confidence
    dict. *)
Lemma app_regression_store_failure (symbol1 symbol2 timeframe : string) (g : rng) :
  raised (get_recent_ticks symbol1 200) \/ raised (get_recent_ticks symbol2 200) ->
  app_regression symbol1 symbol2 timeframe g = (App.low_confidence, g).
Proof.
  intros H. unfold App.pairwise_regression, App.pairwise_regression_body.
  destruct (get_recent_ticks symbol1 200) as [df1 | e1]; [| reflexivity].
  cbn [Py.bind].
  destruct (get_recent_ticks symbol2 200) as [df2 | e2]; [| reflexivity].
  destruct H as [H | H]; discriminate H.
Qed.

(** [app.py]: fewer than 5 ticks of either symbol give a dict without
    ['intercept']. *)
Lemma app_regression_short (symbol1 symbol2 timeframe : string) (g : rng) :
  (exists df, get_recent_ticks symbol1 200 = Ok df /\ (List.length df < 5)%nat)
  \/ (exists df, get_recent_ticks symbol2 200 = Ok df /\ (List.length df < 5)%nat) ->
  App.intercept (fst (app_regression symbol1 symbol2 timeframe g)) = None.
Proof.
  intros H. unfold App.pairwise_regression, App.pairwise_regression_body.
  destruct (get_recent_ticks symbol1 200) as [df1 | e1]; [| reflexivity].
  cbn [Py.bind].
  destruct (get_recent_ticks symbol2 200) as [df2 | e2]; [| reflexivity].
  cbn [Py.bind].
  assert (Hshort : ((List.length df1 <? 5) || (List.length df2 <? 5))%nat = true).
  { apply orb_true_iff.
    destruct H as [(df & Hq & Hlen) | (df & Hq & Hlen)];
      injection Hq as <-; [left | right]; apply Nat.ltb_lt; exact Hlen. }
  rewrite Hshort. cbn [try_except]. apply demo_no_intercept.
Qed.

(** [services/analytics.py]: a raising query, or fewer than 10 ticks, of
    either symbol give [None]. *)
Lemma services_regression_none (symbol1 symbol2 timeframe : string) :
  raised (get_recent_ticks symbol1 500) \/ raised (get_recent_ticks symbol2 500)
  \/ (exists df, get_recent_ticks symbol1 500 = Ok df /\ (List.length df < 10)%nat)
  \/ (exists df, get_recent_ticks symbol2 500 = Ok df /\ (List.length df < 10)%nat) ->
  services_regression symbol1 symbol2 timeframe = None.
Proof.
  intros H. unfold Services.pairwise_regression, Services.pairwise_regression_body.
  destruct (get_recent_ticks symbol1 500) as [df1 | e1]; [| reflexivity].
  cbn [Py.bind].
  destruct (get_recent_ticks symbol2 500) as [df2 | e2]; [| reflexivity].
  cbn [Py.bind].
  assert (Hshort : ((List.length df1 <? 10) || (List.length df2 <? 10))%nat = true).
  { apply orb_true_iff.
    destruct H as [H | [H | [(df & Hq & Hlen) | (df & Hq & Hlen)]]];
      try discriminate H;
      injection Hq as <-; [left | right]; apply Nat.ltb_lt; exact Hlen. }
  rewrite Hshort. reflexivity.
Qed.

(** [services/analytics.py]: a dict comes back only when the OLS fit
    returned. *)
Lemma services_regression_needs_fit (symbol1 symbol2 timeframe : string)
      (r : Services.regression) :
  services_regression symbol1 symbol2 timeframe = Some r ->
  exists y X model, OLS_fit y X = Ok model.
Proof.
  unfold Services.pairwise_regression, Services.pairwise_regression_body.
  destruct (get_recent_ticks symbol1 500) as [df1 | e1]; [| discriminate].
  cbn [Py.bind].
  destruct (get_recent_ticks symbol2 500) as [df2 | e2]; [| discriminate].
  cbn [Py.bind].
  destruct (_ || _); [discriminate |].
  destruct (_ || _); [discriminate |].
  destruct (_ <? _)%nat; [discriminate |].
  destruct (col "close_1" _) as [X0 |]; [| discriminate].
  destruct (col "close_2" _) as [y |]; [| discriminate].
  destruct (_ || _); [discriminate |].
  destruct (OLS_fit y (add_constant X0)) as [model | e] eqn:Hfit;
    [| discriminate].
  intros _. exists y, (add_constant X0), model. exact Hfit.
Qed.

(** [services/analytics.py]: a raising query of either symbol gives the
    neutral correlation dict; when both queries return and one of them
    returns no tick, the result is [None]. *)
Lemma services_correlation_store (symbol1 symbol2 : string) (window : Z)
      (timeframe : string) :
  (raised (get_recent_ticks symbol1 500) \/ raised (get_recent_ticks symbol2 500) ->
   services_correlation symbol1 symbol2 window timeframe
   = Some Services.neutral_correlation)
  /\ (forall df1 df2,
        get_recent_ticks symbol1 500 = Ok df1 ->
        get_recent_ticks symbol2 500 = Ok df2 ->
        df1 = [] \/ df2 = [] ->
        services_correlation symbol1 symbol2 window timeframe = None).
Proof.
  unfold Services.rolling_correlation, Services.rolling_correlation_body.
  split.
  - intros H.
    destruct (get_recent_ticks symbol1 500) as [df1 | e1]; [| reflexivity].
    cbn [Py.bind].
    destruct (get_recent_ticks symbol2 500) as [df2 | e2]; [| reflexivity].
    destruct H as [H | H]; discriminate H.
  - intros df1 df2 -> -> [-> | ->]; cbn [Py.bind is_nil orb].
    + reflexivity.
    + rewrite orb_true_r. reflexivity.
Qed.

(** [services/analytics.py]: a correlation dict other than the neutral
    one comes back only when pandas' rolling correlation returned. *)
Lemma services_correlation_needs_corr (symbol1 symbol2 : string) (window : Z)
      (timeframe : string) (c : Services.correlation) :
  services_correlation symbol1 symbol2 window timeframe = Some c ->
  c = Services.neutral_correlation
  \/ exists w a b corr, rolling_corr w a b = Ok corr.
Proof.
  unfold Services.rolling_correlation, Services.rolling_correlation_body.
  destruct (get_recent_ticks symbol1 500) as [df1 | e1];
    [| intros H; injection H as <-; left; reflexivity].
  cbn [Py.bind].
  destruct (get_recent_ticks symbol2 500) as [df2 | e2];
    [| intros H; injection H as <-; left; reflexivity].
  cbn [Py.bind].
  destruct (_ || _); [discriminate |].
  destruct (_ || _); [discriminate |].
  destruct (col "close_1" _) as [c1 |];
    [| intros H; injection H as <-; left; reflexivity].
  destruct (col "close_2" _) as [c2 |];
    [| intros H; injection H as <-; left; reflexivity].
  destruct (_ <? window)%Z; [intros H; injection H as <-; left; reflexivity |].
  destruct (_ <? 0)%Z; [intros H; injection H as <-; left; reflexivity |].
  destruct (rolling_corr _ c1 c2) as [corr | e] eqn:Hcorr;
    [| intros H; injection H as <-; left; reflexivity].
  intros _. right. eauto.
Qed.

(** [services/analytics.py]: a negative window or a raising rolling
    statistic gives the neutral z-score dict. *)
Lemma services_zscore_absorbs (series : list float) (window : Z) :
  let w := Z.to_nat (Z.min window (Z.of_nat (List.length series))) in
  window < 0 \/ raised (rolling_mean w series) \/ raised (rolling_std w series) ->
  services_zscore series window = Services.neutral_zscore.
Proof.
  intros w H. unfold Services.calculate_spread_zscore.
  destruct (_ || _); [reflexivity |].
  unfold Services.zscore_body. fold w.
  destruct (Z.ltb_spec (Z.min window (Z.of_nat (List.length series))) 0)
    as [_ | Hge]; [reflexivity |].
  destruct H as [H | H]; [lia |].
  destruct (rolling_mean w series) as [rm | e1]; [| reflexivity].
  cbn [Py.bind].
  destruct (rolling_std w series) as [rs | e2]; [| reflexivity].
  destruct H as [H | H]; discriminate H.
Qed.


End ResultFacts.



(** ** More on the buffer and the message handler *)

Section DrainFacts.

Import Ingestion Feed.
Local Open Scope nat_scope.

Context {A : Type}.
Variable C : nat.

Lemma buffer_append_below (b : list A) (t : A) :
  List.length b < C -> buffer_append C b t = b ++ [t].
Proof.
  intros H. unfold buffer_append. rewrite length_app. simpl.
  destruct (Nat.ltb_spec C (List.length b + 1)); [lia | reflexivity].
Qed.

Lemma run_buffer_ops_exact (ops : list (buffer_op A)) :
  forall b : list A,
    Forall clearing ops ->
    List.length b + List.length (appended ops) <= C ->
    List.concat (fst (run_buffer_ops C ops b)) ++ snd (run_buffer_ops C ops b)
    = b ++ appended ops.
Proof.
  induction ops as [| o ops IH]; intros b Hc Hlen.
  - simpl. rewrite app_nil_r. reflexivity.
  - inversion Hc as [| x l Ho Hc']; subst. destruct o as [t | clear].
    + simpl in *. rewrite buffer_append_below by lia.
      rewrite IH; [| assumption | rewrite length_app; simpl; lia].
      rewrite <- app_assoc. reflexivity.
    + simpl in Ho. subst clear. simpl in *.
      specialize (IH [] Hc' ltac:(simpl; lia)).
      destruct (run_buffer_ops C ops []) as [copies final]. simpl in *.
      rewrite <- app_assoc, IH. reflexivity.
Qed.

(** X1. When the emitter always drains with [clear=True] and no more than
    [C] ticks arrive in all, the copies returned by the drains, in order,
    followed by what is left in the buffer are exactly the appended ticks
    in their order: no tick is lost, repeated or reordered. *)
Theorem drains_deliver_each_tick_once :
  forall ops : list (buffer_op A),
    Forall clearing ops ->
    List.length (appended ops) <= C ->
    List.concat (fst (run_buffer_ops C ops [])) ++ snd (run_buffer_ops C ops [])
    = appended ops.
Proof.
  intros ops Hc Hlen. apply (run_buffer_ops_exact ops [] Hc). simpl. exact Hlen.
Qed.

Lemma run_buffer_ops_bounded (ops : list (buffer_op A)) :
  forall b : list A,
    List.length b <= C ->
    List.length (snd (run_buffer_ops C ops b)) <= C
    /\ Forall (fun copy => List.length copy <= C) (fst (run_buffer_ops C ops b)).
Proof.
  induction ops as [| o ops IH]; intros b Hb.
  - simpl. split; [exact Hb | constructor].
  - destruct o as [t | clear]; simpl.
    + apply IH. apply buffer_append_length. exact Hb.
    + specialize (IH (if clear then [] else b)
                     ltac:(destruct clear; simpl; lia)).
      destruct (run_buffer_ops C ops (if clear then [] else b))
        as [copies final].
      simpl in *. destruct IH as [IH1 IH2]. split; [exact IH1 |].
      constructor; assumption.
Qed.

End DrainFacts.

(** X2. Whatever the interleaving of appends and drains on an initially
    empty buffer of capacity [C], neither the buffer nor any copy that a
    drain returns ever holds more than [C] ticks. *)
Theorem buffer_never_exceeds_capacity :
  forall (A : Type) (C : nat) (ops : list (Feed.buffer_op A)),
    (List.length (snd (Feed.run_buffer_ops C ops [])) <= C)%nat
    /\ Forall (fun copy => (List.length copy <= C)%nat)
              (fst (Feed.run_buffer_ops C ops [])).
Proof.
  intros A C ops. apply run_buffer_ops_bounded. simpl. lia.
Qed.

Lemma drains_deliver_each_tick_once_witness :
  List.concat (fst (Feed.run_buffer_ops 3
                      [Feed.Append 1%nat; Feed.Append 2%nat; Feed.Drain true;
                       Feed.Append 3%nat] []))
  ++ snd (Feed.run_buffer_ops 3
            [Feed.Append 1%nat; Feed.Append 2%nat; Feed.Drain true;
             Feed.Append 3%nat] [])
  = [1; 2; 3]%nat.
Proof.
  apply (drains_deliver_each_tick_once 3
           [Feed.Append 1%nat; Feed.Append 2%nat; Feed.Drain true;
            Feed.Append 3%nat]).
  - repeat constructor.
  - simpl. lia.
Defined.

Section HandlerRunFacts.

Import Ingestion Feed.

Variable str_lower : string -> string.
Variable float_of_string : string -> option float.
Variable float_of_int : Z -> option float.
Variable isoformat_of_millis : json -> result string.
Variable json_loads : string -> result json.
Variable W : Type.
Variable save_tick : tick -> W -> W * option exn.
Variable callbacks : list (tick -> W -> W * option exn).

Notation normalize :=
  (normalize_tick str_lower float_of_string float_of_int isoformat_of_millis).
Notation to_float := (py_float float_of_string float_of_int).
Notation handle :=
  (on_message str_lower float_of_string float_of_int isoformat_of_millis
              json_loads save_tick callbacks).
Notation handle_all :=
  (on_messages str_lower float_of_string float_of_int isoformat_of_millis
               json_loads W save_tick callbacks).

Lemma py_lower_ok_inv (v : json) (sym : string) :
  py_lower str_lower v = Ok sym -> exists s, v = JString s /\ sym = str_lower s.
Proof.
  destruct v; simpl; intros H; try discriminate.
  injection H as <-. eauto.
Qed.

(** X3. [normalize_tick] succeeds on a dict exactly when the symbol is a
    string, the event time converts, and price and quantity are present
    and convert with [float]; the tick then carries the lower-cased
    symbol, the converted time and the two floats. *)
Theorem normalize_tick_exact :
  forall (fields : list (string * json)) (t : tick),
    normalize (JObject fields) = Ok t
    <-> exists s E p q,
        assoc "s" fields = Some (JString s)
        /\ assoc "E" fields = Some E
        /\ assoc "p" fields = Some p
        /\ assoc "q" fields = Some q
        /\ isoformat_of_millis E = Ok (timestamp t)
        /\ to_float p = Ok (price t)
        /\ to_float q = Ok (size t)
        /\ symbol t = str_lower s.
Proof.
  intros fields t. split.
  - unfold normalize_tick. intros H.
    destruct (getitem (JObject fields) "s") as [s|] eqn:Hs; [| discriminate].
    cbn [Py.bind] in H.
    destruct (py_lower str_lower s) as [sym|] eqn:Hl; [| discriminate].
    cbn [Py.bind] in H.
    destruct (getitem (JObject fields) "E") as [E|] eqn:HE; [| discriminate].
    cbn [Py.bind] in H.
    destruct (isoformat_of_millis E) as [ts|] eqn:Hts; [| discriminate].
    cbn [Py.bind] in H.
    destruct (getitem (JObject fields) "p") as [p|] eqn:Hp; [| discriminate].
    cbn [Py.bind] in H.
    destruct (to_float p) as [pr|] eqn:Hpr; [| discriminate].
    cbn [Py.bind] in H.
    destruct (getitem (JObject fields) "q") as [q|] eqn:Hq; [| discriminate].
    cbn [Py.bind] in H.
    destruct (to_float q) as [sz|] eqn:Hsz; [| discriminate].
    cbn [Py.bind] in H. injection H as <-. simpl.
    destruct (py_lower_ok_inv s sym Hl) as (s0 & -> & ->).
    exists s0, E, p, q.
    repeat split; auto using getitem_ok.
  - intros (s & E & p & q & Hs & HE & Hp & Hq & Hts & Hpr & Hsz & Hsym).
    unfold normalize_tick, getitem.
    rewrite Hs, HE, Hp, Hq. cbn [Py.bind py_lower].
    rewrite Hts. cbn [Py.bind]. rewrite Hpr. cbn [Py.bind].
    rewrite Hsz. cbn [Py.bind].
    destruct t as [sy ts pr sz]. simpl in *. subst. reflexivity.
Qed.

(** X4. An event that is a dict whose ['e'] is not the string ['trade']
    (or is absent) is ignored: nothing is stored, buffered, delivered or
    printed. *)
Theorem non_trade_event_ignored :
  forall (message : string) (fields : list (string * json)) (st : state W),
    json_loads message = Ok (JObject fields) ->
    assoc "e" fields <> Some (JString "trade") ->
    handle message st = (st, None).
Proof.
  intros message fields st Hload He. unfold on_message, on_message_body.
  rewrite Hload. simpl get.
  destruct (assoc "e" fields) as [v |] eqn:Hv; [| reflexivity].
  assert (Hne : eq_str v "trade" = false).
  { destruct v; try reflexivity. simpl.
    destruct (String.eqb_spec s "trade") as [-> | _]; [| reflexivity].
    exfalso. apply He. reflexivity. }
  rewrite Hne. reflexivity.
Qed.

(** X5. When [save_tick] raises for a well-formed trade, the tick is
    neither buffered nor handed to any subscriber; the exception is
    printed and the handler returns normally. *)
Theorem store_failure_drops_tick :
  forall (message : string) (fields : list (string * json)) (t : tick)
         (st : state W) (w' : W) (e : exn),
    json_loads message = Ok (JObject fields) ->
    assoc "e" fields = Some (JString "trade") ->
    normalize (JObject fields) = Ok t ->
    save_tick t (world st) = (w', Some e) ->
    handle message st = (mkState w' (buffer st) (printed st ++ [e]), None).
Proof.
  intros message fields t st w' e Hload Hev Hn Hsave.
  unfold on_message, on_message_body.
  rewrite Hload. simpl get. rewrite Hev. simpl eq_str.
  rewrite Hn, Hsave. reflexivity.
Qed.

Lemma run_callbacks_all_ok (t : tick) (cbs : list (tick -> W -> W * option exn)) :
  forall st : state W,
    (forall cb w, In cb cbs -> snd (cb t w) = None) ->
    run_callbacks cbs t st
    = (mkState (fold_left (fun w cb => fst (cb t w)) cbs (world st))
               (buffer st) (printed st), None).
Proof.
  induction cbs as [| cb cbs IH]; intros st Hok.
  - destruct st; reflexivity.
  - simpl. pose proof (Hok cb (world st) (or_introl eq_refl)) as H.
    destruct (cb t (world st)) as [w1 r] eqn:Hcb. simpl in H. subst r.
    rewrite IH by (intros cb' w Hin; apply Hok; right; exact Hin).
    reflexivity.
Qed.

Lemma run_callbacks_first_failure (t : tick)
      (pre : list (tick -> W -> W * option exn)) :
  forall (cb : tick -> W -> W * option exn)
         (post : list (tick -> W -> W * option exn)) (st : state W) (e : exn),
    (forall cb' w, In cb' pre -> snd (cb' t w) = None) ->
    snd (cb t (fold_left (fun w cb' => fst (cb' t w)) pre (world st))) = Some e ->
    run_callbacks (pre ++ cb :: post) t st
    = (mkState (fst (cb t (fold_left (fun w cb' => fst (cb' t w)) pre (world st))))
               (buffer st) (printed st), Some e).
Proof.
  induction pre as [| c pre IH]; intros cb post st e Hok Hfail.
  - simpl in *. destruct (cb t (world st)) as [w1 r]. simpl in Hfail.
    subst r. reflexivity.
  - simpl. pose proof (Hok c (world st) (or_introl eq_refl)) as H.
    destruct (c t (world st)) as [w1 r] eqn:Hc. simpl in H. subst r.
    rewrite (IH cb post (mkState w1 (buffer st) (printed st)) e).
    + reflexivity.
    + intros cb' w Hin. apply Hok. right. exact Hin.
    + simpl in *. rewrite Hc in Hfail. exact Hfail.
Qed.

(** X6. A well-formed trade whose store call and subscribers return
    normally is stored, appended to the buffer (the oldest tick leaves
    when the buffer held 1000), and handed to every subscriber once, in
    registration order; nothing is printed. *)
Theorem trade_is_stored_buffered_delivered :
  forall (message : string) (fields : list (string * json)) (t : tick)
         (st : state W) (w1 : W),
    json_loads message = Ok (JObject fields) ->
    assoc "e" fields = Some (JString "trade") ->
    normalize (JObject fields) = Ok t ->
    save_tick t (world st) = (w1, None) ->
    (forall cb w, In cb callbacks -> snd (cb t w) = None) ->
    handle message st
    = (mkState (fold_left (fun w cb => fst (cb t w)) callbacks w1)
               (buffer_append BUFFER_CAPACITY (buffer st) t)
               (printed st), None).
Proof.
  intros message fields t st w1 Hload Hev Hn Hsave Hok.
  unfold on_message, on_message_body.
  rewrite Hload. simpl get. rewrite Hev. simpl eq_str.
  rewrite Hn, Hsave. rewrite run_callbacks_all_ok by exact Hok. reflexivity.
Qed.

(** X7. When a subscriber raises, the subscribers registered after it
    are not called for that tick, while the tick stays stored and
    buffered; the exception is printed and the handler returns
    normally. *)
Theorem subscriber_failure_skips_later_subscribers :
  forall (message : string) (fields : list (string * json)) (t : tick)
         (st : state W) (w1 : W)
         (pre post : list (tick -> W -> W * option exn))
         (cb : tick -> W -> W * option exn) (e : exn),
    callbacks = pre ++ cb :: post ->
    json_loads message = Ok (JObject fields) ->
    assoc "e" fields = Some (JString "trade") ->
    normalize (JObject fields) = Ok t ->
    save_tick t (world st) = (w1, None) ->
    (forall cb' w, In cb' pre -> snd (cb' t w) = None) ->
    snd (cb t (fold_left (fun w cb' => fst (cb' t w)) pre w1)) = Some e ->
    handle message st
    = (mkState (fst (cb t (fold_left (fun w cb' => fst (cb' t w)) pre w1)))
               (buffer_append BUFFER_CAPACITY (buffer st) t)
               (printed st ++ [e]), None).
Proof.
  intros message fields t st w1 pre post cb e Hcbs Hload Hev Hn Hsave Hok Hfail.
  unfold on_message, on_message_body.
  rewrite Hload. simpl get. rewrite Hev. simpl eq_str.
  rewrite Hn, Hsave, Hcbs.
  rewrite (run_callbacks_first_failure t pre cb post
             (mkState w1 (buffer_append BUFFER_CAPACITY (buffer st) t)
                      (printed st)) e Hok Hfail).
  reflexivity.
Qed.

Lemma run_callbacks_buffer (t : tick) (cbs : list (tick -> W -> W * option exn)) :
  forall st : state W, buffer (fst (run_callbacks cbs t st)) = buffer st.
Proof.
  induction cbs as [| cb cbs IH]; intros st; [reflexivity |].
  simpl. destruct (cb t (world st)) as [w1 [e |]]; [reflexivity |].
  rewrite IH. reflexivity.
Qed.

Lemma on_message_buffer (message : string) (st : state W) :
  buffer (fst (handle message st)) = buffer st
  \/ exists t, buffer (fst (handle message st))
               = buffer_append BUFFER_CAPACITY (buffer st) t.
Proof.
  unfold on_message.
  assert (H : buffer (fst (on_message_body str_lower float_of_string float_of_int
                             isoformat_of_millis json_loads save_tick callbacks
                             message st)) = buffer st
              \/ exists t,
                buffer (fst (on_message_body str_lower float_of_string float_of_int
                               isoformat_of_millis json_loads save_tick callbacks
                               message st))
                = buffer_append BUFFER_CAPACITY (buffer st) t).
  { unfold on_message_body.
    destruct (json_loads message) as [data |]; [| left; reflexivity].
    destruct (get data "e") as [ev |]; [| left; reflexivity].
    destruct (eq_str ev "trade"); [| left; reflexivity].
    destruct (normalize data) as [t |]; [| left; reflexivity].
    destruct (save_tick t (world st)) as [w1 [e |]]; [left; reflexivity |].
    right. exists t. rewrite run_callbacks_buffer. reflexivity. }
  destruct (on_message_body _ _ _ _ _ _ _ message st) as [st' [e |]];
    simpl in *; exact H.
Qed.

(** X8. Over any sequence of messages the buffer never holds more than
    1000 ticks, provided it starts within that bound. *)
Theorem handler_keeps_buffer_bounded :
  forall (messages : list string) (st : state W),
    (List.length (buffer st) <= 1000)%nat ->
    (List.length (buffer (handle_all messages st)) <= 1000)%nat.
Proof.
  induction messages as [| m messages IH]; intros st Hb; [exact Hb |].
  simpl. apply IH.
  destruct (on_message_buffer m st) as [-> | [t ->]]; [exact Hb |].
  apply buffer_append_length. exact Hb.
Qed.

End HandlerRunFacts.

Lemma non_trade_event_ignored_witness :
  Ingestion.on_message HandlerSamples.str_lower
    HandlerSamples.float_of_string HandlerSamples.float_of_int
    HandlerSamples.isoformat_of_millis FeedSamples.json_loads
    HandlerSamples.save_tick [FeedSamples.recording] "ping" HandlerSamples.start
  = (HandlerSamples.start, None).
Proof.
  apply (non_trade_event_ignored
           HandlerSamples.str_lower
           HandlerSamples.float_of_string HandlerSamples.float_of_int
           HandlerSamples.isoformat_of_millis FeedSamples.json_loads
           (list Ingestion.tick) HandlerSamples.save_tick [FeedSamples.recording]
           "ping" [("e", JString "aggTrade")] HandlerSamples.start).
  - reflexivity.
  - simpl. intros H. discriminate H.
Defined.

Lemma store_failure_drops_tick_witness :
  Ingestion.on_message HandlerSamples.str_lower
    HandlerSamples.float_of_string HandlerSamples.float_of_int
    HandlerSamples.isoformat_of_millis FeedSamples.json_loads
    FeedSamples.failing_store [FeedSamples.recording] "good" HandlerSamples.start
  = (Ingestion.mkState [] [] [Exn "OperationalError"], None).
Proof.
  apply (store_failure_drops_tick
           HandlerSamples.str_lower
           HandlerSamples.float_of_string HandlerSamples.float_of_int
           HandlerSamples.isoformat_of_millis FeedSamples.json_loads
           (list Ingestion.tick) FeedSamples.failing_store [FeedSamples.recording]
           "good" HandlerSamples.good_trade HandlerSamples.good_tick
           HandlerSamples.start [] (Exn "OperationalError")).
  - reflexivity.
  - reflexivity.
  - vm_compute. reflexivity.
  - reflexivity.
Defined.

Lemma trade_is_stored_buffered_delivered_witness :
  Ingestion.on_message HandlerSamples.str_lower
    HandlerSamples.float_of_string HandlerSamples.float_of_int
    HandlerSamples.isoformat_of_millis FeedSamples.json_loads
    HandlerSamples.save_tick [FeedSamples.recording; FeedSamples.recording]
    "good" HandlerSamples.start
  = (Ingestion.mkState
       (fold_left (fun w cb => fst (cb HandlerSamples.good_tick w))
                  [FeedSamples.recording; FeedSamples.recording]
                  [HandlerSamples.good_tick])
       (Ingestion.buffer_append Ingestion.BUFFER_CAPACITY [] HandlerSamples.good_tick)
       [], None).
Proof.
  apply (trade_is_stored_buffered_delivered
           HandlerSamples.str_lower
           HandlerSamples.float_of_string HandlerSamples.float_of_int
           HandlerSamples.isoformat_of_millis FeedSamples.json_loads
           (list Ingestion.tick) HandlerSamples.save_tick
           [FeedSamples.recording; FeedSamples.recording]
           "good" HandlerSamples.good_trade HandlerSamples.good_tick
           HandlerSamples.start [HandlerSamples.good_tick]).
  - reflexivity.
  - reflexivity.
  - vm_compute. reflexivity.
  - reflexivity.
  - intros cb w [<- | [<- | []]]; reflexivity.
Defined.

Lemma subscriber_failure_skips_later_subscribers_witness :
  Ingestion.on_message HandlerSamples.str_lower
    HandlerSamples.float_of_string HandlerSamples.float_of_int
    HandlerSamples.isoformat_of_millis FeedSamples.json_loads
    HandlerSamples.save_tick
    [FeedSamples.recording; FeedSamples.raising; FeedSamples.recording]
    "good" HandlerSamples.start
  = (Ingestion.mkState
       (fst (FeedSamples.raising HandlerSamples.good_tick
               (fold_left (fun w cb' => fst (cb' HandlerSamples.good_tick w))
                          [FeedSamples.recording] [HandlerSamples.good_tick])))
       (Ingestion.buffer_append Ingestion.BUFFER_CAPACITY [] HandlerSamples.good_tick)
       [Exn "RuntimeError"], None).
Proof.
  apply (subscriber_failure_skips_later_subscribers
           HandlerSamples.str_lower
           HandlerSamples.float_of_string HandlerSamples.float_of_int
           HandlerSamples.isoformat_of_millis FeedSamples.json_loads
           (list Ingestion.tick) HandlerSamples.save_tick
           [FeedSamples.recording; FeedSamples.raising; FeedSamples.recording]
           "good" HandlerSamples.good_trade HandlerSamples.good_tick
           HandlerSamples.start [HandlerSamples.good_tick]
           [FeedSamples.recording] [FeedSamples.recording] FeedSamples.raising
           (Exn "RuntimeError")).
  - reflexivity.
  - reflexivity.
  - reflexivity.
  - vm_compute. reflexivity.
  - reflexivity.
  - intros cb' w [<- | []]. reflexivity.
  - reflexivity.
Defined.

Lemma handler_keeps_buffer_bounded_witness :
  (List.length
     (Ingestion.buffer
        (Feed.on_messages HandlerSamples.str_lower
           HandlerSamples.float_of_string HandlerSamples.float_of_int
           HandlerSamples.isoformat_of_millis FeedSamples.json_loads
           (list Ingestion.tick) HandlerSamples.save_tick [FeedSamples.recording]
           ["good"; "ping"; "good"] HandlerSamples.start)) <= 1000)%nat.
Proof.
  apply (handler_keeps_buffer_bounded
           HandlerSamples.str_lower
           HandlerSamples.float_of_string HandlerSamples.float_of_int
           HandlerSamples.isoformat_of_millis FeedSamples.json_loads
           (list Ingestion.tick) HandlerSamples.save_tick [FeedSamples.recording]
           ["good"; "ping"; "good"] HandlerSamples.start).
  simpl. lia.
Defined.

(** ** Feed connections *)

Section LifecycleFacts.

Import Lifecycle.
Local Open Scope nat_scope.

Lemma tracked_in (symbol : string) (st : ingestion) :
  tracked symbol st = true <-> In symbol (map fst (ws_connections st)).
Proof.
  unfold tracked. rewrite existsb_exists. split.
  - intros (x & Hin & Heq). apply String.eqb_eq in Heq. subst. exact Hin.
  - intros Hin. exists symbol. split; [exact Hin | apply String.eqb_refl].
Qed.

Lemma start_symbol_well_tracked (symbol : string) (st : ingestion) :
  well_tracked st -> well_tracked (start_symbol symbol st).
Proof.
  intros [Hnd Hids]. unfold start_symbol.
  destruct (tracked symbol st) eqn:Ht; [split; assumption |].
  split; cbn [ws_connections opened closed].
  - rewrite map_app. simpl. apply NoDup_app; [exact Hnd | | ].
    + constructor; [intros [] | constructor].
    + intros x Hx [<- | []].
      apply tracked_in in Hx. congruence.
  - rewrite !map_app, Hids, app_assoc. simpl.
    f_equal.
Qed.

Lemma fold_start_symbol_well_tracked (syms : list string) :
  forall st, well_tracked st ->
             well_tracked (fold_left (fun s symbol => start_symbol symbol s) syms st).
Proof.
  induction syms as [| s syms IH]; intros st H; [exact H |].
  simpl. apply IH, start_symbol_well_tracked, H.
Qed.

Lemma run_call_well_tracked (c : call) (st : ingestion) :
  well_tracked st -> well_tracked (run_call c st).
Proof.
  intros H. destruct c as [symbol | syms |]; simpl.
  - apply start_symbol_well_tracked, H.
  - unfold start. apply fold_start_symbol_well_tracked. exact H.
  - destruct H as [_ Hids]. unfold stop.
    split; cbn [ws_connections opened closed].
    + constructor.
    + rewrite Hids, app_nil_r. reflexivity.
Qed.

Lemma run_calls_well_tracked (cs : list call) :
  well_tracked (run_calls cs init).
Proof.
  unfold run_calls.
  assert (H : forall st, well_tracked st ->
                         well_tracked (fold_left (fun s c => run_call c s) cs st)).
  { induction cs as [| c cs IH]; intros st Hst; [exact Hst |].
    simpl. apply IH, run_call_well_tracked, Hst. }
  apply H. split; [constructor | reflexivity].
Qed.

(** X9. After any sequence of [start_symbol], [start] and [stop] calls on
    a new ingestion object, no symbol has two tracked connections, and
    every connection ever opened is either tracked or was closed by
    [stop]: in creation order the opened connections are the closed ones
    followed by the tracked ones. *)
Theorem connections_never_duplicated_or_leaked :
  forall cs : list call,
    NoDup (map fst (ws_connections (run_calls cs init)))
    /\ map fst (opened (run_calls cs init))
       = closed (run_calls cs init)
         ++ map snd (ws_connections (run_calls cs init)).
Proof.
  intros cs. exact (run_calls_well_tracked cs).
Qed.

Lemma start_symbol_keeps_tracked (symbol s : string) (st : ingestion) :
  tracked s st = true -> tracked s (start_symbol symbol st) = true.
Proof.
  intros H. unfold start_symbol. destruct (tracked symbol st); [exact H |].
  apply tracked_in. cbn [ws_connections]. rewrite map_app.
  apply in_or_app. left. apply tracked_in. exact H.
Qed.

Lemma start_symbol_tracks (symbol : string) (st : ingestion) :
  tracked symbol (start_symbol symbol st) = true.
Proof.
  unfold start_symbol. destruct (tracked symbol st) eqn:Ht; [exact Ht |].
  apply tracked_in. cbn [ws_connections]. rewrite map_app.
  apply in_or_app. right. left. reflexivity.
Qed.

Lemma fold_start_symbol_tracks (syms : list string) :
  forall st s,
    In s syms \/ tracked s st = true ->
    tracked s (fold_left (fun x symbol => start_symbol symbol x) syms st) = true.
Proof.
  induction syms as [| y syms IH]; intros st s H.
  - simpl. destruct H as [[] | H]. exact H.
  - simpl. apply IH. destruct H as [[<- | Hin] | Ht].
    + right. apply start_symbol_tracks.
    + left. exact Hin.
    + right. apply start_symbol_keeps_tracked, Ht.
Qed.

Lemma fold_start_symbol_noop (syms : list string) :
  forall st,
    (forall s, In s syms -> tracked s st = true) ->
    fold_left (fun x symbol => start_symbol symbol x) syms st = st.
Proof.
  induction syms as [| y syms IH]; intros st H; [reflexivity |].
  simpl. unfold start_symbol at 2. rewrite (H y (or_introl eq_refl)).
  apply IH. intros s Hs. apply H. right. exact Hs.
Qed.

Lemma fold_start_symbol_fields (syms : list string) :
  forall st,
    symbols (fold_left (fun x symbol => start_symbol symbol x) syms st) = symbols st
    /\ is_running (fold_left (fun x symbol => start_symbol symbol x) syms st)
       = is_running st
    /\ closed (fold_left (fun x symbol => start_symbol symbol x) syms st)
       = closed st.
Proof.
  induction syms as [| y syms IH]; intros st; [repeat split |].
  simpl. destruct (IH (start_symbol y st)) as (H1 & H2 & H3).
  rewrite H1, H2, H3. unfold start_symbol.
  destruct (tracked y st); repeat split.
Qed.

(** X10. [start(symbols)] leaves every listed symbol tracked (once, even
    when the list repeats it), and calling it again with the same list
    opens nothing new: the second call returns the same state. *)
Theorem start_is_idempotent :
  forall (syms : list string) (st : ingestion),
    (forall s, In s syms -> tracked s (start syms st) = true)
    /\ start syms (start syms st) = start syms st.
Proof.
  intros syms st. split.
  - intros s Hs. unfold start. apply fold_start_symbol_tracks. left. exact Hs.
  - assert (Htr : forall s, In s syms -> tracked s (start syms st) = true).
    { intros s Hs. unfold start. apply fold_start_symbol_tracks. left. exact Hs. }
    unfold start at 1.
    destruct (fold_start_symbol_fields syms
                (mkIngestion syms (ws_connections st) true (opened st) (closed st)))
      as (H1 & H2 & H3).
    fold (start syms st) in H1, H2, H3. cbn [symbols is_running closed] in *.
    assert (Heq : mkIngestion syms (ws_connections (start syms st)) true
                              (opened (start syms st)) (closed (start syms st))
                  = start syms st).
    { destruct (start syms st) as [sy wc ir op cl]. simpl in *. subst.
      reflexivity. }
    rewrite Heq. apply fold_start_symbol_noop. exact Htr.
Qed.

Lemma start_symbol_numbered (symbol : string) (st : ingestion) :
  numbered st -> numbered (start_symbol symbol st).
Proof.
  unfold numbered, start_symbol. intros H.
  destruct (tracked symbol st); [exact H |].
  cbn [opened]. rewrite map_app, length_app, H. simpl.
  rewrite Nat.add_1_r, seq_S. reflexivity.
Qed.

Lemma run_call_numbered (c : call) (st : ingestion) :
  numbered st -> numbered (run_call c st).
Proof.
  intros H. destruct c as [symbol | syms |]; simpl.
  - apply start_symbol_numbered, H.
  - unfold start.
    assert (G : forall x, numbered x ->
                numbered (fold_left (fun s symbol => start_symbol symbol s) syms x)).
    { induction syms as [| y syms IH]; intros x Hx; [exact Hx |].
      simpl. apply IH, start_symbol_numbered, Hx. }
    apply G. exact H.
  - exact H.
Qed.

(** X11. Whatever calls came before, [stop] leaves no connection
    tracked, and afterwards the closed connections are exactly the
    connections ever opened, each closed once. *)
Theorem stop_closes_every_open_connection :
  forall cs : list call,
    let st := stop (run_calls cs init) in
    ws_connections st = []
    /\ closed st = map fst (opened st)
    /\ NoDup (closed st).
Proof.
  intros cs st.
  pose proof (run_calls_well_tracked cs) as [_ Hids].
  assert (Hnum : numbered (run_calls cs init)).
  { unfold run_calls.
    assert (G : forall x, numbered x ->
                          numbered (fold_left (fun s c => run_call c s) cs x)).
    { clear. induction cs as [| c cs' IH]; intros x Hx; [exact Hx |].
      simpl. apply IH, run_call_numbered, Hx. }
    apply G. reflexivity. }
  unfold st, stop. cbn [ws_connections closed opened].
  split; [reflexivity |]. rewrite <- Hids. split; [reflexivity |].
  rewrite Hnum. apply seq_NoDup.
Qed.

Lemma fold_start_symbol_only (syms : list string) :
  forall st s,
    In s (map fst (ws_connections
                     (fold_left (fun x symbol => start_symbol symbol x) syms st))) ->
    In s syms \/ In s (map fst (ws_connections st)).
Proof.
  induction syms as [| y syms IH]; intros st s H; [right; exact H |].
  simpl in H. apply IH in H. destruct H as [H | H]; [left; right; exact H |].
  unfold start_symbol in H. destruct (tracked y st); [right; exact H |].
  cbn [ws_connections] in H. rewrite map_app in H.
  apply in_app_or in H. destruct H as [H | [<- | []]];
    [right; exact H | left; left; reflexivity].
Qed.

Lemma serve_invariant (r : request) (a : app) :
  collecting_invariant a -> collecting_invariant (serve r a).
Proof.
  intros (Hnd & Hwt & Hc). destruct r as [symbol | |]; simpl.
  - unfold handle_add_symbol.
    destruct (existsb (String.eqb symbol) (active_symbols a)) eqn:Hex;
      [exact (conj Hnd (conj Hwt Hc)) |].
    assert (Hnotin : ~ In symbol (active_symbols a)).
    { intros Hin. assert (existsb (String.eqb symbol) (active_symbols a) = true).
      { apply existsb_exists. exists symbol. split;
          [exact Hin | apply String.eqb_refl]. }
      congruence. }
    split; [| split]; cbn [active_symbols data_ingestion is_collecting].
    + apply NoDup_app; [exact Hnd | constructor; [intros [] | constructor] |].
      intros x Hx [<- | []]. contradiction.
    + destruct (is_collecting a); [apply start_symbol_well_tracked |]; exact Hwt.
    + destruct (is_collecting a); [| exact Hc].
      intros s. rewrite in_app_iff. split.
      * intros [Hs | [<- | []]].
        -- apply tracked_in, start_symbol_keeps_tracked, tracked_in, Hc, Hs.
        -- apply tracked_in, start_symbol_tracks.
      * intros Hs. unfold start_symbol in Hs.
        destruct (tracked symbol (data_ingestion a)).
        -- left. apply Hc, Hs.
        -- cbn [ws_connections] in Hs. rewrite map_app in Hs.
           apply in_app_or in Hs. destruct Hs as [Hs | [<- | []]].
           ++ left. apply Hc, Hs.
           ++ right. left. reflexivity.
  - unfold start_collection. destruct (is_collecting a) eqn:Hic; simpl.
    + unfold collecting_invariant. rewrite Hic.
      exact (conj Hnd (conj Hwt Hc)).
    + split; [exact Hnd |]. split; cbn [data_ingestion is_collecting].
      * unfold start. apply fold_start_symbol_well_tracked.
        destruct Hwt as [H1 H2]. split; assumption.
      * intros s. split.
        -- intros Hs. apply tracked_in. unfold start.
           apply fold_start_symbol_tracks. left. exact Hs.
        -- intros Hs. unfold start in Hs. apply fold_start_symbol_only in Hs.
           cbn [ws_connections] in Hs. rewrite Hc in Hs.
           destruct Hs as [Hs | []]. exact Hs.
  - unfold stop_collection. destruct (is_collecting a) eqn:Hic; simpl.
    + split; [exact Hnd |]. split; cbn [data_ingestion is_collecting].
      * apply (run_call_well_tracked Stop), Hwt.
      * reflexivity.
    + unfold collecting_invariant. rewrite Hic.
      exact (conj Hnd (conj Hwt Hc)).
Qed.

(** X12. After any sequence of add-symbol, start-collection and
    stop-collection requests on the initial state of [app.py]: while
    collecting, the symbols with a tracked connection are exactly the
    active symbols; while not collecting, no connection is tracked; and
    the active symbols stay free of duplicates. *)
Theorem collection_tracks_active_symbols :
  forall rs : list request,
    let a := serve_all rs app_init in
    NoDup (active_symbols a)
    /\ (is_collecting a = true ->
        forall s, In s (active_symbols a)
                  <-> In s (map fst (ws_connections (data_ingestion a))))
    /\ (is_collecting a = false -> ws_connections (data_ingestion a) = []).
Proof.
  intros rs a.
  assert (H : collecting_invariant a).
  { unfold a, serve_all.
    assert (G : forall s, collecting_invariant s ->
                          collecting_invariant (fold_left (fun x r => serve r x) rs s)).
    { induction rs as [| r rs IH]; intros s Hs; [exact Hs |].
      simpl. apply IH, serve_invariant, Hs. }
    apply G. split; [| split].
    - simpl. unfold DEFAULT_SYMBOLS.
      repeat constructor; simpl; intros H;
        repeat (destruct H as [H | H]; [discriminate H |]); exact H.
    - split; [constructor | reflexivity].
    - reflexivity. }
  destruct H as (Hnd & _ & Hc). split; [exact Hnd |]. split.
  - intros Hic. rewrite Hic in Hc. exact Hc.
  - intros Hic. rewrite Hic in Hc. exact Hc.
Qed.

End LifecycleFacts.

(** ** More on the alert service *)

Section AlertRunFacts.

Import Alerts AlertRuns.
Local Open Scope nat_scope.

Variable clock : Type.
Variable now : clock -> string * clock.

Notation check_loop := (Alerts.check_loop clock now).
Notation check_price_alert := (Alerts.check_price_alert clock now).
Notation check_all := (Alerts.check_all clock now).
Notation create_alert := (Alerts.create_alert clock now).
Notation run_ops := (Alerts.run_ops clock now).

Lemma dormant_never_fires (t : tick_data) (a : alert) :
  dormant t a -> fires t a = false.
Proof.
  unfold dormant, fires. intros [H | [H | [H | [H1 H2]]]].
  - rewrite H. reflexivity.
  - rewrite H, orb_true_r. reflexivity.
  - destruct (negb (is_active a) || triggered a); [reflexivity |].
    destruct (String.eqb_spec (symbol a) (tick_symbol t)); [contradiction |].
    reflexivity.
  - destruct (negb (is_active a) || triggered a); [reflexivity |].
    destruct (String.eqb (symbol a) (tick_symbol t)); [| reflexivity].
    destruct (String.eqb_spec (condition a) "above"); [contradiction |].
    destruct (String.eqb_spec (condition a) "below"); [contradiction |].
    reflexivity.
Qed.

Lemma check_loop_dormant (t : tick_data) (al : list alert) :
  forall c, Forall (dormant t) al -> check_loop t al c = (al, [], c).
Proof.
  induction al as [| a al IH]; intros c H; [reflexivity |].
  inversion H as [| x l Ha Hal]; subst. simpl.
  rewrite (dormant_never_fires t a Ha), (IH c Hal). reflexivity.
Qed.

(** X13. A tick for which every alert is dormant (inactive, already
    triggered, for another symbol, or with a condition other than
    ['above'] and ['below']) is a no-op: nothing is returned, no alert
    changes, the clock is not read and no callback is called. *)
Theorem check_without_live_alert_is_noop :
  forall (t : tick_data) (s : service) (c : clock),
    Forall (dormant t) (alerts s) ->
    check_price_alert t s c = ([], s, c).
Proof.
  intros t s c H. unfold Alerts.check_price_alert.
  rewrite (check_loop_dormant t (alerts s) c H).
  destruct s as [al n log]. simpl. rewrite app_nil_r. reflexivity.
Qed.

Lemma same_identity_refl (a : alert) : same_identity a a.
Proof. unfold same_identity. repeat split. Qed.

Lemma same_identity_trans (a b c : alert) :
  same_identity a b -> same_identity b c -> same_identity a c.
Proof.
  unfold same_identity.
  intros (A1 & A2 & A3 & A4 & A5 & A6 & A7) (B1 & B2 & B3 & B4 & B5 & B6 & B7).
  repeat split; congruence.
Qed.

Lemma check_loop_identity (t : tick_data) (al : list alert) :
  forall c,
    Forall2 same_identity al (fst (fst (check_loop t al c)))
    /\ Forall (fun a' => triggered a' = true
                         /\ triggered_price a' = Some (tick_price t)
                         /\ symbol a' = tick_symbol t)
              (snd (fst (check_loop t al c))).
Proof.
  induction al as [| a al IH]; intros c; [split; constructor |].
  simpl. destruct (fires t a) eqn:Hf.
  - destruct (now c) as [ts c1]. specialize (IH c1).
    destruct (check_loop t al c1) as [[r tr] c2]. simpl in *.
    destruct IH as [IH1 IH2]. split.
    + constructor; [| exact IH1]. unfold same_identity, fire. simpl.
      repeat split.
    + constructor; [| exact IH2]. simpl. repeat split.
      unfold fires in Hf.
      destruct (negb (is_active a) || triggered a); [discriminate |].
      destruct (String.eqb_spec (symbol a) (tick_symbol t));
        [assumption | discriminate].
  - specialize (IH c).
    destruct (check_loop t al c) as [[r tr] c2]. simpl in *.
    destruct IH as [IH1 IH2]. split; [| exact IH2].
    constructor; [apply same_identity_refl | exact IH1].
Qed.

Lemma Forall2_same_identity_trans (l1 l2 l3 : list alert) :
  Forall2 same_identity l1 l2 -> Forall2 same_identity l2 l3 ->
  Forall2 same_identity l1 l3.
Proof.
  intros H. revert l3. induction H as [| a b l1 l2 Hab H12 IH]; intros l3 H23.
  - inversion H23. constructor.
  - inversion H23 as [| b' c l2' l3' Hbc H23']; subst.
    constructor; [eapply same_identity_trans; eassumption | apply IH, H23'].
Qed.

(** X14. Checks never reorder, add, drop or re-identify alerts: after
    any sequence of ticks the alert at each position still has its id,
    name, condition, symbol, threshold, activity flag and creation time;
    and every copy a check returns is triggered, belongs to the tick's
    symbol and records the tick's price as [triggered_price]. *)
Theorem checks_preserve_alert_identity :
  forall (ts : list tick_data) (s : service) (c : clock),
    Forall2 same_identity (alerts s) (alerts (snd (fst (check_all ts s c))))
    /\ (forall t, Forall (fun a' => triggered a' = true
                                    /\ triggered_price a' = Some (tick_price t)
                                    /\ symbol a' = tick_symbol t)
                         (fst (fst (check_price_alert t s c)))).
Proof.
  intros ts s c. split.
  - revert s c. induction ts as [| t ts IH]; intros s c.
    + simpl. induction (alerts s); constructor;
        [apply same_identity_refl | assumption].
    + simpl. unfold Alerts.check_price_alert.
      destruct (check_loop_identity t (alerts s) c) as [H1 _].
      destruct (check_loop t (alerts s) c) as [[al' trig] c1]. simpl in H1.
      specialize (IH (mkService al' (alert_callbacks s)
                                (notified s ++ notify (alert_callbacks s) trig)) c1).
      destruct (check_all ts _ c1) as [[trigs s2] c2]. simpl in *.
      eapply Forall2_same_identity_trans; eassumption.
  - intros t. unfold Alerts.check_price_alert.
    destruct (check_loop_identity t (alerts s) c) as [_ H2].
    destruct (check_loop t (alerts s) c) as [[al' trig] c1]. exact H2.
Qed.

Lemma run_ops_creates (ops : list op) :
  forall (al : list alert) (c : clock),
    Forall is_create ops ->
    map id (fst (run_ops ops al c))
    = map id al ++ seq (List.length al + 1) (List.length ops).
Proof.
  induction ops as [| o ops IH]; intros al c H.
  - simpl. rewrite app_nil_r. reflexivity.
  - inversion H as [| x l Ho Hops]; subst.
    destruct o as [nm cond sym thr | i]; [| destruct Ho].
    simpl. unfold Alerts.create_alert. destruct (now c) as [ts c1].
    rewrite IH by exact Hops.
    rewrite map_app, length_app. simpl.
    rewrite <- app_assoc. simpl.
    replace (List.length al + 1 + 1) with (S (List.length al + 1)) by lia.
    reflexivity.
Qed.

(** X15. As long as no alert is removed, the ids are unique: after [n]
    [create_alert] calls on a new service the stored ids are
    1, 2, ..., n in order. *)
Theorem ids_sequential_without_removal :
  forall (ops : list op) (c : clock),
    Forall is_create ops ->
    map id (fst (run_ops ops [] c)) = seq 1 (List.length ops)
    /\ NoDup (map id (fst (run_ops ops [] c))).
Proof.
  intros ops c H. rewrite (run_ops_creates ops [] c H). simpl.
  split; [reflexivity | apply seq_NoDup].
Qed.

Lemma filter_all_iff {A} (f : A -> bool) (l : list A) :
  filter f l = l <-> forall x, In x l -> f x = true.
Proof.
  induction l as [| x l IH]; simpl; [split; [intros _ y [] | reflexivity] |].
  destruct (f x) eqn:Hfx.
  - split.
    + intros H y [<- | Hy]; [exact Hfx |].
      injection H as H. apply IH; assumption.
    + intros H. f_equal. apply IH. intros y Hy. apply H. right. exact Hy.
  - split.
    + intros H. exfalso.
      pose proof (filter_length_le f l) as Hle. rewrite H in Hle. simpl in Hle. lia.
    + intros H. rewrite (H x (or_introl eq_refl)) in Hfx. discriminate.
Qed.

(** X16. Removing the alert that [create_alert] just returned, by its id,
    restores the previous alert list exactly when no stored alert already
    had the id [len(alerts) + 1]; otherwise the removal also deletes
    those older alerts. *)
Theorem remove_undoes_create_iff_id_fresh :
  forall (nm cond sym : string) (thr : float) (al : list alert) (c : clock),
    let '(a, al', _) := create_alert nm cond sym thr al c in
    remove_alert (id a) al' = al
    <-> forall x, In x al -> id x <> List.length al + 1.
Proof.
  intros nm cond sym thr al c. unfold Alerts.create_alert.
  destruct (now c) as [ts c1]. cbn [id].
  unfold remove_alert. rewrite filter_app. simpl.
  rewrite Nat.eqb_refl. simpl. rewrite app_nil_r.
  rewrite filter_all_iff. split.
  - intros H x Hx. specialize (H x Hx).
    apply negb_true_iff, Nat.eqb_neq in H. exact H.
  - intros H x Hx. apply negb_true_iff, Nat.eqb_neq. apply H, Hx.
Qed.

End AlertRunFacts.

Lemma check_without_live_alert_is_noop_witness :
  Alerts.check_price_alert nat AlertSamples.now
    AlertRunSamples.other_symbol_tick AlertSamples.service0 0%nat
  = ([], AlertSamples.service0, 0%nat).
Proof.
  apply (check_without_live_alert_is_noop nat AlertSamples.now
           AlertRunSamples.other_symbol_tick AlertSamples.service0 0%nat).
  constructor; [| constructor].
  right. right. left. simpl. intros H. discriminate H.
Defined.

Lemma ids_sequential_without_removal_witness :
  map Alerts.id (fst (Alerts.run_ops nat AlertSamples.now
                        AlertRunSamples.two_creates [] 0%nat))
  = seq 1 (List.length AlertRunSamples.two_creates)
  /\ NoDup (map Alerts.id (fst (Alerts.run_ops nat AlertSamples.now
                                  AlertRunSamples.two_creates [] 0%nat))).
Proof.
  apply (ids_sequential_without_removal nat AlertSamples.now
           AlertRunSamples.two_creates 0%nat).
  repeat constructor.
Defined.

(** ** More on resampling *)

Section BucketFacts.

Import Frame.

Lemma insert_by_time_perm {A} (x : Z * A) (l : list (Z * A)) :
  Permutation (insert_by_time x l) (x :: l).
Proof.
  induction l as [| y l IH]; simpl; [reflexivity |].
  destruct (fst y <? fst x).
  - rewrite IH. apply perm_swap.
  - reflexivity.
Qed.

Lemma sort_by_time_perm {A} (l : list (Z * A)) :
  Permutation (sort_by_time l) l.
Proof.
  unfold sort_by_time. induction l as [| x l IH]; simpl; [reflexivity |].
  rewrite insert_by_time_perm. constructor. exact IH.
Qed.

Lemma insert_by_time_sorted {A} (x : Z * A) (l : list (Z * A)) :
  StronglySorted Z.le (map fst l) ->
  StronglySorted Z.le (map fst (insert_by_time x l)).
Proof.
  induction l as [| y l IH]; simpl; intros H.
  - constructor; constructor.
  - inversion H as [| a b Hs Hall]; subst.
    destruct (Z.ltb_spec (fst y) (fst x)) as [Hlt | Hge]; simpl.
    + constructor; [apply IH, Hs |].
      rewrite Forall_forall. intros z Hz.
      apply (Permutation_in z (Permutation_map fst (insert_by_time_perm x l))) in Hz.
      destruct Hz as [<- | Hz]; [lia |].
      rewrite Forall_forall in Hall. apply Hall, Hz.
    + constructor; [exact H |].
      constructor; [exact Hge |].
      rewrite Forall_forall in *. intros z Hz. specialize (Hall z Hz). lia.
Qed.

Lemma sort_by_time_sorted {A} (l : list (Z * A)) :
  StronglySorted Z.le (map fst (sort_by_time l)).
Proof.
  unfold sort_by_time. induction l as [| x l IH]; simpl; [constructor |].
  apply insert_by_time_sorted, IH.
Qed.

Lemma bucket_start_bounds (w origin t : Z) :
  0 < w -> bucket_start w origin t <= t < bucket_start w origin t + w.
Proof.
  intros Hw. unfold bucket_start.
  pose proof (Z.div_mod (t - origin) w ltac:(lia)) as Hdm.
  pose proof (Z.mod_pos_bound (t - origin) w Hw) as Hm.
  lia.
Qed.

Lemma bucket_start_mono (w origin t1 t2 : Z) :
  0 < w -> t1 <= t2 -> bucket_start w origin t1 <= bucket_start w origin t2.
Proof.
  intros Hw Hle. unfold bucket_start.
  assert ((t1 - origin) / w <= (t2 - origin) / w)
    by (apply Z.div_le_mono; lia).
  nia.
Qed.

Lemma map_mono_sorted (f : Z -> Z) (l : list Z) :
  (forall a b, a <= b -> f a <= f b) ->
  StronglySorted Z.le l -> StronglySorted Z.le (map f l).
Proof.
  intros Hf H. induction H as [| a l Hs IH Hall]; simpl; constructor.
  - exact IH.
  - rewrite Forall_forall in *. intros y Hy.
    apply in_map_iff in Hy. destruct Hy as (x & <- & Hx). apply Hf, Hall, Hx.
Qed.

Lemma nodup_sorted_strict (l : list Z) :
  StronglySorted Z.le l -> StronglySorted Z.lt (nodup Z.eq_dec l).
Proof.
  intros H. induction H as [| a l Hs IH Hall]; simpl; [constructor |].
  destruct (in_dec Z.eq_dec a l) as [Hin | Hnotin]; [exact IH |].
  constructor; [exact IH |].
  rewrite Forall_forall in *. intros y Hy. apply nodup_In in Hy.
  specialize (Hall y Hy).
  assert (y <> a) by (intros ->; contradiction). lia.
Qed.

Lemma groups_keys (w : Z) (ticks : list (Z * (float * float))) :
  map fst (groups w ticks)
  = nodup Z.eq_dec
      (map (bucket_start w (start_day (map fst (sort_by_time ticks))))
           (map fst (sort_by_time ticks))).
Proof.
  unfold groups. rewrite !map_map. simpl. rewrite map_id. reflexivity.
Qed.

Lemma groups_strictly_increasing (w : Z) (ticks : list (Z * (float * float))) :
  0 < w -> StronglySorted Z.lt (map fst (groups w ticks)).
Proof.
  intros Hw. rewrite groups_keys. apply nodup_sorted_strict.
  apply map_mono_sorted; [| apply sort_by_time_sorted].
  intros a b. apply bucket_start_mono. exact Hw.
Qed.

Lemma filter_sorted_strict {A} (f : Z * A -> bool) (l : list (Z * A)) :
  StronglySorted Z.lt (map fst l) -> StronglySorted Z.lt (map fst (filter f l)).
Proof.
  induction l as [| x l IH]; simpl; intros H; [constructor |].
  inversion H as [| a b Hs Hall]; subst.
  destruct (f x); simpl; [| apply IH, Hs].
  constructor; [apply IH, Hs |].
  rewrite Forall_forall in *. intros y Hy. apply Hall.
  apply in_map_iff in Hy. destruct Hy as (z & <- & Hz).
  apply filter_In in Hz. apply in_map. apply Hz.
Qed.

Lemma flat_map_insert {A} (F : Z -> list A) (x : A) (kx : Z) (ks : list Z) :
  NoDup ks -> In kx ks ->
  Permutation (flat_map (fun k => if kx =? k then x :: F k else F k) ks)
              (x :: flat_map F ks).
Proof.
  induction ks as [| k ks IH]; intros Hnd Hx; [destruct Hx |].
  inversion Hnd as [| a b Hnotin Hnd']; subst.
  simpl. destruct (Z.eqb_spec kx k) as [-> | Hne].
  - simpl. constructor. apply Permutation_app_head.
    assert (Hsame : forall ks', ~ In k ks' ->
              flat_map (fun k0 => if k =? k0 then x :: F k0 else F k0) ks'
              = flat_map F ks').
    { clear. induction ks' as [| k' ks' IH']; intros Hn; [reflexivity |].
      simpl. destruct (Z.eqb_spec k k') as [-> | _].
      - exfalso. apply Hn. left. reflexivity.
      - rewrite IH'; [reflexivity |]. intros Hc. apply Hn. right. exact Hc. }
    rewrite Hsame by exact Hnotin. reflexivity.
  - destruct Hx as [Hx | Hx]; [congruence |].
    rewrite (IH Hnd' Hx). symmetry. apply Permutation_middle.
Qed.

Lemma group_partition {A} (key : A -> Z) (l : list A) :
  forall ks : list Z,
    NoDup ks -> (forall x, In x l -> In (key x) ks) ->
    Permutation (flat_map (fun k => filter (fun x => key x =? k) l) ks) l.
Proof.
  induction l as [| x l IH]; intros ks Hnd Hin.
  - simpl. clear. induction ks; simpl; [reflexivity | assumption].
  - assert (Hx : In (key x) ks) by (apply Hin; left; reflexivity).
    assert (Hl : forall y, In y l -> In (key y) ks)
      by (intros y Hy; apply Hin; right; exact Hy).
    specialize (IH ks Hnd Hl).
    transitivity (x :: flat_map (fun k => filter (fun y => key y =? k) l) ks);
      [| constructor; exact IH].
    simpl.
    apply (flat_map_insert (fun k => filter (fun y => key y =? k) l)
                           x (key x) ks Hnd Hx).
Qed.

End BucketFacts.

Section ResampleFacts.

Import Frame.

(** X17. Bucketing loses and repeats nothing: the (price, size) pairs of
    all buckets together are a permutation of those of the ticks, no
    bucket is empty, and every tick lies in a bucket that starts at or
    before its timestamp and ends after it. *)
Theorem buckets_partition_ticks :
  forall (w : Z) (ticks : list (Z * (float * float))),
    0 < w ->
    Permutation (List.concat (map snd (groups w ticks))) (map snd ticks)
    /\ (forall b, In b (groups w ticks) -> snd b <> [])
    /\ (forall t pq, In (t, pq) ticks ->
                     exists b, In b (groups w ticks)
                               /\ fst b <= t < fst b + w
                               /\ In pq (snd b)).
Proof.
  intros w ticks Hw. unfold groups.
  set (sorted := sort_by_time ticks).
  set (origin := start_day (map fst sorted)).
  set (keyed := map (fun r : Z * (float * float) =>
                       (bucket_start w origin (fst r), snd r)) sorted).
  set (keys := nodup Z.eq_dec (map fst keyed)).
  assert (Hkeys : forall x, In x keyed -> In (fst x) keys).
  { intros x Hx. unfold keys. apply nodup_In, in_map, Hx. }
  split; [| split].
  - rewrite map_map. cbn [snd]. rewrite <- flat_map_concat_map.
    assert (Heq : flat_map (fun k => map snd (filter (fun r : Z * (float * float) =>
                                                        fst r =? k) keyed)) keys
                  = map snd (flat_map (fun k => filter (fun r : Z * (float * float) =>
                                                          fst r =? k) keyed) keys)).
    { clear. induction keys as [| k ks IH]; [reflexivity |].
      simpl. rewrite map_app, IH. reflexivity. }
    rewrite Heq.
    rewrite (Permutation_map snd
               (group_partition fst keyed keys (NoDup_nodup Z.eq_dec _) Hkeys)).
    unfold keyed. rewrite map_map. cbn [snd].
    apply Permutation_map, sort_by_time_perm.
  - intros b Hb. apply in_map_iff in Hb. destruct Hb as (k & <- & Hk).
    cbn [snd]. unfold keys in Hk. apply nodup_In in Hk.
    apply in_map_iff in Hk. destruct Hk as (r & Hr & Hin).
    intros Hnil. apply map_eq_nil in Hnil.
    assert (Hf : In r (filter (fun r0 : Z * (float * float) => fst r0 =? k) keyed)).
    { apply filter_In. split; [exact Hin | apply Z.eqb_eq, Hr]. }
    rewrite Hnil in Hf. destruct Hf.
  - intros t pq Hin.
    assert (Hs : In (t, pq) sorted)
      by (apply (Permutation_in _ (Permutation_sym (sort_by_time_perm ticks))), Hin).
    assert (Hk : In (bucket_start w origin t, pq) keyed).
    { unfold keyed. apply in_map_iff. exists (t, pq). split; [reflexivity | exact Hs]. }
    exists (bucket_start w origin t,
            map snd (filter (fun r : Z * (float * float) =>
                               fst r =? bucket_start w origin t) keyed)).
    split; [| split].
    + apply in_map_iff. exists (bucket_start w origin t).
      split; [reflexivity | apply (Hkeys _ Hk)].
    + cbn [fst]. apply bucket_start_bounds, Hw.
    + cbn [snd]. apply in_map_iff. exists (bucket_start w origin t, pq).
      split; [reflexivity |]. apply filter_In. split; [exact Hk |].
      apply Z.eqb_refl.
Qed.

Lemma rows_sorted_of_groups (f : Z * list (float * float) -> Z * list float)
      (w : Z) (ticks : list (Z * (float * float))) (cols : list string)
      (fr : frame) :
  0 < w ->
  (forall b, fst (f b) = fst b) ->
  rows fr = map f (groups w ticks) ->
  StronglySorted Z.lt (map fst (rows (dropna fr))).
Proof.
  intros Hw Hf Hrows. unfold dropna. cbn [rows]. rewrite Hrows.
  apply filter_sorted_strict. rewrite map_map.
  rewrite (map_ext _ fst Hf). apply groups_strictly_increasing, Hw.
Qed.

Variable to_datetime : list string -> option (list Z).
Variable to_offset : string -> option Z.
Variable py_int : string -> option Z.

Lemma rule_of_positive (interval : string) (w : Z) :
  Services.rule_of py_int interval = Ok w -> 0 < w.
Proof.
  unfold Services.rule_of.
  destruct (Services.endswith interval "s").
  - destruct (py_int (Services.init interval)) as [k |]; [| discriminate].
    destruct (Z.ltb_spec 0 k) as [Hk | Hk]; [| discriminate].
    intros H. injection H as <-. lia.
  - destruct (Services.endswith interval "m").
    + destruct (py_int (Services.init interval)) as [k |]; [| discriminate].
      destruct (Z.ltb_spec 0 k) as [Hk | Hk]; [| discriminate].
      intros H. injection H as <-. lia.
    + intros H. injection H as <-. lia.
Qed.

(** X18. The bars that [resample_ticks] returns have strictly increasing
    bucket timestamps, for every input and every interval, in both copies
    (for [app.py]: given that pandas maps a frequency string to a
    positive bucket width). *)
Theorem resampled_timestamps_strictly_increase :
  forall (df : list tick_row) (interval : string),
    (forall s w, to_offset s = Some w -> 0 < w) ->
    StronglySorted Z.lt
      (map fst (rows (App.resample_ticks to_datetime to_offset df interval)))
    /\ StronglySorted Z.lt
         (map fst (rows (Services.resample_ticks to_datetime py_int df interval))).
Proof.
  intros df interval Hoff. split.
  - unfold App.resample_ticks.
    destruct (List.length df <? 5)%nat; [constructor |].
    unfold App.resample_body.
    destruct (parse_rows to_datetime df) as [ticks |]; [| constructor].
    cbn [Py.bind]. destruct (to_offset interval) as [w |] eqn:Hw; [| constructor].
    cbn [Py.bind try_except]. specialize (Hoff interval w Hw).
    destruct (List.length df <? 10)%nat.
    + apply (rows_sorted_of_groups close_bar w ticks []); auto using app_small_rows.
    + apply (rows_sorted_of_groups bar w ticks []); auto using app_general_rows.
  - unfold Services.resample_ticks.
    destruct (List.length df <? 5)%nat; [constructor |].
    unfold Services.resample_body.
    destruct (parse_rows to_datetime df) as [ticks |]; [| constructor].
    cbn [Py.bind].
    destruct (Services.rule_of py_int interval) as [w |] eqn:Hw; [| constructor].
    cbn [Py.bind try_except]. apply rule_of_positive in Hw.
    destruct (List.length df <? 10)%nat.
    + apply (rows_sorted_of_groups bar w ticks []); auto.
      apply services_small_rows, groups_keys_nodup.
    + apply (rows_sorted_of_groups bar w ticks []); auto using services_general_rows.
Qed.

Lemma parse_rows_fails (df : list tick_row) :
  to_datetime (map row_timestamp df) = None ->
  exists e, parse_rows to_datetime df = Raise e.
Proof.
  intros H. unfold parse_rows. rewrite H. eexists. reflexivity.
Qed.

(** X19. [resample_ticks] never raises on bad input but returns the empty
    frame: when [pd.to_datetime] rejects the stored timestamps, or when
    the interval is rejected ([app.py]: by pandas;
    [services/analytics.py]: a prefix that [int] rejects or a count that
    is not positive). *)
Theorem resample_absorbs_bad_input :
  forall (df : list tick_row) (interval : string),
    (to_datetime (map row_timestamp df) = None
     \/ to_offset interval = None ->
     App.resample_ticks to_datetime to_offset df interval = empty_frame)
    /\ (to_datetime (map row_timestamp df) = None
        \/ (exists e, Services.rule_of py_int interval = Raise e) ->
        Services.resample_ticks to_datetime py_int df interval = empty_frame).
Proof.
  intros df interval. split; intros H.
  - unfold App.resample_ticks.
    destruct (List.length df <? 5)%nat; [reflexivity |].
    unfold App.resample_body. destruct H as [H | H].
    + destruct (parse_rows_fails df H) as [e ->]. reflexivity.
    + destruct (parse_rows to_datetime df); [| reflexivity].
      cbn [Py.bind]. rewrite H. reflexivity.
  - unfold Services.resample_ticks.
    destruct (List.length df <? 5)%nat; [reflexivity |].
    unfold Services.resample_body. destruct H as [H | [e H]].
    + destruct (parse_rows_fails df H) as [e ->]. reflexivity.
    + destruct (parse_rows to_datetime df); [| reflexivity].
      cbn [Py.bind]. rewrite H. reflexivity.
Qed.

Lemma last_char_append (s : string) (c : ascii) :
  Services.last_char (String.append s (String c EmptyString)) = Some c.
Proof.
  induction s as [| a s IH]; [reflexivity |].
  simpl. rewrite IH.
  destruct (String.append s (String c EmptyString)) eqn:He; [| reflexivity].
  destruct s; discriminate He.
Qed.

Lemma init_append (s : string) (c : ascii) :
  Services.init (String.append s (String c EmptyString)) = s.
Proof.
  induction s as [| a s IH]; [reflexivity |].
  simpl. rewrite IH.
  destruct (String.append s (String c EmptyString)) eqn:He; [| reflexivity].
  destruct s; discriminate He.
Qed.

(** X20. The interval of [services/analytics.py]: a count followed by
    ['s'] or ['m'] that [int] reads as [k > 0] gives buckets of [k]
    seconds or [k] minutes; an interval that ends in neither letter
    (such as ['1h']) is resampled at one minute without any error. *)
Theorem interval_rule :
  forall (count : string) (k : Z),
    py_int count = Some k -> 0 < k ->
    Services.rule_of py_int (String.append count "s") = Ok (k * 1000)
    /\ Services.rule_of py_int (String.append count "m") = Ok (k * 60000)
    /\ (forall interval,
           Services.endswith interval "s" = false ->
           Services.endswith interval "m" = false ->
           Services.rule_of py_int interval = Ok 60000).
Proof.
  intros count k Hk Hpos. apply Z.ltb_lt in Hpos.
  unfold Services.rule_of, Services.endswith.
  split; [| split].
  - rewrite last_char_append, init_append, Hk, Hpos. reflexivity.
  - rewrite last_char_append, init_append, Hk, Hpos. reflexivity.
  - intros interval Hs Hm. rewrite Hs, Hm. reflexivity.
Qed.

End ResampleFacts.

Section MergeFacts.

Import Frame.

Lemma filter_key_at_most_one {A} (k : Z) (rs : list (Z * A)) :
  NoDup (map fst rs) ->
  (List.length (filter (fun rr => (fst rr =? k)%Z) rs) <= 1)%nat.
Proof.
  induction rs as [| r rs IH]; simpl; intros H; [lia |].
  inversion H as [| a b Hnotin Hnd]; subst.
  destruct (Z.eqb_spec (fst r) k) as [He | Hne]; [| apply IH, Hnd].
  simpl.
  assert (Hnone : filter (fun rr => fst rr =? k) rs = []).
  { clear IH H Hnd. induction rs as [| x rs IHr]; [reflexivity |].
    simpl. destruct (Z.eqb_spec (fst x) k) as [Hx | _].
    - exfalso. apply Hnotin. left. congruence.
    - apply IHr. intros Hc. apply Hnotin. right. exact Hc. }
  rewrite Hnone. simpl. lia.
Qed.

(** X21. [pd.merge(..., on='timestamp')] is an inner join: a timestamp
    occurs among the joined rows exactly when it occurs in both frames;
    and when the right frame has one row per timestamp, the join has no
    more rows than the left frame. *)
Theorem merge_joins_common_timestamps :
  forall (l r : frame) (sl sr : string),
    (forall ts, In ts (map fst (rows (merge l r sl sr)))
                <-> In ts (map fst (rows l)) /\ In ts (map fst (rows r)))
    /\ (NoDup (map fst (rows r)) -> (len (merge l r sl sr) <= len l)%nat).
Proof.
  intros l r sl sr. unfold merge, len. cbn [rows]. split.
  - intros ts. rewrite in_map_iff. split.
    + intros (row & Hts & Hin). apply in_flat_map in Hin.
      destruct Hin as (lr & Hlr & Hrow). apply in_map_iff in Hrow.
      destruct Hrow as (rr & <- & Hrr). apply filter_In in Hrr.
      destruct Hrr as [Hrr Hkey]. apply Z.eqb_eq in Hkey.
      cbn [fst] in Hts. subst ts. split.
      * apply in_map, Hlr.
      * rewrite <- Hkey. apply in_map, Hrr.
    + intros [Hl Hr]. apply in_map_iff in Hl. destruct Hl as (lr & <- & Hlr).
      apply in_map_iff in Hr. destruct Hr as (rr & Hkey & Hrr).
      exists (fst lr, snd lr ++ snd rr). split; [reflexivity |].
      apply in_flat_map. exists lr. split; [exact Hlr |].
      apply in_map_iff. exists rr. split; [reflexivity |].
      apply filter_In. split; [exact Hrr | apply Z.eqb_eq, Hkey].
  - intros Hnd. induction (rows l) as [| lr ls IH]; [simpl; lia |].
    simpl. rewrite length_app, length_map.
    pose proof (filter_key_at_most_one (fst lr) (rows r) Hnd). lia.
Qed.

End MergeFacts.

(** ** [ingestor.py] *)

Section IngestorFacts.

Import Ingestor.

Variable float_of_string : string -> option float.
Variable float_of_int : Z -> option float.
Variable utc_of_millis : json -> result string.
Variable json_loads : string -> result json.
Variable W : Type.
Variable add_all : list Tick -> W -> W * option exn.
Variable commit : W -> W * option exn.
Variable rollback : W -> W * option exn.

Notation tick_of :=
  (Ingestor.tick_of float_of_string float_of_int utc_of_millis json_loads).
Notation on_message :=
  (Ingestor.on_message float_of_string float_of_int utc_of_millis json_loads W).
Notation batch_round := (Ingestor.batch_round W add_all commit rollback).
Notation run :=
  (Ingestor.run float_of_string float_of_int utc_of_millis json_loads
                W add_all commit rollback).
Notation received :=
  (Ingestor.received float_of_string float_of_int utc_of_millis json_loads).

(** X22. A trade event yields the same tick, and so the same buffer,
    whether it arrives bare or as the ['data'] member of a
    combined-stream envelope. *)
Theorem envelope_is_transparent :
  forall (bare wrapped : string) (fields env : list (string * json))
         (st : state W),
    json_loads bare = Ok (JObject fields) ->
    json_loads wrapped = Ok (JObject env) ->
    assoc "e" fields = Some (JString "trade") ->
    assoc "data" fields = None ->
    assoc "data" env = Some (JObject fields) ->
    tick_of wrapped = tick_of bare
    /\ on_message wrapped st = on_message bare st.
Proof.
  intros bare wrapped fields env st Hb Hw He Hnd Hd.
  assert (Heq : tick_of wrapped = tick_of bare).
  { unfold Ingestor.tick_of. rewrite Hb, Hw. cbn [Py.bind].
    assert (H1 : is_trade (JObject fields) = Ok true).
    { unfold is_trade. simpl get. rewrite He. reflexivity. }
    assert (H2 : is_trade (JObject env) = Ok true).
    { unfold is_trade. simpl get.
      destruct (assoc "e" env) as [v |]; cbn [Py.bind].
      - destruct (eq_str v "trade"); [reflexivity |].
        unfold get_default. rewrite Hd. cbn [Py.bind]. simpl get. rewrite He.
        reflexivity.
      - simpl eq_str. unfold get_default. rewrite Hd. cbn [Py.bind].
        simpl get. rewrite He. reflexivity. }
    rewrite H1, H2. cbn [Py.bind]. unfold get_default.
    rewrite Hnd, Hd. reflexivity. }
  split; [exact Heq |]. unfold Ingestor.on_message. rewrite Heq. reflexivity.
Qed.

Lemma step_accounts (ev : event) (st : state W) :
  List.concat (submitted (step float_of_string float_of_int utc_of_millis
                               json_loads W add_all commit rollback ev st))
  ++ TICK_BUFFER (step float_of_string float_of_int utc_of_millis
                       json_loads W add_all commit rollback ev st)
  = (List.concat (submitted st) ++ TICK_BUFFER st) ++ received [ev].
Proof.
  destruct ev as [m |]; simpl.
  - unfold Ingestor.on_message.
    destruct (tick_of m) as [[tick |] | e]; simpl;
      rewrite ?app_nil_r, ?app_assoc; reflexivity.
  - rewrite app_nil_r. unfold Ingestor.batch_round.
    destruct (writer_alive st); simpl; [| reflexivity].
    destruct (TICK_BUFFER st) as [| t0 rest] eqn:Hbuf;
      [rewrite Hbuf; reflexivity |].
    destruct (add_all (t0 :: rest) (session st)) as [w1 [e |]].
    + destruct (rollback w1) as [w' r]. simpl.
      rewrite concat_app. simpl. rewrite !app_nil_r. reflexivity.
    + destruct (commit w1) as [w2 [e |]].
      * destruct (rollback w2) as [w' r]. simpl.
        rewrite concat_app. simpl. rewrite !app_nil_r. reflexivity.
      * simpl. rewrite concat_app. simpl. rewrite !app_nil_r. reflexivity.
Qed.

Lemma step_batches_nonempty (ev : event) (st : state W) :
  Forall (fun batch => batch <> []) (submitted st) ->
  Forall (fun batch => batch <> [])
         (submitted (step float_of_string float_of_int utc_of_millis
                          json_loads W add_all commit rollback ev st)).
Proof.
  intros H. destruct ev as [m |]; simpl.
  - unfold Ingestor.on_message.
    destruct (tick_of m) as [[tick |] | e]; exact H.
  - unfold Ingestor.batch_round.
    destruct (writer_alive st); simpl; [| exact H].
    destruct (TICK_BUFFER st) as [| t0 rest] eqn:Hbuf; [exact H |].
    assert (Hnew : Forall (fun batch : list Tick => batch <> [])
                          (submitted st ++ [t0 :: rest])).
    { apply Forall_app. split; [exact H |].
      constructor; [discriminate | constructor]. }
    destruct (add_all (t0 :: rest) (session st)) as [w1 [e |]].
    + destruct (rollback w1) as [w' r]. exact Hnew.
    + destruct (commit w1) as [w2 [e |]].
      * destruct (rollback w2) as [w' r]. exact Hnew.
      * exact Hnew.
Qed.

Lemma received_app (evs1 evs2 : list event) :
  received (evs1 ++ evs2) = received evs1 ++ received evs2.
Proof.
  induction evs1 as [| ev evs1 IH]; [reflexivity |].
  destruct ev as [m |]; simpl; [| exact IH].
  destruct (tick_of m) as [[tick |] | e]; simpl; rewrite IH; reflexivity.
Qed.

(** X23. Whatever the interleaving of messages and rounds of the batch
    writer, and whether or not the session raises: the batches handed to
    [session.add_all], in order, followed by the buffer are exactly the
    ticks received, in order (each tick is submitted at most once and
    none is dropped before submission); no empty batch is submitted. A
    batch whose commit failed is not put back into the buffer. *)
Theorem batches_account_for_every_tick :
  forall (evs : list event) (w : W),
    let st := run evs (mkState [] w [] [] true) in
    List.concat (submitted st) ++ TICK_BUFFER st = received evs
    /\ Forall (fun batch => batch <> []) (submitted st).
Proof.
  intros evs w st.
  assert (G : forall evs0 s0,
            List.concat (submitted (run evs0 s0)) ++ TICK_BUFFER (run evs0 s0)
            = (List.concat (submitted s0) ++ TICK_BUFFER s0) ++ received evs0
            /\ (Forall (fun batch => batch <> []) (submitted s0) ->
                Forall (fun batch => batch <> []) (submitted (run evs0 s0)))).
  { induction evs0 as [| ev evs0 IH]; intros s0.
    - simpl. rewrite app_nil_r. split; [reflexivity | auto].
    - unfold Ingestor.run. simpl fold_left.
      fold (run evs0 (step float_of_string float_of_int utc_of_millis
                           json_loads W add_all commit rollback ev s0)).
      destruct (IH (step float_of_string float_of_int utc_of_millis
                         json_loads W add_all commit rollback ev s0)) as [H1 H2].
      split.
      + rewrite H1, step_accounts.
        change (ev :: evs0) with ([ev] ++ evs0).
        rewrite (received_app [ev] evs0), <- !app_assoc. reflexivity.
      + intros H. apply H2, step_batches_nonempty, H. }
  destruct (G evs (mkState [] w [] [] true)) as [H1 H2].
  split; [exact H1 | apply H2; constructor].
Qed.

End IngestorFacts.

Lemma envelope_is_transparent_witness :
  Ingestor.tick_of HandlerSamples.float_of_string HandlerSamples.float_of_int
    HandlerSamples.isoformat_of_millis ExtraSamples.json_loads "wrapped"
  = Ingestor.tick_of HandlerSamples.float_of_string HandlerSamples.float_of_int
      HandlerSamples.isoformat_of_millis ExtraSamples.json_loads "bare"
  /\ Ingestor.on_message HandlerSamples.float_of_string
       HandlerSamples.float_of_int HandlerSamples.isoformat_of_millis
       ExtraSamples.json_loads unit "wrapped"
       (Ingestor.mkState [] tt [] [] true)
     = Ingestor.on_message HandlerSamples.float_of_string
         HandlerSamples.float_of_int HandlerSamples.isoformat_of_millis
         ExtraSamples.json_loads unit "bare"
         (Ingestor.mkState [] tt [] [] true).
Proof.
  apply (envelope_is_transparent
           HandlerSamples.float_of_string HandlerSamples.float_of_int
           HandlerSamples.isoformat_of_millis ExtraSamples.json_loads unit
           "bare" "wrapped" ExtraSamples.trade_fields ExtraSamples.envelope
           (Ingestor.mkState [] tt [] [] true));
    reflexivity.
Defined.

Lemma buckets_partition_ticks_witness :
  Permutation
    (List.concat (map snd (Frame.groups 60000 ResampleSamples.three_ticks)))
    (map snd ResampleSamples.three_ticks)
  /\ (forall b, In b (Frame.groups 60000 ResampleSamples.three_ticks) ->
                snd b <> [])
  /\ (forall t pq, In (t, pq) ResampleSamples.three_ticks ->
                   exists b, In b (Frame.groups 60000 ResampleSamples.three_ticks)
                             /\ fst b <= t < fst b + 60000
                             /\ In pq (snd b)).
Proof.
  apply (buckets_partition_ticks 60000 ResampleSamples.three_ticks). lia.
Defined.

Lemma resampled_timestamps_strictly_increase_witness :
  StronglySorted Z.lt
    (map fst (Frame.rows
                (App.resample_ticks AnalyticsSamples.parse_minute
                   AnalyticsSamples.to_offset
                   [Frame.mkRow AnalyticsSamples.minute_2 98 1;
                    Frame.mkRow AnalyticsSamples.minute_0 99 1;
                    Frame.mkRow AnalyticsSamples.minute_1 101 1;
                    Frame.mkRow AnalyticsSamples.minute_0 100 1;
                    Frame.mkRow AnalyticsSamples.minute_2 100 1]%float "1min")))
  /\ StronglySorted Z.lt
       (map fst (Frame.rows
                   (Services.resample_ticks AnalyticsSamples.parse_minute
                      AnalyticsSamples.py_int
                      [Frame.mkRow AnalyticsSamples.minute_2 98 1;
                       Frame.mkRow AnalyticsSamples.minute_0 99 1;
                       Frame.mkRow AnalyticsSamples.minute_1 101 1;
                       Frame.mkRow AnalyticsSamples.minute_0 100 1;
                       Frame.mkRow AnalyticsSamples.minute_2 100 1]%float "1m"))).
Proof.
  split.
  - apply (proj1 (resampled_timestamps_strictly_increase
                    AnalyticsSamples.parse_minute AnalyticsSamples.to_offset
                    AnalyticsSamples.py_int _ "1min"
                    ltac:(intros s w; unfold AnalyticsSamples.to_offset;
                          destruct (String.eqb s "1min");
                          [intros H; injection H as <-; lia |];
                          destruct (String.eqb s "5s");
                          [intros H; injection H as <-; lia | discriminate]))).
  - apply (proj2 (resampled_timestamps_strictly_increase
                    AnalyticsSamples.parse_minute AnalyticsSamples.to_offset
                    AnalyticsSamples.py_int _ "1m"
                    ltac:(intros s w; unfold AnalyticsSamples.to_offset;
                          destruct (String.eqb s "1min");
                          [intros H; injection H as <-; lia |];
                          destruct (String.eqb s "5s");
                          [intros H; injection H as <-; lia | discriminate]))).
Defined.

Lemma interval_rule_witness :
  Services.rule_of AnalyticsSamples.py_int (String.append "5" "s") = Ok (5 * 1000)
  /\ Services.rule_of AnalyticsSamples.py_int (String.append "5" "m")
     = Ok (5 * 60000)
  /\ (forall interval,
         Services.endswith interval "s" = false ->
         Services.endswith interval "m" = false ->
         Services.rule_of AnalyticsSamples.py_int interval = Ok 60000).
Proof.
  apply (interval_rule AnalyticsSamples.py_int "5" 5).
  - reflexivity.
  - lia.
Defined.

(** ** More on the analytics *)

Section MoreAnalyticsFacts.

Import Frame.

Variable to_datetime : list string -> option (list Z).
Variable to_offset : string -> option Z.
Variable get_recent_ticks : string -> Z -> result (list tick_row).
Variable rng : Type.
Variable uniform : float -> float -> rng -> float * rng.
Variable adfuller : list float -> result (float * float * list (string * float)).

Notation app_regression :=
  (App.pairwise_regression to_datetime to_offset get_recent_ticks rng uniform).
Notation app_zscore := (App.calculate_spread_zscore rng uniform).

(** X24. [adf_test] runs [adfuller] on the series without its NaN
    entries and needs 10 of them: with at least 10 it returns the
    library's statistic, p-value and critical values, and
    [is_stationary] is [p_value <= 0.05]. *)
Theorem adf_reports_library_result :
  forall (series : list float) (stat p : float) (crit : list (string * float)),
    (10 <= List.length (filter (fun v => negb (Np.isnan v)) series))%nat ->
    adfuller (filter (fun v => negb (Np.isnan v)) series) = Ok (stat, p, crit) ->
    Services.adf_test adfuller series
    = Services.mkAdf stat p crit (PrimFloat.leb p 0.05).
Proof.
  intros series stat p crit Hlen Hres.
  pose proof (filter_length_le (fun v => negb (Np.isnan v)) series) as Hle.
  unfold Services.adf_test, Services.adf_body.
  destruct (Nat.ltb_spec (List.length series) 10) as [Hlt | _]; [lia |].
  destruct (Nat.ltb_spec
              (List.length (filter (fun v => negb (Np.isnan v)) series)) 10)
    as [Hlt | _]; [lia |].
  rewrite Hres. reflexivity.
Qed.

(** X25. A series with at least 10 entries of which fewer than 10 are
    not NaN gets the neutral result: [adfuller] is not called on it. *)
Theorem adf_ignores_nan_entries :
  forall series : list float,
    (List.length (filter (fun v => negb (Np.isnan v)) series) < 10)%nat ->
    Services.adf_test adfuller series = Services.neutral_adf.
Proof.
  intros series Hlen. unfold Services.adf_test, Services.adf_body.
  destruct (List.length series <? 10)%nat; [reflexivity |].
  apply Nat.ltb_lt in Hlen. rewrite Hlen. reflexivity.
Qed.

(** X26. With at least 5 stored ticks for each symbol,
    [pairwise_regression] of [app.py] draws no random number: its result
    does not depend on the state of the [random] module, which it leaves
    as it found it. The same holds for [calculate_spread_zscore] on a
    series of at least 5 points. *)
Theorem enough_data_uses_no_randomness :
  forall (symbol1 symbol2 timeframe : string) (df1 df2 : list tick_row)
         (spread_series : list float) (window : Z) (g g' : rng),
    get_recent_ticks symbol1 200 = Ok df1 ->
    get_recent_ticks symbol2 200 = Ok df2 ->
    (5 <= List.length df1)%nat -> (5 <= List.length df2)%nat ->
    (5 <= List.length spread_series)%nat ->
    snd (app_regression symbol1 symbol2 timeframe g) = g
    /\ fst (app_regression symbol1 symbol2 timeframe g)
       = fst (app_regression symbol1 symbol2 timeframe g')
    /\ snd (app_zscore spread_series window g) = g
    /\ fst (app_zscore spread_series window g)
       = fst (app_zscore spread_series window g').
Proof.
  intros symbol1 symbol2 timeframe df1 df2 s window g g' H1 H2 Hl1 Hl2 Hs.
  assert (Hreg : forall x,
            app_regression symbol1 symbol2 timeframe x
            = (fst (app_regression symbol1 symbol2 timeframe x), x)
            /\ fst (app_regression symbol1 symbol2 timeframe x)
               = fst (app_regression symbol1 symbol2 timeframe g)).
  { intros x. unfold App.pairwise_regression, App.pairwise_regression_body.
    rewrite H1, H2. cbn [Py.bind].
    destruct (Nat.ltb_spec (List.length df1) 5) as [Hlt | _]; [lia |].
    destruct (Nat.ltb_spec (List.length df2) 5) as [Hlt | _]; [lia |].
    cbn [orb].
    destruct (is_empty _ || is_empty _); [split; reflexivity |].
    destruct (len _ <? 3)%nat; [split; reflexivity |].
    destruct (col _ _) as [X |]; [| split; reflexivity].
    destruct (col _ _) as [y |]; split; reflexivity. }
  assert (Hz : forall x,
            app_zscore s window x = (fst (app_zscore s window x), x)
            /\ fst (app_zscore s window x) = fst (app_zscore s window g)).
  { intros x. unfold App.calculate_spread_zscore.
    destruct (Nat.ltb_spec (List.length s) 5) as [Hlt | _]; [lia |].
    destruct (_ <? 2)%Z; split; reflexivity. }
  destruct (Hreg g) as [E1 _]. destruct (Hreg g') as [_ E2].
  destruct (Hz g) as [E3 _]. destruct (Hz g') as [_ E4].
  rewrite E1 at 1. rewrite E3 at 1. simpl.
  repeat split; [symmetry; exact E2 | symmetry; exact E4].
Qed.

(** X27. [calculate_spread_zscore] of [app.py] with a window of 1, 0 or
    less on a series of at least 5 points reports a z-score of 0 together
    with the mean and the population standard deviation of the whole
    series. *)
Theorem zscore_degenerate_window :
  forall (spread_series : list float) (window : Z) (g : rng),
    (5 <= List.length spread_series)%nat -> window < 2 ->
    app_zscore spread_series window g
    = (App.mkZscore 0 (Np.mean spread_series) (Np.std spread_series), g).
Proof.
  intros s window g Hlen Hw. unfold App.calculate_spread_zscore.
  destruct (Nat.ltb_spec (List.length s) 5) as [Hlt | _]; [lia |].
  destruct (Z.ltb_spec (Z.of_nat (List.length s)) window) as [Hlt | _]; [lia |].
  destruct (Z.ltb_spec window 2) as [_ | Hge]; [| lia].
  destruct (Nat.ltb_spec 0 (List.length s)) as [_ | Hz]; [reflexivity | lia].
Qed.

End MoreAnalyticsFacts.

Lemma adf_reports_library_result_witness :
  Services.adf_test ExtraSamples.adfuller_ok ExtraSamples.series_12
  = Services.mkAdf (-3.5) 0.01
      [("1%", (-3.43)%float); ("5%", (-2.86)%float); ("10%", (-2.57)%float)]
      (PrimFloat.leb 0.01 0.05).
Proof.
  apply (adf_reports_library_result ExtraSamples.adfuller_ok
           ExtraSamples.series_12).
  - vm_compute. lia.
  - reflexivity.
Defined.

Lemma adf_ignores_nan_entries_witness :
  Services.adf_test ExtraSamples.adfuller_ok
    [1; 2; nan; 3; 4; nan; 5; 6; nan; 7; 8]%float
  = Services.neutral_adf.
Proof.
  apply (adf_ignores_nan_entries ExtraSamples.adfuller_ok).
  vm_compute. lia.
Defined.

Lemma enough_data_uses_no_randomness_witness :
  snd (App.pairwise_regression AnalyticsSamples.parse_minute
         AnalyticsSamples.to_offset AnalyticsSamples.get_recent_ticks
         (list float) AnalyticsSamples.uniform
         "btcusdt" "ethusdt" "1min" [0.25%float]) = [0.25%float]
  /\ fst (App.pairwise_regression AnalyticsSamples.parse_minute
            AnalyticsSamples.to_offset AnalyticsSamples.get_recent_ticks
            (list float) AnalyticsSamples.uniform
            "btcusdt" "ethusdt" "1min" [0.25%float])
     = fst (App.pairwise_regression AnalyticsSamples.parse_minute
              AnalyticsSamples.to_offset AnalyticsSamples.get_recent_ticks
              (list float) AnalyticsSamples.uniform
              "btcusdt" "ethusdt" "1min" [0.75%float])
  /\ snd (App.calculate_spread_zscore (list float) AnalyticsSamples.uniform
            AnalyticsSamples.spread_6 5 [0.25%float]) = [0.25%float]
  /\ fst (App.calculate_spread_zscore (list float) AnalyticsSamples.uniform
            AnalyticsSamples.spread_6 5 [0.25%float])
     = fst (App.calculate_spread_zscore (list float) AnalyticsSamples.uniform
              AnalyticsSamples.spread_6 5 [0.75%float]).
Proof.
  apply (enough_data_uses_no_randomness
           AnalyticsSamples.parse_minute AnalyticsSamples.to_offset
           AnalyticsSamples.get_recent_ticks (list float) AnalyticsSamples.uniform
           "btcusdt" "ethusdt" "1min" _ _ AnalyticsSamples.spread_6 5
           [0.25%float] [0.75%float] eq_refl eq_refl).
  - simpl. lia.
  - simpl. lia.
  - simpl. lia.
Defined.

(** Ten values 0.1 and window 1: mean 0.1 and std 0. *)
Lemma zscore_degenerate_window_witness :
  App.calculate_spread_zscore (list float) AnalyticsSamples.uniform
    (repeat 0.1%float 10) 1 []
  = (App.mkZscore 0 0.1 0, []).
Proof.
  apply (zscore_degenerate_window (list float) AnalyticsSamples.uniform
           (repeat 0.1%float 10) 1 []).
  - simpl. lia.
  - lia.
Defined.

(** X28. In a bucket whose prices are all proper numbers, the bar opens
    at the first price and closes at the last one, and its high and low
    are prices that occur in the bucket. *)
Theorem bar_prices_come_from_bucket :
  forall (b : Z * list (float * float)) (v0 : float) (rest : list float),
    Frame.prices b = v0 :: rest ->
    Forall (fun v => Np.isnan v = false) (Frame.prices b) ->
    exists high low,
      Frame.bar b
      = (fst b, [v0; high; low; List.last rest v0; Frame.agg_sum (Frame.sizes b)])
      /\ In high (Frame.prices b) /\ In low (Frame.prices b).
Proof.
  intros b v0 rest Hp Hnan.
  assert (Hvalid : Frame.valid (Frame.prices b) = v0 :: rest).
  { rewrite <- Hp. unfold Frame.valid. apply filter_all_iff.
    rewrite Forall_forall in Hnan. intros x Hx. rewrite (Hnan x Hx). reflexivity. }
  exists (Frame.agg_max (Frame.prices b)), (Frame.agg_min (Frame.prices b)).
  unfold Frame.bar, Frame.agg_first, Frame.agg_last, Frame.agg_max, Frame.agg_min.
  rewrite Hvalid, last_cons_default, Hp. cbn [hd].
  split; [reflexivity |]. split.
  - apply fold_fmax_in.
  - apply fold_fmin_in.
Qed.

Lemma bar_prices_come_from_bucket_witness :
  exists high low,
    Frame.bar (36000000, [(100, 0.5); (102, 0.25)]%float)
    = (fst (36000000, [(100, 0.5); (102, 0.25)]%float),
       [100%float; high; low; List.last [102%float] 100%float;
        Frame.agg_sum (Frame.sizes (36000000, [(100, 0.5); (102, 0.25)]%float))])
    /\ In high (Frame.prices (36000000, [(100, 0.5); (102, 0.25)]%float))
    /\ In low (Frame.prices (36000000, [(100, 0.5); (102, 0.25)]%float)).
Proof.
  apply (bar_prices_come_from_bucket
           (36000000, [(100, 0.5); (102, 0.25)]%float) 100%float [102%float]).
  - reflexivity.
  - repeat constructor.
Defined.
